(** * logerrors: sliding-window statistics of PostgreSQL log messages

    A shallow embedding of [logerrors.c]: the shared hashtable of
    [MessageInfo] entries, the [GlobalInfo] block, the background worker's
    rotation step [logerrors_update_info], the log hook
    [logerrors_emit_log_hook] and the three SQL-callable functions
    [pg_log_errors_stats], [pg_log_errors_reset] and [pg_slow_log_stats].
    The worker's loop [logerrors_main] and the loading of the module
    ([_PG_init], [_PG_fini], [logerrors_load_params]) follow.

    Conventions.
    - A [pg_atomic_uint32] is a [Z] in [0, 2^32); a C [int] is a [Z] in
      [-2^31, 2^31).  Every conversion the C code performs is written out
      with [uint32] and [int32].
    - Fixed-size C arrays are lists; [l !!! i] reads and [<[i:=v]> l]
      writes.  The invariant [ready] below bounds every index that the code
      uses, so the out-of-range behaviour of the list operations is never
      exercised on the states the theorems speak about.
    - [hash_search (..., HASH_FIND, ...)] is a lookup in a [gmap]; where the
      C code dereferences the result without testing [found], the model
      fails with [None]. *)

From Stdlib Require Import ZArith Lia String Ascii.
From stdpp Require Import base strings numbers option gmap list.

Local Open Scope Z_scope.

(** ** Machine integers *)

Definition uint32 (z : Z) : Z := z mod 2 ^ 32.

Definition int32 (z : Z) : Z := (z + 2 ^ 31) mod 2 ^ 32 - 2 ^ 31.

(** [pg_atomic_fetch_add_u32 (ptr, add)]: the new value stored at [ptr]. *)
Definition pg_atomic_fetch_add_u32 (v add : Z) : Z := uint32 (v + add).

(** ** constants.h

    The header is not part of the sources at hand.  The two array
    dimensions are visible in the declaration of [MessageInfo]
    ([message_count[3]], [intervals[3][360]], under the comment "Depends on
    message_types_count, max_number_of_intervals"); the tables are taken as
    a parameter. *)

Definition message_types_count : nat := 3.

Definition max_number_of_intervals : Z := 360.

Record Constants := {
  message_types_codes : list Z;
  message_type_names : list string;
  error_codes : list Z;
  error_names : list string;
  not_known_error_code : Z;
}.

Definition error_types_count (K : Constants) : nat := length (error_codes K).

(** ** Shared data (lines 49-80 of logerrors.c) *)

Record MessageInfo := {
  key : Z;
  message_count : list Z;       (* pg_atomic_uint32 [3] *)
  sum_in_buffer : list Z;       (* int [3] *)
  intervals : list (list Z);    (* pg_atomic_uint32 [3][360] *)
  name : string;
}.

Record SlowLogInfo := {
  count : Z;                    (* pg_atomic_uint32 *)
  reset_time : Z;               (* pg_atomic_uint64 *)
}.

Record GlobalInfo := {
  interval : Z;
  intervals_count : Z;
  current_interval_index : Z;   (* pg_atomic_uint32 *)
  total_count : list Z;         (* pg_atomic_uint32 [3] *)
  slow_log_info : SlowLogInfo;
}.

(** A line written by [elog (LOG, ...)]. *)
Inductive LogLine :=
  | not_known_error_code_line (sqlerrcode : Z).

(** The two static pointers into shared memory, the two process flags the
    hook consults, and the server log. *)
Record Backend := {
  messages_info_hashtable : option (gmap Z MessageInfo);
  global_variables : option GlobalInfo;
  MyProc : bool;                (* MyProc != NULL *)
  proc_exit_inprogress : bool;
  server_log : list LogLine;
}.

(** ** Loops *)

(** [for (i = 0; i < n; ++i) body (i)], where the body may fail. *)
Fixpoint for_each {A S : Type} (body : A → S → option S) (l : list A) (s : S)
    : option S :=
  match l with
  | [] => Some s
  | a :: l' => s' ← body a s; for_each body l' s'
  end.

Definition for_loop {S : Type} (n : nat) (body : nat → S → option S) (s : S)
    : option S :=
  for_each body (seq 0 n) s.

(** ** MemSet

    [MemSet (start, 0, len)] clears [len] BYTES.  On an array of 4-byte
    words this clears word [k] when [4 * (k + 1) <= len], leaves it alone
    when [len <= 4 * k], and clears the [len - 4 * k] bytes of lowest
    address otherwise (the low-order bytes, on a little-endian machine). *)

Definition MemSet_word (len : Z) (k : nat) (w : Z) : Z :=
  if decide (4 * (Z.of_nat k + 1) ≤ len) then 0
  else if decide (len ≤ 4 * Z.of_nat k) then w
  else Z.shiftl (Z.shiftr w (8 * (len - 4 * Z.of_nat k))) (8 * (len - 4 * Z.of_nat k)).

Definition MemSet (a : list Z) (len : Z) : list Z := imap (MemSet_word len) a.

(** ** Initialisation (lines 96-132) *)

Definition global_variables_init (guc_interval guc_intervals_count : Z)
    (g : GlobalInfo) : GlobalInfo :=
  {| interval := guc_interval;
     intervals_count := guc_intervals_count;
     current_interval_index := current_interval_index g;
     total_count := total_count g;
     slow_log_info := slow_log_info g |}.

Definition slow_log_info_init (now : Z) (g : GlobalInfo) : GlobalInfo :=
  {| interval := interval g;
     intervals_count := intervals_count g;
     current_interval_index := current_interval_index g;
     total_count := total_count g;
     slow_log_info := {| count := 0; reset_time := now |} |}.

(** Shared memory is zero-filled when the segment is created, so an entry
    that [HASH_ENTER] has just allocated holds zeros next to its key. *)
Definition fresh_entry (k : Z) : MessageInfo :=
  {| key := k;
     message_count := replicate message_types_count 0;
     sum_in_buffer := replicate message_types_count 0;
     intervals := replicate message_types_count (replicate 360 0);
     name := "" |}.

Definition hash_enter (h : gmap Z MessageInfo) (k : Z) : MessageInfo :=
  default (fresh_entry k) (h !! k).

(** Body of the inner loop of [logerrors_init] (lines 120-123). *)
Definition init_type (nm : string) (elem : MessageInfo) (j : nat) : MessageInfo :=
  {| key := key elem;
     message_count := <[j := 0]> (message_count elem);
     sum_in_buffer := <[j := 0]> (sum_in_buffer elem);
     intervals :=
       <[j := MemSet (intervals elem !!! j) max_number_of_intervals]>
         (intervals elem);
     name := nm |}.

(** The inner loop of [logerrors_init] (lines 119-124). *)
Definition init_all (nm : string) (elem : MessageInfo) : MessageInfo :=
  foldl (init_type nm) elem (seq 0 message_types_count).

(** Body of the outer loop of [logerrors_init] (lines 117-124). *)
Definition init_entry (K : Constants) (h : gmap Z MessageInfo) (i : nat)
    : gmap Z MessageInfo :=
  let k := error_codes K !!! i in
  let elem := hash_enter h k in
  <[k := init_all (error_names K !!! i) elem]> h.

Definition set_total_count (g : GlobalInfo) (t : list Z) : GlobalInfo :=
  {| interval := interval g;
     intervals_count := intervals_count g;
     current_interval_index := current_interval_index g;
     total_count := t;
     slow_log_info := slow_log_info g |}.

Definition set_current_interval_index (g : GlobalInfo) (idx : Z) : GlobalInfo :=
  {| interval := interval g;
     intervals_count := intervals_count g;
     current_interval_index := idx;
     total_count := total_count g;
     slow_log_info := slow_log_info g |}.

Definition logerrors_init (K : Constants) (now : Z)
    (h : gmap Z MessageInfo) (g : GlobalInfo) : gmap Z MessageInfo * GlobalInfo :=
  let h1 := foldl (init_entry K) h (seq 0 (error_types_count K)) in
  let g1 := set_current_interval_index g 0 in
  let g2 := set_total_count g1 (MemSet (total_count g1) (Z.of_nat message_types_count)) in
  let g3 := foldl (λ g i, set_total_count g (<[i := 0]> (total_count g)))
                  g2 (seq 0 message_types_count) in
  (h1, slow_log_info_init now g3).

(** ** The rotation step (lines 134-162) *)

(** Lines 150-156 for one entry and one message type.  The local
    [message_count] is an [int]; in line 151 the [int] operands meet a
    [uint32], so the subtraction and the addition are unsigned, and the
    result is stored in an [int]. *)
Definition update_entry (idx : Z) (j : nat) (info : MessageInfo) : MessageInfo :=
  let message_count_ := int32 (message_count info !!! j) in
  let slot := (intervals info !!! j) !!! Z.to_nat idx in
  {| key := key info;
     message_count := <[j := 0]> (message_count info);
     sum_in_buffer :=
       <[j := int32 (uint32 (uint32 (uint32 (sum_in_buffer info !!! j) - slot)
                             + uint32 message_count_))]>
         (sum_in_buffer info);
     intervals :=
       <[j := <[Z.to_nat idx := uint32 message_count_]> (intervals info !!! j)]>
         (intervals info);
     name := name info |}.

(** Lines 149-156: look the key up, rewrite the entry in place.  [found] is
    not tested, so a missing key is a NULL dereference. *)
Definition update_at (idx : Z) (j : nat) (k : Z) (h : gmap Z MessageInfo)
    : option (gmap Z MessageInfo) :=
  info ← h !! k;
  Some (<[k := update_entry idx j info]> h).

Definition update_body (K : Constants) (idx : Z) (j i : nat)
    (h : gmap Z MessageInfo) : option (gmap Z MessageInfo) :=
  update_at idx j (error_codes K !!! i) h.

Definition logerrors_update_info (K : Constants) (b : Backend) : option Backend :=
  match messages_info_hashtable b, global_variables b with
  | Some h, Some g =>
      let idx := current_interval_index g in
      h' ← for_loop message_types_count
             (λ j, for_loop (error_types_count K) (update_body K idx j)) h;
      Some {| messages_info_hashtable := Some h';
              global_variables :=
                Some (set_current_interval_index g
                        (uint32 (idx + 1) `mod` uint32 (intervals_count g)));
              MyProc := MyProc b;
              proc_exit_inprogress := proc_exit_inprogress b;
              server_log := server_log b |}
  | _, _ => Some b
  end.

(** ** The log hook (lines 201-235) *)

Record ErrorData := {
  elevel : Z;
  sqlerrcode : Z;
  message : option string;      (* NULL or a C string *)
}.

(** [strstr (haystack, needle) != NULL]. *)
Fixpoint strstr (haystack needle : string) : bool :=
  if String.prefix needle haystack then true
  else match haystack with
       | EmptyString => false
       | String _ rest => strstr rest needle
       end.

(** Line 223. *)
Definition count_message (j : nat) (elem : MessageInfo) : MessageInfo :=
  {| key := key elem;
     message_count :=
       <[j := pg_atomic_fetch_add_u32 (message_count elem !!! j) 1]>
         (message_count elem);
     sum_in_buffer := sum_in_buffer elem;
     intervals := intervals elem;
     name := name elem |}.

(** Line 224. *)
Definition count_total (j : nat) (g : GlobalInfo) : GlobalInfo :=
  set_total_count g
    (<[j := pg_atomic_fetch_add_u32 (total_count g !!! j) 1]> (total_count g)).

(** Line 228. *)
Definition count_slow (g : GlobalInfo) : GlobalInfo :=
  {| interval := interval g;
     intervals_count := intervals_count g;
     current_interval_index := current_interval_index g;
     total_count := total_count g;
     slow_log_info :=
       {| count := pg_atomic_fetch_add_u32 (count (slow_log_info g)) 1;
          reset_time := reset_time (slow_log_info g) |} |}.

(** What the loop of lines 210-225 threads through: the hashtable, the
    global block and the server log. *)
Definition HookState : Type := gmap Z MessageInfo * GlobalInfo * list LogLine.

(** Lines 216-224: the message is of type [j].  The second [hash_search]
    is not followed by a test of [found].  The report of line 219 is of
    level LOG and without "duration:", so the hook, entered again
    for it, counts nothing; the model records the line and goes on. *)
Definition record_message (K : Constants) (edata : ErrorData) (j : nat)
    (s : HookState) : option HookState :=
  let '(h, g, log) := s in
  match h !! sqlerrcode edata with
  | Some elem =>
      Some (<[sqlerrcode edata := count_message j elem]> h, count_total j g, log)
  | None =>
      elem ← h !! not_known_error_code K;
      Some (<[not_known_error_code K := count_message j elem]> h,
            count_total j g,
            log ++ [not_known_error_code_line (sqlerrcode edata)])
  end.

(** Lines 212-224 for one message type. *)
Definition hook_body (K : Constants) (edata : ErrorData) (j : nat)
    (s : HookState) : option HookState :=
  if decide (elevel edata ≠ message_types_codes K !!! j) then Some s
  else record_message K edata j s.

Definition is_slow_log_line (edata : ErrorData) : bool :=
  match message edata with
  | Some m => strstr m "duration:"
  | None => false
  end.

(** The call of [prev_emit_log_hook] that ends the C function belongs to
    the host and is left out. *)
Definition logerrors_emit_log_hook (K : Constants) (edata : ErrorData)
    (b : Backend) : option Backend :=
  match messages_info_hashtable b, global_variables b with
  | Some h, Some g =>
      if MyProc b && negb (proc_exit_inprogress b) then
        s ← for_loop message_types_count (hook_body K edata) (h, g, server_log b);
        let '(h', g', log') := s in
        Some {| messages_info_hashtable := Some h';
                global_variables :=
                  Some (if is_slow_log_line edata then count_slow g' else g');
                MyProc := MyProc b;
                proc_exit_inprogress := proc_exit_inprogress b;
                server_log := log' |}
      else Some b
  | _, _ => Some b
  end.

(** ** Shared-memory start-up (lines 303-325)

    The model covers the creation of the segment: [ShmemInitHash] yields an
    empty table and [ShmemInitStruct] a zero-filled block.  As in the C
    text, only [global_variables_init] is governed by the [if]. *)

Definition zero_GlobalInfo : GlobalInfo :=
  {| interval := 0;
     intervals_count := 0;
     current_interval_index := 0;
     total_count := replicate message_types_count 0;
     slow_log_info := {| count := 0; reset_time := 0 |} |}.

Definition pgss_shmem_startup (K : Constants) (IsUnderPostmaster : bool)
    (guc_interval guc_intervals_count now : Z) (b : Backend) : Backend :=
  let h := (∅ : gmap Z MessageInfo) in
  let g := zero_GlobalInfo in
  let g := if negb IsUnderPostmaster
           then global_variables_init guc_interval guc_intervals_count g
           else g in
  let '(h, g) := logerrors_init K now h g in
  {| messages_info_hashtable := Some h;
     global_variables := Some g;
     MyProc := MyProc b;
     proc_exit_inprogress := proc_exit_inprogress b;
     server_log := server_log b |}.

(** ** SQL-callable functions (lines 327-525) *)

Inductive ErrCode :=
  | ERRCODE_OBJECT_NOT_IN_PREREQUISITE_STATE
  | ERRCODE_FEATURE_NOT_SUPPORTED.

(** A call either returns or leaves through [ereport (ERROR, ...)]. *)
Inductive Result (A : Type) :=
  | Returned (a : A)
  | ereport_ERROR (code : ErrCode) (errmsg : string).

Arguments Returned {A} a.
Arguments ereport_ERROR {A} code errmsg.

(** What the functions inspect of [fcinfo]. *)
Record FunctionCallInfo := {
  rsinfo_is_ReturnSetInfo : bool;   (* rsinfo != NULL && IsA (rsinfo, ReturnSetInfo) *)
  allows_SFRM_Materialize : bool;   (* rsinfo->allowedModes & SFRM_Materialize *)
  result_is_composite : bool;       (* get_call_result_type (...) == TYPEFUNC_COMPOSITE *)
}.

(** Lines 358-372 and 488-502. *)
Definition check_call {A : Type} (fcinfo : FunctionCallInfo) (k : Result A)
    : Result A :=
  if negb (rsinfo_is_ReturnSetInfo fcinfo) then
    ereport_ERROR ERRCODE_FEATURE_NOT_SUPPORTED
      "set-valued function called in context that cannot accept a set"
  else if negb (allows_SFRM_Materialize fcinfo) then
    ereport_ERROR ERRCODE_FEATURE_NOT_SUPPORTED
      "materialize mode required, but it is not allowed in this context"
  else if negb (result_is_composite fcinfo) then
    ereport_ERROR ERRCODE_FEATURE_NOT_SUPPORTED "return type must be a row type"
  else k.

(** A row of [pg_log_errors_stats]: time_interval (NULL for a total), type,
    message, count. *)
Record Row := {
  row_time_interval : option Z;
  row_type : string;
  row_message : string;
  row_count : Z;
}.

(** Lines 386-399. *)
Definition total_row (K : Constants) (g : GlobalInfo) (lvl_i : nat) : Row :=
  {| row_time_interval := None;
     row_type := message_type_names K !!! lvl_i;
     row_message := "TOTAL";
     row_count := int32 (total_count g !!! lvl_i) |}.

Definition short_interval (g : GlobalInfo) : Z := Z.quot (interval g) 1000.

Definition long_interval (g : GlobalInfo) : Z :=
  int32 (short_interval g * intervals_count g).

(** Lines 432-433: the subtraction and the addition are unsigned. *)
Definition prev_interval_index (g : GlobalInfo) : Z :=
  int32 (uint32 (uint32 (current_interval_index g - 1) + uint32 (intervals_count g))
           `mod` uint32 (intervals_count g)).

Definition errors_in_long_interval (info : MessageInfo) (lvl_i : nat) : Z :=
  sum_in_buffer info !!! lvl_i.

Definition errors_in_short_interval (g : GlobalInfo) (info : MessageInfo)
    (lvl_i : nat) : Z :=
  int32 ((intervals info !!! lvl_i) !!! Z.to_nat (prev_interval_index g)).

Definition long_row (K : Constants) (g : GlobalInfo) (info : MessageInfo)
    (lvl_i : nat) : Row :=
  {| row_time_interval := Some (long_interval g);
     row_type := message_type_names K !!! lvl_i;
     row_message := name info;
     row_count := errors_in_long_interval info lvl_i |}.

Definition short_row (K : Constants) (g : GlobalInfo) (info : MessageInfo)
    (lvl_i : nat) : Row :=
  {| row_time_interval := Some (short_interval g);
     row_type := message_type_names K !!! lvl_i;
     row_message := name info;
     row_count := errors_in_short_interval g info lvl_i |}.

(** Lines 402-446 for one error code; [tupstore] is the tuplestore so far. *)
Definition stats_body (K : Constants) (h : gmap Z MessageInfo) (g : GlobalInfo)
    (lvl_i : nat) (tupstore : list Row) (i : nat) : list Row :=
  match h !! (error_codes K !!! i) with
  | None => tupstore
  | Some info =>
      let tupstore :=
        if decide (0 < errors_in_long_interval info lvl_i)
        then tupstore ++ [long_row K g info lvl_i] else tupstore in
      if decide (0 < errors_in_short_interval g info lvl_i)
      then tupstore ++ [short_row K g info lvl_i] else tupstore
  end.

(** Lines 383-447 for one message type. *)
Definition stats_level (K : Constants) (h : gmap Z MessageInfo) (g : GlobalInfo)
    (tupstore : list Row) (lvl_i : nat) : list Row :=
  foldl (stats_body K h g lvl_i) (tupstore ++ [total_row K g lvl_i])
        (seq 0 (error_types_count K)).

Definition pg_log_errors_stats (K : Constants) (fcinfo : FunctionCallInfo)
    (b : Backend) : Result (list Row) :=
  match messages_info_hashtable b, global_variables b with
  | Some h, Some g =>
      check_call fcinfo
        (Returned (foldl (stats_level K h g) [] (seq 0 message_types_count)))
  | _, _ =>
      ereport_ERROR ERRCODE_OBJECT_NOT_IN_PREREQUISITE_STATE
        "logerrors must be loaded via shared_preload_libraries"
  end.

(** [pg_log_errors_reset] (lines 455-467); the backend after the call comes
    with the result. *)
Definition pg_log_errors_reset (K : Constants) (now : Z) (b : Backend)
    : Backend * Result unit :=
  match messages_info_hashtable b, global_variables b with
  | Some h, Some g =>
      let '(h', g') := logerrors_init K now h g in
      ({| messages_info_hashtable := Some h';
          global_variables := Some g';
          MyProc := MyProc b;
          proc_exit_inprogress := proc_exit_inprogress b;
          server_log := server_log b |}, Returned ())
  | _, _ =>
      (b, ereport_ERROR ERRCODE_OBJECT_NOT_IN_PREREQUISITE_STATE
            "logerrors must be loaded via shared_preload_libraries")
  end.

(** A row of [pg_slow_log_stats]: slow_count, reset_time. *)
Record SlowRow := {
  slow_count : Z;
  slow_reset_time : Z;
}.

(** [pg_slow_log_stats] (lines 471-525).  [Returned None] is the early
    [return (Datum) 0] of line 486, which hands no result set to the
    caller. *)
Definition pg_slow_log_stats (fcinfo : FunctionCallInfo) (b : Backend)
    : Result (option (list SlowRow)) :=
  match global_variables b with
  | None => Returned None
  | Some g =>
      check_call fcinfo
        (Returned (Some [ {| slow_count := int32 (count (slow_log_info g));
                             slow_reset_time := reset_time (slow_log_info g) |} ]))
  end.

(** ** Runs of the system *)

Inductive Op :=
  | tick                        (* one pass of the worker loop *)
  | emit (edata : ErrorData)    (* a message reaches the hook *)
  | reset (now : Z).            (* SELECT pg_log_errors_reset () *)

Definition step (K : Constants) (op : Op) (b : Backend) : option Backend :=
  match op with
  | tick => logerrors_update_info K b
  | emit edata => logerrors_emit_log_hook K edata b
  | reset now => Some (fst (pg_log_errors_reset K now b))
  end.

Definition run (K : Constants) (ops : list Op) (b : Backend) : option Backend :=
  for_each (step K) ops b.

Definition is_reset (op : Op) : bool :=
  match op with reset _ => true | _ => false end.

(** ** Vocabulary of the statements *)

Definition is_uint32 (z : Z) : Prop := 0 ≤ z < 2 ^ 32.

Definition is_int32 (z : Z) : Prop := - 2 ^ 31 ≤ z < 2 ^ 31.

(** What constants.h has to provide for the C code to stay inside its
    arrays and to find its fallback entry. *)
Record wf_constants (K : Constants) : Prop := {
  wf_types_codes : length (message_types_codes K) = message_types_count;
  wf_type_names : length (message_type_names K) = message_types_count;
  wf_types_NoDup : NoDup (message_types_codes K);
  wf_codes_NoDup : NoDup (error_codes K);
  wf_names : length (error_names K) = length (error_codes K);
  wf_not_known : not_known_error_code K ∈ error_codes K;
}.

(** The C types of one entry. *)
Record entry_ok (info : MessageInfo) : Prop := {
  ok_message_count_length : length (message_count info) = message_types_count;
  ok_message_count : Forall is_uint32 (message_count info);
  ok_sum_length : length (sum_in_buffer info) = message_types_count;
  ok_sum : Forall is_int32 (sum_in_buffer info);
  ok_intervals_length : length (intervals info) = message_types_count;
  ok_intervals :
    Forall (λ row, length row = 360%nat ∧ Forall is_uint32 row) (intervals info);
}.

(** The shared region after start-up: one well-typed entry per error code,
    and the current index inside the configured ring. *)
Record ready (K : Constants) (h : gmap Z MessageInfo) (g : GlobalInfo) : Prop := {
  ready_codes : ∀ k, k ∈ error_codes K → is_Some (h !! k);
  ready_dom : ∀ k, is_Some (h !! k) → k ∈ error_codes K;
  ready_entries : ∀ k info, h !! k = Some info → entry_ok info;
  ready_index : 0 ≤ current_interval_index g < intervals_count g;
  ready_ring : intervals_count g ≤ 360;
  ready_total_length : length (total_count g) = message_types_count;
  ready_total : Forall is_uint32 (total_count g);
  ready_slow : is_uint32 (count (slow_log_info g));
}.

Definition initialized (K : Constants) (b : Backend) : Prop :=
  ∃ h g, messages_info_hashtable b = Some h ∧ global_variables b = Some g ∧
         ready K h g.

(** The rest of the guard of line 209. *)
Definition hook_active (b : Backend) : Prop :=
  MyProc b = true ∧ proc_exit_inprogress b = false.

(** Sum of the ring slots [row[0 .. n-1]]. *)
Definition ring_sum (n : Z) (row : list Z) : Z :=
  foldr Z.add 0 (take (Z.to_nat n) row).

(** [sub] occurs in [s]. *)
Definition contains (s sub : string) : Prop :=
  ∃ pre post, s = String.append pre (String.append sub post).

(** The shared region is not ready (lines 353, 458). *)
Definition shmem_not_ready (b : Backend) : Prop :=
  messages_info_hashtable b = None ∨ global_variables b = None.

(** [pgss_shmem_startup] assigns [messages_info_hashtable] (line 314) before
    [global_variables] (line 318), after clearing both (lines 309-310):
    the second pointer is never set while the first is NULL. *)
Definition pointers_in_startup_order (b : Backend) : Prop :=
  messages_info_hashtable b = None → global_variables b = None.

(** An entry whose counters, sums and ring slots are all zero. *)
Definition zero_entry (k : Z) (nm : string) : MessageInfo :=
  {| key := k;
     message_count := replicate message_types_count 0;
     sum_in_buffer := replicate message_types_count 0;
     intervals := replicate message_types_count (replicate 360 0);
     name := nm |}.

(** The entry of an error code with all its message types rotated. *)
Definition rotate_entry (idx : Z) (info : MessageInfo) : MessageInfo :=
  foldl (λ e j, update_entry idx j e) info (seq 0 message_types_count).

(** Rows that the iteration [lvl_i] of the outer loop and the iteration
    [(lvl_i, i)] of the inner loop of [pg_log_errors_stats] add. *)
Definition rows_of_level (K : Constants) (h : gmap Z MessageInfo) (g : GlobalInfo)
    (lvl_i : nat) : list Row :=
  stats_level K h g [] lvl_i.

Definition rows_of_entry (K : Constants) (h : gmap Z MessageInfo) (g : GlobalInfo)
    (lvl_i i : nat) : list Row :=
  stats_body K h g lvl_i [] i.

(** Rows that one entry contributes for one message type (lines 440-445). *)
Definition entry_rows (K : Constants) (g : GlobalInfo) (info : MessageInfo)
    (lvl_i : nat) : list Row :=
  (if decide (0 < errors_in_long_interval info lvl_i)
   then [long_row K g info lvl_i] else []) ++
  (if decide (0 < errors_in_short_interval g info lvl_i)
   then [short_row K g info lvl_i] else []).

(** Every entry satisfies: the rolling sum is the sum of the ring, as a C
    [int]. *)
Definition sums_match (h : gmap Z MessageInfo) (g : GlobalInfo) : Prop :=
  ∀ k info j, h !! k = Some info → (j < message_types_count)%nat →
    sum_in_buffer info !!! j
    = int32 (ring_sum (intervals_count g) (intervals info !!! j)).

(** The table holds, for each error code, the entry [f code name]. *)
Definition table_is (K : Constants) (h : gmap Z MessageInfo)
    (f : Z → string → MessageInfo) : Prop :=
  ∀ k, h !! k
       = match list_find (λ c, c = k) (error_codes K) with
         | Some (i, _) => Some (f k (error_names K !!! i))
         | None => None
         end.

(** The global block with the given configuration, index and totals. *)
Definition view_global (gi gc idx : Z) (totals : list Z) (s : SlowLogInfo)
    : GlobalInfo :=
  {| interval := gi;
     intervals_count := gc;
     current_interval_index := idx;
     total_count := totals;
     slow_log_info := s |}.

(** An attached backend that passes the guard of the hook, described by
    its table, configuration, index and totals. *)
Definition state_is (K : Constants) (b : Backend) (f : Z → string → MessageInfo)
    (gi gc idx : Z) (totals : list Z) : Prop :=
  ∃ h s,
    messages_info_hashtable b = Some h ∧
    global_variables b = Some (view_global gi gc idx totals s) ∧
    ready K h (view_global gi gc idx totals s) ∧
    hook_active b ∧
    table_is K h f.

(** ** Scenarios A and B *)

(** A message of the type with index [j] and the sqlerrcode [X]. *)
Definition scenario_event (K : Constants) (j : nat) (X : Z) (m : option string)
    : ErrorData :=
  {| elevel := message_types_codes K !!! j; sqlerrcode := X; message := m |}.

(** Two messages, then one rotation. *)
Definition scenario_A (K : Constants) (j : nat) (X : Z) (m1 m2 : option string)
    : list Op :=
  [emit (scenario_event K j X m1); emit (scenario_event K j X m2); tick].

(** The entry of [X] in scenarios A and B: nothing but [sum] in the rolling
    sum of type [j] and [slot0] in slot 0 of its ring. *)
Definition scenario_entry (X : Z) (nm : string) (j : nat) (sum slot0 : Z)
    : MessageInfo :=
  {| key := X;
     message_count := replicate message_types_count 0;
     sum_in_buffer := <[j := sum]> (replicate message_types_count 0);
     intervals :=
       <[j := slot0 :: replicate 359 0]>
         (replicate message_types_count (replicate 360 0));
     name := nm |}.

(** The table of scenario A and of the two rotations after it. *)
Definition scenario_table (X : Z) (j : nat) (k : Z) (nm : string) : MessageInfo :=
  if decide (k = X) then scenario_entry X nm j 2 2 else zero_entry k nm.

(** ** Reading single cells of a backend *)

Definition entry_of (b : Backend) (k : Z) : option MessageInfo :=
  h ← messages_info_hashtable b; h !! k.

Definition rolling_sum_of (b : Backend) (k : Z) (j : nat) : option Z :=
  info ← entry_of b k; Some (sum_in_buffer info !!! j).

Definition slot_of (b : Backend) (k : Z) (j i : nat) : option Z :=
  info ← entry_of b k; Some ((intervals info !!! j) !!! i).

(** ** A small instance of constants.h, for concrete runs

    Levels as in elog.h (WARNING 19, ERROR 20, FATAL 21); 16801924 is
    MAKE_SQLSTATE ('4','2','6','0','1'), the syntax error. *)

Definition sample_constants : Constants :=
  {| message_types_codes := [19; 20; 21];
     message_type_names := ["WARNING"; "ERROR"; "FATAL"]%string;
     error_codes := [-1; 0; 16801924];
     error_names :=
       ["NOT_KNOWN_ERROR"; "ERRCODE_SUCCESSFUL_COMPLETION"; "ERRCODE_SYNTAX_ERROR"]%string;
     not_known_error_code := -1 |}.

Definition unattached : Backend :=
  {| messages_info_hashtable := None;
     global_variables := None;
     MyProc := true;
     proc_exit_inprogress := false;
     server_log := [] |}.

Definition syntax_error : ErrorData :=
  {| elevel := 20; sqlerrcode := 16801924; message := Some "syntax error at or near" |}.

Definition slow_statement : ErrorData :=
  {| elevel := 15; sqlerrcode := 0; message := Some "duration: 1500.2 ms  statement: select 1" |}.

Definition unknown_fatal : ErrorData :=
  {| elevel := 21; sqlerrcode := 12345; message := Some "terminating connection" |}.

Definition sample_call : FunctionCallInfo :=
  {| rsinfo_is_ReturnSetInfo := true;
     allows_SFRM_Materialize := true;
     result_is_composite := true |}.

(** Scenario A: interval 1000 ms, ring of 3. *)
Definition scenario_start : Backend :=
  pgss_shmem_startup sample_constants false 1000 3 0 unattached.

(** Default configuration: interval 5000 ms, ring of 120. *)
Definition default_start : Backend :=
  pgss_shmem_startup sample_constants false 5000 120 0 unattached.

Definition scenario_hashtable : gmap Z MessageInfo :=
  default ∅ (messages_info_hashtable scenario_start).

Definition scenario_global : GlobalInfo :=
  default zero_GlobalInfo (global_variables scenario_start).

(** The run that shows what a reset leaves behind: 119 quiet rotations, one
    syntax error counted in the 120th bucket, the rotation that stores it
    in slot 119, and a reset. *)
Definition late_slot_run : list Op :=
  replicate 119 tick ++ [emit syntax_error; tick; reset 1].

(** ** Messages, buckets and windows *)

(** The message is of the tracked type [j] and the hook counts it in the
    entry [k]: its own sqlerrcode when that is registered, the fallback
    otherwise (lines 213-222). *)
Definition counted_in (K : Constants) (k : Z) (j : nat) (edata : ErrorData) : Prop :=
  elevel edata = message_types_codes K !!! j ∧
  k = (if decide (sqlerrcode edata ∈ error_codes K) then sqlerrcode edata
       else not_known_error_code K).

#[global] Instance counted_in_dec K k j edata : Decision (counted_in K k j edata) :=
  and_dec _ _.

(** Number of messages of a list that the hook counts in entry [k], type [j]. *)
Definition hits (K : Constants) (k : Z) (j : nat) (evs : list ErrorData) : Z :=
  Z.of_nat (length (filter (counted_in K k j) evs)).

(** Number of messages of the tracked type [j]. *)
Definition typed (K : Constants) (j : nat) (evs : list ErrorData) : Z :=
  Z.of_nat (length (filter (λ edata, elevel edata = message_types_codes K !!! j) evs)).

(** Number of slow log lines. *)
Definition slow_lines (evs : list ErrorData) : Z :=
  Z.of_nat (length (filter (λ edata, is_slow_log_line edata = true) evs)).

(** The messages of an interval reach the hook, then the worker rotates. *)
Definition bucket_ops (evs : list ErrorData) : list Op := (emit <$> evs) ++ [tick].

Definition buckets_ops (buckets : list (list ErrorData)) : list Op :=
  buckets ≫= bucket_ops.

(** What entry [k] holds for type [j], with the index and the total of the
    type, on an attached backend that passes the guard of the hook. *)
Definition cell_is (K : Constants) (b : Backend) (k : Z) (j : nat)
    (bucket sum : Z) (ring : list Z) (idx total : Z) (gi gc : Z) : Prop :=
  ∃ h g info,
    messages_info_hashtable b = Some h ∧ global_variables b = Some g ∧
    ready K h g ∧ hook_active b ∧
    h !! k = Some info ∧
    message_count info !!! j = bucket ∧
    sum_in_buffer info !!! j = sum ∧
    intervals info !!! j = ring ∧
    current_interval_index g = idx ∧
    total_count g !!! j = total ∧
    interval g = gi ∧ intervals_count g = gc.

(** The last [n] of the values, oldest first, over a past of zeros. *)
Definition window (n : Z) (cs : list Z) : list Z :=
  drop (length cs) (replicate (Z.to_nat n) 0 ++ cs).

Definition sum_list (l : list Z) : Z := foldr Z.add 0 l.

(** Slot [(idx + p) mod n] of the ring holds value [p] of the window. *)
Definition ring_holds (n idx : Z) (ring w : list Z) : Prop :=
  ∀ p, 0 ≤ p < n → ring !!! Z.to_nat ((idx + p) `mod` n) = w !!! Z.to_nat p.

(** The messages that reach the hook in a run. *)
Definition emitted (ops : list Op) : list ErrorData :=
  omap (λ op, match op with emit edata => Some edata | _ => None end) ops.

(** A message of a tracked type whose sqlerrcode is not registered. *)
Definition unknown_tracked (K : Constants) (edata : ErrorData) : Prop :=
  elevel edata ∈ message_types_codes K ∧ sqlerrcode edata ∉ error_codes K.

#[global] Instance unknown_tracked_dec K edata : Decision (unknown_tracked K edata) :=
  and_dec _ _.

(** Every entry sits under its own key and carries the name of its error
    code. *)
Definition names_ok (K : Constants) (h : gmap Z MessageInfo) : Prop :=
  ∀ i k info, error_codes K !! i = Some k → h !! k = Some info →
    key info = k ∧ name info = error_names K !!! i.

(** The ring slots from [intervals_count] on are zero. *)
Definition unused_zero (h : gmap Z MessageInfo) (g : GlobalInfo) : Prop :=
  ∀ k info j i, h !! k = Some info → (j < message_types_count)%nat →
    (Z.to_nat (intervals_count g) ≤ i < 360)%nat →
    (intervals info !!! j) !!! i = 0.

(** What every state that follows a start-up with [interval = gi] and
    [intervals_count = gc] satisfies. *)
Definition started (K : Constants) (gi gc : Z) (b : Backend) : Prop :=
  ∃ h g, messages_info_hashtable b = Some h ∧ global_variables b = Some g ∧
    ready K h g ∧ names_ok K h ∧ unused_zero h g ∧
    interval g = gi ∧ intervals_count g = gc.

(** The messages of the last [gc] closed intervals. *)
Definition window_events (gc : Z) (buckets : list (list ErrorData))
    : list ErrorData :=
  concat (drop (length buckets - Z.to_nat gc) buckets).

(** What [pg_log_errors_stats] is to report after the closed intervals
    [buckets] and the open interval [open], in terms of the messages
    alone. *)
Definition expected_entry_rows (K : Constants) (gi gc : Z)
    (buckets : list (list ErrorData)) (j i : nat) : list Row :=
  let k := error_codes K !!! i in
  (if decide (0 < hits K k j (window_events gc buckets))
   then [ {| row_time_interval := Some (Z.quot gi 1000 * gc);
             row_type := message_type_names K !!! j;
             row_message := error_names K !!! i;
             row_count := hits K k j (window_events gc buckets) |} ]
   else []) ++
  (if decide (0 < hits K k j (default [] (last buckets)))
   then [ {| row_time_interval := Some (Z.quot gi 1000);
             row_type := message_type_names K !!! j;
             row_message := error_names K !!! i;
             row_count := hits K k j (default [] (last buckets)) |} ]
   else []).

Definition expected_level_rows (K : Constants) (gi gc : Z)
    (buckets : list (list ErrorData)) (open : list ErrorData) (j : nat)
    : list Row :=
  {| row_time_interval := None;
     row_type := message_type_names K !!! j;
     row_message := "TOTAL";
     row_count := typed K j (concat buckets ++ open) |}
  :: (seq 0 (error_types_count K) ≫= expected_entry_rows K gi gc buckets j).

Definition expected_rows (K : Constants) (gi gc : Z)
    (buckets : list (list ErrorData)) (open : list ErrorData) : list Row :=
  seq 0 message_types_count ≫= expected_level_rows K gi gc buckets open.

(** ** The background worker (lines 84-92 and 164-199) *)

(** [logerrors_sigterm] (line 88): the handler is the only writer of
    [got_sigterm], and it only sets it. *)
Definition logerrors_sigterm (got_sigterm : bool) : bool := true.

(** What one pass of the loop of [logerrors_main] meets: whether SIGTERM is
    delivered before the test of line 175, the [WL_POSTMASTER_DEATH] bit of
    [rc], and whether SIGTERM is delivered during [WaitLatch]. *)
Record Wakeup := {
  sigterm_before_wait : bool;
  postmaster_death : bool;
  sigterm_in_wait : bool;
}.

Definition deliver (sigterm : bool) (got_sigterm : bool) : bool :=
  if sigterm then logerrors_sigterm got_sigterm else got_sigterm.

(** The worker is still in [WaitLatch], or has left through
    [proc_exit (code)]. *)
Inductive WorkerStatus :=
  | waiting
  | proc_exit (code : Z).

(** Lines 175-198, for the wakeups [ws].  The report of line 191 is of
    level DEBUG1: it is none of the LOG lines that [server_log] holds, and
    the hook, should it see the report, counts nothing for it. *)
Fixpoint worker_loop (K : Constants) (ws : list Wakeup) (got_sigterm : bool)
    (b : Backend) : option (Backend * WorkerStatus) :=
  match ws with
  | [] => Some (b, waiting)
  | w :: ws' =>
      let got_sigterm := deliver (sigterm_before_wait w) got_sigterm in
      if got_sigterm then Some (b, proc_exit 0)
      else
        let got_sigterm := deliver (sigterm_in_wait w) got_sigterm in
        if postmaster_death w then Some (b, proc_exit 1)
        else if got_sigterm then Some (b, proc_exit 0)
        else b' ← logerrors_update_info K b; worker_loop K ws' got_sigterm b'
  end.

(** [logerrors_main]: [logerrors_init] (line 174) comes without a test of
    the two pointers. *)
Definition logerrors_main (K : Constants) (now : Z) (ws : list Wakeup)
    (b : Backend) : option (Backend * WorkerStatus) :=
  match messages_info_hashtable b, global_variables b with
  | Some h, Some g =>
      let '(h', g') := logerrors_init K now h g in
      worker_loop K ws false
        {| messages_info_hashtable := Some h';
           global_variables := Some g';
           MyProc := MyProc b;
           proc_exit_inprogress := proc_exit_inprogress b;
           server_log := server_log b |}
  | _, _ => None
  end.

(** A wakeup by the timeout alone. *)
Definition quiet (w : Wakeup) : bool :=
  negb (sigterm_before_wait w || postmaster_death w || sigterm_in_wait w).

(** ** Loading and unloading (lines 237-301) *)

Inductive GucContext := PGC_SUSET.

Inductive GucFlag := GUC_UNIT_MS | GUC_NO_RESET_ALL.

(** A variable defined by [DefineCustomIntVariable]; the hooks of the
    variable are NULL in both calls. *)
Record IntVariable := {
  guc_name : string;
  guc_short_desc : string;
  guc_long_desc : string;
  guc_boot_value : Z;
  guc_min_value : Z;
  guc_max_value : Z;
  guc_context : GucContext;
  guc_flags : list GucFlag;
}.

Definition interval_variable : IntVariable :=
  {| guc_name := "logerrors.interval";
     guc_short_desc := "Time between writing stat to buffer (ms).";
     guc_long_desc := "Default of 5s, max of 60s";
     guc_boot_value := 5000;
     guc_min_value := 1000;
     guc_max_value := 60000;
     guc_context := PGC_SUSET;
     guc_flags := [GUC_UNIT_MS; GUC_NO_RESET_ALL] |}.

Definition intervals_count_variable : IntVariable :=
  {| guc_name := "logerrors.intervals_count";
     guc_short_desc := "Count of intervals in buffer";
     guc_long_desc := "Default of 120, max of 360";
     guc_boot_value := 120;
     guc_min_value := 2;
     guc_max_value := 360;
     guc_context := PGC_SUSET;
     guc_flags := [GUC_NO_RESET_ALL] |}.

(** [logerrors_load_params] (lines 237-264). *)
Definition logerrors_load_params : list IntVariable :=
  [interval_variable; intervals_count_variable].

(** The values that the server accepts for a variable. *)
Definition guc_admits (v : IntVariable) (x : Z) : Prop :=
  guc_min_value v ≤ x ≤ guc_max_value v.

Inductive ShmemStartupHook :=
  | hook_pgss_shmem_startup
  | foreign_shmem_startup_hook (id : nat).

Inductive EmitLogHook :=
  | hook_logerrors_emit_log_hook
  | foreign_emit_log_hook (id : nat).

Inductive BgwFlag := BGWORKER_SHMEM_ACCESS.

Inductive BgWorkerStartTime := BgWorkerStart_RecoveryFinished.

Record BackgroundWorker := {
  bgw_name : string;
  bgw_flags : list BgwFlag;
  bgw_start_time : BgWorkerStartTime;
  bgw_restart_time : Z;
  bgw_library_name : string;
  bgw_function_name : string;
  bgw_main_arg : Z;
  bgw_notify_pid : Z;
}.

(** The argument of [RequestAddinShmemSpace], in units of the two struct
    sizes. *)
Record ShmemRequest := {
  sizeof_MessageInfo_times : nat;
  sizeof_GlobalInfo_times : nat;
}.

(** The hook variables of the server, the two statics of the module that
    save them, and what the module has asked of the server. *)
Record Loader := {
  process_shared_preload_libraries_in_progress : bool;
  shmem_startup_hook : option ShmemStartupHook;
  emit_log_hook : option EmitLogHook;
  prev_shmem_startup_hook : option ShmemStartupHook;
  prev_emit_log_hook : option EmitLogHook;
  addin_shmem_requests : list ShmemRequest;
  background_workers : list BackgroundWorker;
  custom_variables : list IntVariable;
}.

(** [_PG_init] (lines 268-294). *)
Definition _PG_init (K : Constants) (p : Loader) : Loader :=
  if negb (process_shared_preload_libraries_in_progress p) then p
  else
    {| process_shared_preload_libraries_in_progress :=
         process_shared_preload_libraries_in_progress p;
       shmem_startup_hook := Some hook_pgss_shmem_startup;
       emit_log_hook := Some hook_logerrors_emit_log_hook;
       prev_shmem_startup_hook := shmem_startup_hook p;
       prev_emit_log_hook := emit_log_hook p;
       addin_shmem_requests :=
         addin_shmem_requests p
         ++ [ {| sizeof_MessageInfo_times := error_types_count K;
                 sizeof_GlobalInfo_times := 1 |} ];
       background_workers :=
         background_workers p
         ++ [ {| bgw_name := "logerrors";
                 bgw_flags := [BGWORKER_SHMEM_ACCESS];
                 bgw_start_time := BgWorkerStart_RecoveryFinished;
                 bgw_restart_time := 10;
                 bgw_library_name := "logerrors";
                 bgw_function_name := "logerrors_main";
                 bgw_main_arg := 0;
                 bgw_notify_pid := 0 |} ];
       custom_variables := custom_variables p ++ logerrors_load_params |}.

(** [_PG_fini] (lines 296-301). *)
Definition _PG_fini (p : Loader) : Loader :=
  {| process_shared_preload_libraries_in_progress :=
       process_shared_preload_libraries_in_progress p;
     shmem_startup_hook := prev_shmem_startup_hook p;
     emit_log_hook := prev_emit_log_hook p;
     prev_shmem_startup_hook := prev_shmem_startup_hook p;
     prev_emit_log_hook := prev_emit_log_hook p;
     addin_shmem_requests := addin_shmem_requests p;
     background_workers := background_workers p;
     custom_variables := custom_variables p |}.

(** The open buckets of type [j] over all entries, and their
    long-interval counts. *)
Definition open_buckets (K : Constants) (h : gmap Z MessageInfo) (j : nat) : Z :=
  sum_list ((λ k, from_option (λ info, message_count info !!! j) 0 (h !! k))
              <$> error_codes K).

Definition long_counts (K : Constants) (h : gmap Z MessageInfo) (j : nat) : Z :=
  sum_list ((λ k, from_option (λ info, errors_in_long_interval info j) 0 (h !! k))
              <$> error_codes K).

(** ** Sample traces, for concrete runs *)

(** Two closed intervals and an open one. *)
Definition sample_buckets : list (list ErrorData) :=
  [[syntax_error; syntax_error]; [unknown_fatal]].

Definition sample_open : list ErrorData := [syntax_error; slow_statement].

Definition sample_ops : list Op :=
  [emit slow_statement; emit unknown_fatal; tick; emit syntax_error].

Definition timeout_wakeup : Wakeup :=
  {| sigterm_before_wait := false; postmaster_death := false;
     sigterm_in_wait := false |}.

(** A server in which another module has set [emit_log_hook] before. *)
Definition sample_loader : Loader :=
  {| process_shared_preload_libraries_in_progress := true;
     shmem_startup_hook := None;
     emit_log_hook := Some (foreign_emit_log_hook 1);
     prev_shmem_startup_hook := None;
     prev_emit_log_hook := None;
     addin_shmem_requests := [];
     background_workers := [];
     custom_variables := [] |}.

(** ** Proof tools *)

(** A list of known length 3, element by element. *)
Ltac three l := destruct l as [|? [|? [|? [|? ?]]]]; try discriminate.

(** The three message types, one by one. *)
Ltac type_index j H :=
  destruct j as [|[|[|j]]]; [| | |unfold message_types_count in H; lia].

(** * Machine integers *)

Lemma uint32_id z : is_uint32 z → uint32 z = z.
Proof. unfold is_uint32, uint32. intros H. apply Z.mod_small. lia. Qed.

Lemma int32_id z : is_int32 z → int32 z = z.
Proof.
  unfold is_int32, int32. intros H.
  rewrite Z.mod_small; lia.
Qed.

Lemma uint32_is_uint32 z : is_uint32 (uint32 z).
Proof. unfold is_uint32, uint32. apply Z.mod_pos_bound. lia. Qed.

Lemma int32_is_int32 z : is_int32 (int32 z).
Proof.
  unfold is_int32, int32.
  pose proof (Z.mod_pos_bound (z + 2 ^ 31) (2 ^ 32)). lia.
Qed.

Lemma int32_add_l a b : int32 (int32 a + b) = int32 (a + b).
Proof.
  unfold int32. f_equal.
  replace ((a + 2 ^ 31) `mod` 2 ^ 32 - 2 ^ 31 + b + 2 ^ 31)
    with ((a + 2 ^ 31) `mod` 2 ^ 32 + b) by lia.
  rewrite Zplus_mod_idemp_l. f_equal. lia.
Qed.

Lemma int32_add_r a b : int32 (a + int32 b) = int32 (a + b).
Proof. rewrite (Z.add_comm a), int32_add_l. f_equal. lia. Qed.

Lemma uint32_int32 z : uint32 (int32 z) = uint32 z.
Proof.
  unfold uint32, int32.
  rewrite Zminus_mod_idemp_l.
  replace (z + 2 ^ 31 - 2 ^ 31) with z by lia. done.
Qed.

Lemma int32_uint32 z : int32 (uint32 z) = int32 z.
Proof.
  unfold uint32, int32. f_equal.
  rewrite Zplus_mod_idemp_l. done.
Qed.

Lemma uint32_add_l x y : uint32 (uint32 x + y) = uint32 (x + y).
Proof. unfold uint32. apply Zplus_mod_idemp_l. Qed.

Lemma uint32_add_r x y : uint32 (x + uint32 y) = uint32 (x + y).
Proof. unfold uint32. apply Zplus_mod_idemp_r. Qed.

Lemma uint32_add_int32_r x y : uint32 (x + int32 y) = uint32 (x + y).
Proof. by rewrite <- uint32_add_r, uint32_int32, uint32_add_r. Qed.

(** Line 151: unsigned arithmetic stored in an [int] is the [int] of the
    exact result. *)
Lemma unsigned_sum_as_int a c b :
  int32 (uint32 (uint32 (uint32 a - c) + uint32 (int32 b))) = int32 (a + b - c).
Proof.
  rewrite int32_uint32, <- int32_uint32.
  rewrite uint32_add_l, uint32_add_r, uint32_add_int32_r.
  replace (uint32 a - c + b) with (uint32 a + (b - c)) by lia.
  rewrite uint32_add_l, int32_uint32. f_equal. lia.
Qed.

Lemma is_uint32_0 : is_uint32 0.
Proof. unfold is_uint32. lia. Qed.

Lemma is_int32_0 : is_int32 0.
Proof. unfold is_int32. lia. Qed.

(** * Loops *)

Lemma for_each_app {A S} (body : A → S → option S) l1 l2 s :
  for_each body (l1 ++ l2) s = s' ← for_each body l1 s; for_each body l2 s'.
Proof.
  revert s. induction l1 as [|a l1 IH]; intros s; simpl; [done|].
  destruct (body a s); simpl; auto.
Qed.

(** A loop over the indices of a table is a loop over its elements. *)
Lemma for_each_indices {A S} `{Inhabited A} (body : A → S → option S)
    (pre l : list A) s :
  for_each (λ i, body ((pre ++ l) !!! i)) (seq (length pre) (length l)) s
  = for_each body l s.
Proof.
  revert pre s. induction l as [|a l IH]; intros pre s; simpl; [done|].
  rewrite list_lookup_total_middle by done.
  destruct (body a s) as [s'|]; simpl; [|done].
  specialize (IH (pre ++ [a]) s').
  rewrite <- app_assoc, length_app in IH. simpl in IH.
  rewrite Nat.add_1_r in IH. exact IH.
Qed.

Lemma for_loop_table {A S} `{Inhabited A} (body : A → S → option S) (l : list A) s :
  for_loop (length l) (λ i, body (l !!! i)) s = for_each body l s.
Proof. apply (for_each_indices body [] l s). Qed.

(** * Ring sums *)

Lemma sum_insert (l : list Z) (i : nat) (v : Z) :
  (i < length l)%nat →
  foldr Z.add 0 (<[i := v]> l) = foldr Z.add 0 l - l !!! i + v.
Proof.
  revert i. induction l as [|x l IH]; intros i Hi; simpl in *; [lia|].
  destruct i as [|i]; simpl.
  - lia.
  - rewrite IH by lia. 
    change ((x :: l) !!! S i) with (l !!! i). lia.
Qed.

Lemma ring_sum_insert (n : Z) (row : list Z) (i : Z) (v : Z) :
  0 ≤ i < n → n ≤ Z.of_nat (length row) →
  ring_sum n (<[Z.to_nat i := v]> row) = ring_sum n row - row !!! Z.to_nat i + v.
Proof.
  intros Hi Hn. unfold ring_sum.
  rewrite take_insert_lt by lia.
  rewrite sum_insert by (rewrite length_take; lia).
  rewrite lookup_total_take_lt by lia. done.
Qed.

Lemma ring_sum_replicate n m : ring_sum n (replicate m 0) = 0.
Proof.
  unfold ring_sum. rewrite take_replicate.
  induction (Z.to_nat n `min` m)%nat; simpl; lia.
Qed.

(** * The rotation step *)

Lemma update_at_found idx j k (h : gmap Z MessageInfo) info :
  h !! k = Some info →
  update_at idx j k h = Some (<[k := update_entry idx j info]> h).
Proof. intros E. unfold update_at. rewrite E. done. Qed.

Lemma update_at_loop idx j (codes : list Z) (h : gmap Z MessageInfo) :
  NoDup codes →
  (∀ k, k ∈ codes → is_Some (h !! k)) →
  ∃ h', for_each (update_at idx j) codes h = Some h' ∧
        ∀ k, h' !! k = if decide (k ∈ codes) then update_entry idx j <$> h !! k
                       else h !! k.
Proof.
  revert h. induction codes as [|c codes IH]; intros h Hnd Hin.
  - exists h. split; [done|]. intros k.
    rewrite decide_False by apply not_elem_of_nil. done.
  - inversion Hnd as [|? ? Hc Hnd']; subst.
    destruct (Hin c) as [info Hinfo]; [apply list_elem_of_here|].
    cbn [for_each]. rewrite (update_at_found idx j c h info Hinfo). cbn [mbind option_bind].
    destruct (IH (<[c := update_entry idx j info]> h) Hnd') as (h' & Hrun & Hh').
    { intros k Hk. destruct (decide (c = k)) as [->|Hne].
      - rewrite lookup_insert_eq. eauto.
      - rewrite lookup_insert_ne by done. apply Hin. by apply list_elem_of_further. }
    exists h'. split; [done|]. intros k. rewrite Hh'.
    destruct (decide (c = k)) as [->|Hne].
    + rewrite decide_False by done. rewrite decide_True by apply list_elem_of_here.
      rewrite lookup_insert_eq, Hinfo. done.
    + rewrite lookup_insert_ne by done.
      destruct (decide (k ∈ codes)).
      * rewrite decide_True by (by apply list_elem_of_further). done.
      * rewrite decide_False by (intros [?|?]%elem_of_cons; congruence). done.
Qed.

Lemma rotate_loop (K : Constants) idx (h : gmap Z MessageInfo) :
  NoDup (error_codes K) →
  (∀ k, k ∈ error_codes K → is_Some (h !! k)) →
  (∀ k, is_Some (h !! k) → k ∈ error_codes K) →
  for_loop message_types_count
    (λ j, for_loop (error_types_count K) (update_body K idx j)) h
  = Some (rotate_entry idx <$> h).
Proof.
  intros Hnd Hin Hdom.
  assert (Hstep : ∀ j (h0 : gmap Z MessageInfo),
             (∀ k, is_Some (h0 !! k) ↔ k ∈ error_codes K) →
             for_loop (error_types_count K) (update_body K idx j) h0
             = Some (update_entry idx j <$> h0)).
  { intros j h0 Hh0. unfold update_body, error_types_count.
    rewrite (for_loop_table (update_at idx j)).
    destruct (update_at_loop idx j (error_codes K) h0 Hnd) as (h' & -> & Hh').
    { intros k Hk. by apply Hh0. }
    f_equal. apply map_eq. intros k. rewrite Hh', lookup_fmap.
    case_decide as Hk; [done|].
    destruct (h0 !! k) eqn:E; [|done]. exfalso. apply Hk, Hh0. eauto. }
  assert (Hdom' : ∀ (f : MessageInfo → MessageInfo) (h0 : gmap Z MessageInfo),
             (∀ k, is_Some (h0 !! k) ↔ k ∈ error_codes K) →
             ∀ k, is_Some ((f <$> h0) !! k) ↔ k ∈ error_codes K).
  { intros f h0 Hh0 k. rewrite lookup_fmap, fmap_is_Some. apply Hh0. }
  assert (H0 : ∀ k, is_Some (h !! k) ↔ k ∈ error_codes K) by (split; auto).
  unfold for_loop at 1. simpl.
  rewrite Hstep by done. simpl.
  rewrite Hstep by auto. simpl.
  rewrite Hstep by auto. simpl.
  f_equal. rewrite <- !map_fmap_compose. done.
Qed.

Lemma logerrors_update_info_ready (K : Constants) (b : Backend) h g :
  NoDup (error_codes K) →
  messages_info_hashtable b = Some h → global_variables b = Some g →
  ready K h g →
  logerrors_update_info K b
  = Some {| messages_info_hashtable :=
              Some (rotate_entry (current_interval_index g) <$> h);
            global_variables :=
              Some (set_current_interval_index g
                      ((current_interval_index g + 1) `mod` intervals_count g));
            MyProc := MyProc b;
            proc_exit_inprogress := proc_exit_inprogress b;
            server_log := server_log b |}.
Proof.
  intros Hnd Hh Hg R. unfold logerrors_update_info. rewrite Hh, Hg.
  rewrite rotate_loop; [|done|apply R|apply R]. simpl.
  destruct R. rewrite !uint32_id; [done|unfold is_uint32; lia..].
Qed.

(** * One entry under rotation *)

Lemma update_entry_ok idx j info :
  entry_ok info → entry_ok (update_entry idx j info).
Proof.
  intros [H1 H2 H3 H4 H5 H6]. split; simpl.
  - by rewrite length_insert.
  - apply Forall_insert; [done|apply is_uint32_0].
  - by rewrite length_insert.
  - apply Forall_insert; [done|apply int32_is_int32].
  - by rewrite length_insert.
  - destruct (decide (j < length (intervals info))%nat) as [Hj|Hj].
    + apply Forall_insert; [done|].
      destruct (list_lookup_lookup_total_lt (intervals info) j Hj) as [].
      pose proof (Forall_lookup_total_1 _ _ j H6 Hj) as [Hlen Hrow].
      split; [by rewrite length_insert|].
      apply Forall_insert; [done|apply uint32_is_uint32].
    + rewrite list_insert_ge by lia. done.
Qed.

Lemma rotate_entry_ok idx info : entry_ok info → entry_ok (rotate_entry idx info).
Proof.
  intros H. unfold rotate_entry. simpl. auto using update_entry_ok.
Qed.

Lemma rotate_entry_key idx info : key (rotate_entry idx info) = key info.
Proof. done. Qed.

Lemma rotate_entry_name idx info : name (rotate_entry idx info) = name info.
Proof. done. Qed.

(** Lines 150-156, for every message type of one entry: the sum gains the
    bucket and loses the slot, the slot takes the bucket, the bucket is
    cleared. *)
Lemma rotate_entry_spec idx info j :
  entry_ok info → (j < message_types_count)%nat →
  message_count (rotate_entry idx info) !!! j = 0 ∧
  sum_in_buffer (rotate_entry idx info) !!! j
    = int32 (sum_in_buffer info !!! j + message_count info !!! j
             - (intervals info !!! j) !!! Z.to_nat idx) ∧
  intervals (rotate_entry idx info) !!! j
    = <[Z.to_nat idx := message_count info !!! j]> (intervals info !!! j).
Proof.
  intros [H1 H2 H3 H4 H5 H6] Hj.
  destruct info as [k mc sums rows nm]; simpl in *.
  three mc; three sums; three rows.
  decompose_Forall_hyps.
  assert (E : ∀ a b c, is_uint32 b →
            int32 (uint32 (uint32 (uint32 a - c) + uint32 (int32 b)))
            = int32 (a + b - c)).
  { intros a b c _. apply unsigned_sum_as_int. }
  assert (U : ∀ b, is_uint32 b → uint32 (int32 b) = b).
  { intros b Hb. rewrite uint32_int32. by apply uint32_id. }
  type_index j Hj; unfold rotate_entry; cbn; rewrite ?E, ?U by done; done.
Qed.

(** The rolling sum follows the ring through a rotation. *)
Lemma rotate_entry_ring_sum idx n info j :
  entry_ok info → (j < message_types_count)%nat → 0 ≤ idx < n → n ≤ 360 →
  sum_in_buffer info !!! j = int32 (ring_sum n (intervals info !!! j)) →
  sum_in_buffer (rotate_entry idx info) !!! j
  = int32 (ring_sum n (intervals (rotate_entry idx info) !!! j)).
Proof.
  intros Hok Hj Hidx Hn Hsum.
  destruct (rotate_entry_spec idx info j Hok Hj) as (_ & -> & ->).
  assert (Hlen : length (intervals info !!! j) = 360%nat).
  { destruct Hok as [_ _ _ _ H5 H6].
    apply (Forall_lookup_total_1 _ _ j H6). rewrite H5. done. }
  rewrite ring_sum_insert by lia.
  rewrite Hsum.
  rewrite <- Z.add_sub_assoc, int32_add_l. f_equal. lia.
Qed.

(** * The hook *)

Lemma types_distinct (K : Constants) (i j : nat) :
  wf_constants K → (i < message_types_count)%nat → (j < message_types_count)%nat →
  message_types_codes K !!! i = message_types_codes K !!! j → i = j.
Proof.
  intros W Hi Hj E.
  assert (Hl := wf_types_codes K W).
  apply (NoDup_lookup (message_types_codes K) i j (message_types_codes K !!! i)).
  - apply W.
  - apply list_lookup_lookup_total_lt. lia.
  - rewrite E. apply list_lookup_lookup_total_lt. lia.
Qed.

Lemma hook_loop_tracked (K : Constants) edata j s :
  wf_constants K → (j < message_types_count)%nat →
  elevel edata = message_types_codes K !!! j →
  for_loop message_types_count (hook_body K edata) s = record_message K edata j s.
Proof.
  intros W Hj E.
  assert (D : ∀ i s0, (i < message_types_count)%nat → i ≠ j →
              hook_body K edata i s0 = Some s0).
  { intros i s0 Hi Hne. unfold hook_body. rewrite decide_True; [done|].
    rewrite E. intros E'. apply Hne. symmetry. by apply (types_distinct K j i). }
  assert (M : ∀ s0, hook_body K edata j s0 = record_message K edata j s0).
  { intros s0. unfold hook_body. rewrite decide_False; [done|]. intros N. by apply N. }
  unfold for_loop, message_types_count in *. cbn [seq for_each].
  destruct j as [|[|[|j]]]; [| | |lia].
  - rewrite M. destruct (record_message K edata 0 s) as [s1|] eqn:R; [|done].
    cbn [mbind option_bind]. rewrite D by lia. cbn [mbind option_bind].
    rewrite D by lia. done.
  - rewrite D by lia. cbn [mbind option_bind]. rewrite M.
    destruct (record_message K edata 1 s) as [s1|] eqn:R; [|done].
    cbn [mbind option_bind]. rewrite D by lia. done.
  - rewrite D by lia. cbn [mbind option_bind]. rewrite D by lia.
    cbn [mbind option_bind]. rewrite M.
    destruct (record_message K edata 2 s) as [s1|] eqn:R; done.
Qed.

Lemma hook_loop_untracked (K : Constants) edata s :
  wf_constants K →
  elevel edata ∉ message_types_codes K →
  for_loop message_types_count (hook_body K edata) s = Some s.
Proof.
  intros W E.
  assert (Hl := wf_types_codes K W).
  assert (D : ∀ i, (i < message_types_count)%nat → hook_body K edata i s = Some s).
  { intros i Hi. unfold hook_body. rewrite decide_True; [done|].
    intros E'. apply E. rewrite E'. apply list_elem_of_lookup_total_2. lia. }
  unfold for_loop, message_types_count in *. cbn [seq for_each].
  rewrite !D by lia. cbn [mbind option_bind].
  rewrite !D by lia. cbn [mbind option_bind].
  rewrite !D by lia. done.
Qed.

Lemma count_message_ok j elem : entry_ok elem → entry_ok (count_message j elem).
Proof.
  intros [H1 H2 H3 H4 H5 H6]. split; simpl; try done.
  - by rewrite length_insert.
  - apply Forall_insert; [done|apply uint32_is_uint32].
Qed.

Lemma count_message_spec j elem :
  (j < length (message_count elem))%nat →
  message_count (count_message j elem) !!! j = uint32 (message_count elem !!! j + 1) ∧
  (∀ j', j' ≠ j →
     message_count (count_message j elem) !!! j' = message_count elem !!! j').
Proof.
  intros Hj. simpl. split.
  - by rewrite list_lookup_total_insert_eq.
  - intros j' Hne. by rewrite list_lookup_total_insert_ne.
Qed.

(** The entry that a message with this sqlerrcode is counted in. *)
Lemma record_message_spec (K : Constants) edata j h g log :
  wf_constants K → ready K h g →
  ∃ k elem,
    h !! k = Some elem ∧
    (if decide (sqlerrcode edata ∈ error_codes K) then k = sqlerrcode edata
     else k = not_known_error_code K) ∧
    record_message K edata j (h, g, log)
    = Some (<[k := count_message j elem]> h, count_total j g,
            if decide (sqlerrcode edata ∈ error_codes K) then log
            else log ++ [not_known_error_code_line (sqlerrcode edata)]).
Proof.
  intros W R. unfold record_message.
  destruct (decide (sqlerrcode edata ∈ error_codes K)) as [Hin|Hout].
  - destruct (ready_codes K h g R _ Hin) as [elem E].
    exists (sqlerrcode edata), elem. rewrite E. done.
  - destruct (h !! sqlerrcode edata) as [elem|] eqn:E.
    { exfalso. apply Hout. apply (ready_dom K h g R). eauto. }
    destruct (ready_codes K h g R _ (wf_not_known K W)) as [elem E'].
    exists (not_known_error_code K), elem. rewrite E'. done.
Qed.

Lemma count_total_ready (K : Constants) h g j : ready K h g → ready K h (count_total j g).
Proof.
  intros [H1 H2 H3 H4 H5 H6 H7 H8]. split; simpl; try done.
  - by rewrite length_insert.
  - apply Forall_insert; [done|apply uint32_is_uint32].
Qed.

Lemma count_slow_ready (K : Constants) h g : ready K h g → ready K h (count_slow g).
Proof.
  intros [H1 H2 H3 H4 H5 H6 H7 H8]. split; simpl; try done.
  apply uint32_is_uint32.
Qed.

Lemma insert_ready (K : Constants) h g k elem elem' :
  ready K h g → h !! k = Some elem → entry_ok elem' →
  ready K (<[k := elem']> h) g.
Proof.
  intros [H1 H2 H3 H4 H5 H6 H7 H8] E Hok. split; try done.
  - intros k' Hk'. destruct (decide (k = k')) as [->|Hne].
    + rewrite lookup_insert_eq. eauto.
    + rewrite lookup_insert_ne by done. auto.
  - intros k' Hk'. destruct (decide (k = k')) as [->|Hne].
    + apply H2. eauto.
    + rewrite lookup_insert_ne in Hk' by done. auto.
  - intros k' info. destruct (decide (k = k')) as [->|Hne].
    + rewrite lookup_insert_eq. intros [= <-]. done.
    + rewrite lookup_insert_ne by done. eauto.
Qed.

(** * MemSet and initialisation *)

(** With a length of 360 bytes, [MemSet] clears the first 90 words of a row
    and nothing else. *)
Lemma MemSet_word_360 k w :
  MemSet_word max_number_of_intervals k w = if decide (k < 90)%nat then 0 else w.
Proof.
  unfold MemSet_word, max_number_of_intervals.
  repeat case_decide; try lia; done.
Qed.

Lemma MemSet_360_lookup (row : list Z) k :
  (k < length row)%nat →
  MemSet row max_number_of_intervals !!! k
  = if decide (k < 90)%nat then 0 else row !!! k.
Proof.
  intros Hk. unfold MemSet. rewrite !list_lookup_total_alt, list_lookup_imap.
  destruct (lookup_lt_is_Some_2 row k Hk) as [w ->]. simpl.
  apply MemSet_word_360.
Qed.

Lemma MemSet_length row len : length (MemSet row len) = length row.
Proof. unfold MemSet. apply length_imap. Qed.

Lemma MemSet_360_uint32 (row : list Z) :
  Forall is_uint32 row → Forall is_uint32 (MemSet row max_number_of_intervals).
Proof.
  intros H. apply Forall_lookup_2. intros i x.
  unfold MemSet. rewrite list_lookup_imap.
  destruct (row !! i) as [w|] eqn:E; simpl; [|done].
  intros [= <-]. rewrite MemSet_word_360.
  case_decide; [apply is_uint32_0|]. by apply (Forall_lookup_1 _ _ _ _ H E).
Qed.

Lemma init_type_ok nm elem j : entry_ok elem → entry_ok (init_type nm elem j).
Proof.
  intros [H1 H2 H3 H4 H5 H6]. split; simpl.
  - by rewrite length_insert.
  - apply Forall_insert; [done|apply is_uint32_0].
  - by rewrite length_insert.
  - apply Forall_insert; [done|apply is_int32_0].
  - by rewrite length_insert.
  - destruct (decide (j < length (intervals elem))%nat) as [Hj|Hj].
    + apply Forall_insert; [done|].
      pose proof (Forall_lookup_total_1 _ _ j H6 Hj) as [Hlen Hrow].
      split; [by rewrite MemSet_length|by apply MemSet_360_uint32].
    + rewrite list_insert_ge by lia. done.
Qed.

Lemma init_all_ok nm elem : entry_ok elem → entry_ok (init_all nm elem).
Proof.
  intros H. unfold init_all. simpl. auto using init_type_ok.
Qed.

(** What the inner loop of [logerrors_init] leaves in an entry. *)
Lemma init_all_spec nm elem j :
  entry_ok elem → (j < message_types_count)%nat →
  key (init_all nm elem) = key elem ∧
  name (init_all nm elem) = nm ∧
  message_count (init_all nm elem) !!! j = 0 ∧
  sum_in_buffer (init_all nm elem) !!! j = 0 ∧
  intervals (init_all nm elem) !!! j
    = MemSet (intervals elem !!! j) max_number_of_intervals.
Proof.
  intros [H1 H2 H3 H4 H5 H6] Hj.
  destruct elem as [k mc sums rows nm']; simpl in *.
  three mc; three sums; three rows.
  type_index j Hj; unfold init_all; cbn; done.
Qed.

Lemma init_all_fresh nm k : init_all nm (fresh_entry k) = zero_entry k nm.
Proof. vm_compute. done. Qed.

Lemma zero_entry_ok k nm : entry_ok (zero_entry k nm).
Proof.
  split; unfold zero_entry; cbn [message_count sum_in_buffer intervals];
    rewrite ?length_replicate; try done.
  - apply Forall_replicate, is_uint32_0.
  - apply Forall_replicate, is_int32_0.
  - apply Forall_replicate. split; [apply length_replicate|].
    apply Forall_replicate, is_uint32_0.
Qed.

Lemma fresh_entry_ok k : entry_ok (fresh_entry k).
Proof. apply (zero_entry_ok k ""). Qed.

(** The outer loop of [logerrors_init], after [n] iterations. *)
Lemma init_loop (K : Constants) (h : gmap Z MessageInfo) (n : nat) :
  NoDup (error_codes K) → (n ≤ length (error_codes K))%nat →
  ∀ k, foldl (init_entry K) h (seq 0 n) !! k
       = match list_find (λ c, c = k) (take n (error_codes K)) with
         | Some (i, _) => Some (init_all (error_names K !!! i) (hash_enter h k))
         | None => h !! k
         end.
Proof.
  intros Hnd. induction n as [|n IH]; intros Hn k.
  - done.
  - rewrite seq_S, foldl_app. cbn [foldl Nat.add]. unfold init_entry at 1.
    destruct (lookup_lt_is_Some_2 (error_codes K) n) as [c Hc]; [lia|].
    rewrite (list_lookup_total_correct _ _ _ Hc).
    rewrite (take_S_r _ _ _ Hc).
    assert (Hfresh : c ∉ take n (error_codes K)).
    { intros [i Hi]%list_elem_of_lookup. apply lookup_take_Some in Hi as [Hi Hlt].
      pose proof (NoDup_lookup _ _ _ _ Hnd Hi Hc). lia. }
    assert (Hfind : list_find (λ c0, c0 = c) (take n (error_codes K)) = None).
    { apply list_find_None. apply Forall_lookup_2. intros i x Hx E. apply Hfresh. subst x.
      by apply list_elem_of_lookup_2 with i. }
    destruct (decide (c = k)) as [->|Hne].
    + rewrite lookup_insert_eq.
      rewrite list_find_app_r by done.
      cbn. rewrite decide_True by done. cbn.
      rewrite length_take_le by lia.
      unfold hash_enter. rewrite IH by lia. rewrite Hfind. done.
    + rewrite lookup_insert_ne by done. rewrite IH by lia.
      destruct (list_find (λ c0, c0 = k) (take n (error_codes K))) as [[i x]|] eqn:F.
      * rewrite (list_find_app_l _ _ _ _ _ F). done.
      * rewrite list_find_app_r by done. cbn. rewrite decide_False by done. done.
Qed.

Lemma init_global (K : Constants) now h g :
  length (total_count g) = message_types_count →
  snd (logerrors_init K now h g)
  = {| interval := interval g;
       intervals_count := intervals_count g;
       current_interval_index := 0;
       total_count := replicate message_types_count 0;
       slow_log_info := {| count := 0; reset_time := now |} |}.
Proof.
  intros H. destruct g as [i n idx t s]; simpl in *. three t.
  unfold logerrors_init. cbn. done.
Qed.

Lemma init_table (K : Constants) now h g k :
  NoDup (error_codes K) →
  fst (logerrors_init K now h g) !! k
  = match list_find (λ c, c = k) (error_codes K) with
    | Some (i, _) => Some (init_all (error_names K !!! i) (hash_enter h k))
    | None => h !! k
    end.
Proof.
  intros Hnd. unfold logerrors_init. cbn [fst].
  rewrite init_loop by (unfold error_types_count; done || lia).
  unfold error_types_count. rewrite firstn_all. done.
Qed.

(** * The invariant [ready] *)

Lemma find_code_Some (codes : list Z) k :
  k ∈ codes → ∃ i, list_find (λ c, c = k) codes = Some (i, k) ∧ codes !! i = Some k.
Proof.
  intros Hk.
  destruct (list_find_elem_of (λ c, c = k) codes k Hk eq_refl) as [[i x] F].
  pose proof F as F'. apply list_find_Some in F' as (Hi & -> & _).
  exists i. done.
Qed.

Lemma find_code_None (codes : list Z) k :
  k ∉ codes → list_find (λ c, c = k) codes = None.
Proof.
  intros Hk. apply list_find_None. apply Forall_lookup_2.
  intros i x Hx ->. apply Hk. by apply list_elem_of_lookup_2 with i.
Qed.

Lemma zeros_uint32 : Forall is_uint32 (replicate message_types_count 0).
Proof. apply Forall_replicate, is_uint32_0. Qed.

(** [logerrors_init] in closed form. *)
Lemma init_result (K : Constants) now h g :
  NoDup (error_codes K) → length (total_count g) = message_types_count →
  ∃ h',
    logerrors_init K now h g
    = (h', {| interval := interval g;
              intervals_count := intervals_count g;
              current_interval_index := 0;
              total_count := replicate message_types_count 0;
              slow_log_info := {| count := 0; reset_time := now |} |}) ∧
    ∀ k, h' !! k
         = match list_find (λ c, c = k) (error_codes K) with
           | Some (i, _) => Some (init_all (error_names K !!! i) (hash_enter h k))
           | None => h !! k
           end.
Proof.
  intros Hnd Hlen.
  pose proof (init_global K now h g Hlen) as Hg.
  pose proof (λ k, init_table K now h g k Hnd) as Hh.
  destruct (logerrors_init K now h g) as [h' g']. simpl in Hg, Hh. subst g'.
  by exists h'.
Qed.

Lemma init_ready (K : Constants) now h g h' g' :
  NoDup (error_codes K) → ready K h g →
  logerrors_init K now h g = (h', g') → ready K h' g'.
Proof.
  intros Hnd R E.
  destruct (init_result K now h g Hnd (ready_total_length K h g R)) as (h1 & E1 & Hh).
  rewrite E in E1. injection E1 as <- ->.
  pose proof (ready_index K h g R). pose proof (ready_ring K h g R).
  split; cbn [interval intervals_count current_interval_index total_count
              slow_log_info count];
    try done; try apply zeros_uint32; try apply is_uint32_0; try lia.
  - intros k Hk. rewrite Hh.
    destruct (find_code_Some _ _ Hk) as (i & -> & _). eauto.
  - intros k. rewrite Hh.
    destruct (decide (k ∈ error_codes K)) as [|Hout]; [done|].
    rewrite find_code_None by done. apply R.
  - intros k info. rewrite Hh.
    destruct (list_find _ _) as [[i x]|] eqn:F.
    + intros [= <-]. apply init_all_ok. unfold hash_enter.
      destruct (h !! k) as [elem|] eqn:E'; simpl.
      * by apply (ready_entries K h g R k).
      * apply fresh_entry_ok.
    + apply R.
Qed.

(** The shared region that start-up creates. *)
Lemma startup_result (K : Constants) gi gc now b :
  NoDup (error_codes K) →
  ∃ h0,
    pgss_shmem_startup K false gi gc now b
    = {| messages_info_hashtable := Some h0;
         global_variables :=
           Some {| interval := gi;
                   intervals_count := gc;
                   current_interval_index := 0;
                   total_count := replicate message_types_count 0;
                   slow_log_info := {| count := 0; reset_time := now |} |};
         MyProc := MyProc b;
         proc_exit_inprogress := proc_exit_inprogress b;
         server_log := server_log b |} ∧
    ∀ k, h0 !! k
         = match list_find (λ c, c = k) (error_codes K) with
           | Some (i, _) => Some (zero_entry k (error_names K !!! i))
           | None => None
           end.
Proof.
  intros Hnd. unfold pgss_shmem_startup. cbn [negb].
  destruct (init_result K now ∅ (global_variables_init gi gc zero_GlobalInfo) Hnd)
    as (h0 & -> & Hh); [done|].
  exists h0. split; [done|]. intros k. rewrite Hh.
  destruct (list_find _ _) as [[i x]|]; [|apply lookup_empty].
  unfold hash_enter. rewrite lookup_empty. simpl. by rewrite init_all_fresh.
Qed.

Lemma startup_ready (K : Constants) gi gc now b :
  NoDup (error_codes K) → 1 ≤ gc ≤ 360 →
  initialized K (pgss_shmem_startup K false gi gc now b).
Proof.
  intros Hnd Hgc.
  destruct (startup_result K gi gc now b Hnd) as (h0 & -> & Hh).
  eexists _, _. split; [done|]. split; [done|].
  split; cbn [interval intervals_count current_interval_index total_count
              slow_log_info count];
    try done; try apply zeros_uint32; try apply is_uint32_0; try lia.
  - intros k Hk. rewrite Hh.
    destruct (find_code_Some _ _ Hk) as (i & -> & _). eauto.
  - intros k. rewrite Hh.
    destruct (decide (k ∈ error_codes K)) as [|Hout]; [done|].
    rewrite find_code_None by done. by intros [? ?].
  - intros k info. rewrite Hh.
    destruct (list_find _ _) as [[i x]|] eqn:F; [|done].
    intros [= <-]. apply zero_entry_ok.
Qed.

Lemma rotate_ready (K : Constants) h g :
  ready K h g →
  ready K (rotate_entry (current_interval_index g) <$> h)
    (set_current_interval_index g
       ((current_interval_index g + 1) `mod` intervals_count g)).
Proof.
  intros [H1 H2 H3 H4 H5 H6 H7 H8]. split; simpl; try done.
  - intros k Hk. rewrite lookup_fmap, fmap_is_Some. auto.
  - intros k. rewrite lookup_fmap, fmap_is_Some. auto.
  - intros k info. rewrite lookup_fmap.
    destruct (h !! k) as [elem|] eqn:E; simpl; [|done].
    intros [= <-]. apply rotate_entry_ok. eauto.
  - apply Z.mod_pos_bound. lia.
Qed.

Lemma tick_initialized (K : Constants) b :
  NoDup (error_codes K) → initialized K b →
  ∃ b', logerrors_update_info K b = Some b' ∧ initialized K b'.
Proof.
  intros Hnd (h & g & Hh & Hg & R).
  rewrite (logerrors_update_info_ready K b h g Hnd Hh Hg R).
  eexists. split; [done|]. do 2 eexists. simpl.
  split; [done|]. split; [done|]. by apply rotate_ready.
Qed.

(** The hook on an initialised backend, in closed form. *)
Lemma hook_initialized_active (K : Constants) edata b h g :
  wf_constants K →
  messages_info_hashtable b = Some h → global_variables b = Some g →
  ready K h g → hook_active b →
  ∃ h' g' log',
    logerrors_emit_log_hook K edata b
    = Some {| messages_info_hashtable := Some h';
              global_variables :=
                Some (if is_slow_log_line edata then count_slow g' else g');
              MyProc := MyProc b;
              proc_exit_inprogress := proc_exit_inprogress b;
              server_log := log' |} ∧
    ready K h' g' ∧
    (((elevel edata ∉ message_types_codes K) ∧ h' = h ∧ g' = g ∧ log' = server_log b)
     ∨ (∃ j k elem,
          (j < message_types_count)%nat ∧
          elevel edata = message_types_codes K !!! j ∧
          h !! k = Some elem ∧
          (if decide (sqlerrcode edata ∈ error_codes K) then k = sqlerrcode edata
           else k = not_known_error_code K) ∧
          h' = <[k := count_message j elem]> h ∧
          g' = count_total j g ∧
          log' = if decide (sqlerrcode edata ∈ error_codes K) then server_log b
                 else server_log b ++ [not_known_error_code_line (sqlerrcode edata)])).
Proof.
  intros W Hh Hg R [Hp He]. unfold logerrors_emit_log_hook.
  rewrite Hh, Hg, Hp, He. cbn [andb negb].
  destruct (decide (elevel edata ∈ message_types_codes K)) as [Hin|Hout].
  - apply list_elem_of_lookup in Hin as [j Hj].
    assert (Hlt : (j < message_types_count)%nat).
    { rewrite <- (wf_types_codes K W). by apply lookup_lt_Some in Hj. }
    assert (E : elevel edata = message_types_codes K !!! j).
    { symmetry. by apply list_lookup_total_correct. }
    rewrite (hook_loop_tracked K edata j _ W Hlt E).
    destruct (record_message_spec K edata j h g (server_log b) W R)
      as (k & elem & Hk & Hsel & ->).
    cbn [mbind option_bind].
    eexists _, _, _. split; [done|]. split.
    + apply count_total_ready. eapply insert_ready; [done|done|].
      apply count_message_ok. by apply (ready_entries K h g R k).
    + right. exists j, k, elem. done.
  - rewrite (hook_loop_untracked K edata _ W Hout). cbn [mbind option_bind].
    eexists _, _, _. split; [done|]. split; [done|]. left. done.
Qed.

Lemma hook_initialized (K : Constants) edata b :
  wf_constants K → initialized K b →
  ∃ b', logerrors_emit_log_hook K edata b = Some b' ∧ initialized K b'.
Proof.
  intros W (h & g & Hh & Hg & R).
  destruct (MyProc b && negb (proc_exit_inprogress b)) eqn:A.
  - apply andb_prop in A as [Hp He]. apply negb_true_iff in He.
    destruct (hook_initialized_active K edata b h g W Hh Hg R (conj Hp He))
      as (h' & g' & log' & -> & R' & _).
    eexists. split; [done|]. do 2 eexists. simpl.
    split; [done|]. split; [done|].
    destruct (is_slow_log_line edata); [by apply count_slow_ready|done].
  - exists b. split; [|by exists h, g].
    unfold logerrors_emit_log_hook. rewrite Hh, Hg, A. done.
Qed.

Lemma reset_initialized (K : Constants) now b :
  NoDup (error_codes K) → initialized K b →
  initialized K (fst (pg_log_errors_reset K now b)).
Proof.
  intros Hnd (h & g & Hh & Hg & R). unfold pg_log_errors_reset.
  rewrite Hh, Hg.
  destruct (logerrors_init K now h g) as [h' g'] eqn:E. simpl.
  exists h', g'. split; [done|]. split; [done|]. by eapply init_ready.
Qed.

(** Every run from an initialised backend goes through, and stays
    initialised. *)
Lemma run_initialized (K : Constants) ops b :
  wf_constants K → initialized K b →
  ∃ b', run K ops b = Some b' ∧ initialized K b'.
Proof.
  intros W. revert b. induction ops as [|op ops IH]; intros b I.
  - by exists b.
  - unfold run in *. cbn [for_each].
    assert (∃ b1, step K op b = Some b1 ∧ initialized K b1) as (b1 & -> & I1).
    { destruct op as [|edata|now]; simpl.
      - apply tick_initialized; [apply W|done].
      - by apply hook_initialized.
      - eexists. split; [done|]. apply reset_initialized; [apply W|done]. }
    cbn [mbind option_bind]. by apply IH.
Qed.

(** * The snapshot *)

Lemma stats_body_append (K : Constants) h g lvl_i tupstore i :
  stats_body K h g lvl_i tupstore i = tupstore ++ rows_of_entry K h g lvl_i i.
Proof.
  unfold rows_of_entry, stats_body.
  destruct (h !! (error_codes K !!! i)); [|by rewrite app_nil_r].
  repeat case_decide; simpl; rewrite <- ?app_assoc, ?app_nil_r; done.
Qed.

Lemma rows_of_entry_found (K : Constants) h g lvl_i i k info :
  error_codes K !! i = Some k → h !! k = Some info →
  rows_of_entry K h g lvl_i i = entry_rows K g info lvl_i.
Proof.
  intros Hi Hk. unfold rows_of_entry, stats_body, entry_rows.
  rewrite (list_lookup_total_correct _ _ _ Hi), Hk.
  repeat case_decide; done.
Qed.

Lemma stats_body_loop (K : Constants) h g lvl_i tupstore (l : list nat) :
  foldl (stats_body K h g lvl_i) tupstore l
  = tupstore ++ (l ≫= rows_of_entry K h g lvl_i).
Proof.
  revert tupstore. induction l as [|i l IH]; intros tupstore.
  - cbn. by rewrite app_nil_r.
  - cbn [foldl mbind list_bind]. rewrite IH, stats_body_append.
    by rewrite app_assoc.
Qed.

Lemma stats_level_append (K : Constants) h g tupstore lvl_i :
  stats_level K h g tupstore lvl_i
  = tupstore ++ total_row K g lvl_i
      :: (seq 0 (error_types_count K) ≫= rows_of_entry K h g lvl_i).
Proof.
  unfold stats_level. rewrite stats_body_loop, <- app_assoc. done.
Qed.

Lemma rows_of_level_eq (K : Constants) h g lvl_i :
  rows_of_level K h g lvl_i
  = total_row K g lvl_i :: (seq 0 (error_types_count K) ≫= rows_of_entry K h g lvl_i).
Proof. unfold rows_of_level. by rewrite stats_level_append. Qed.

Lemma stats_rows (K : Constants) h g :
  foldl (stats_level K h g) [] (seq 0 message_types_count)
  = rows_of_level K h g 0 ++ rows_of_level K h g 1 ++ rows_of_level K h g 2.
Proof.
  cbn [message_types_count seq foldl].
  rewrite !stats_level_append, !rows_of_level_eq. cbn [app].
  rewrite <- !app_assoc. done.
Qed.

Lemma check_call_ok {A} fcinfo (k : Result A) :
  rsinfo_is_ReturnSetInfo fcinfo = true →
  allows_SFRM_Materialize fcinfo = true →
  result_is_composite fcinfo = true →
  check_call fcinfo k = k.
Proof. intros H1 H2 H3. unfold check_call. by rewrite H1, H2, H3. Qed.


Lemma entry_rows_long (K : Constants) g info lvl_i :
  long_row K g info lvl_i ∈ entry_rows K g info lvl_i
  ↔ 0 < errors_in_long_interval info lvl_i.
Proof.
  unfold entry_rows. split.
  - intros [H|H]%elem_of_app.
    + case_decide; [done|]. by apply elem_of_nil in H.
    + case_decide as Hs; [|by apply elem_of_nil in H].
      apply list_elem_of_singleton in H.
      assert (E : row_count (long_row K g info lvl_i)
                  = row_count (short_row K g info lvl_i)) by (by rewrite H).
      simpl in E. lia.
  - intros H. apply elem_of_app. left. rewrite decide_True by done.
    by apply list_elem_of_singleton.
Qed.

Lemma entry_rows_short (K : Constants) g info lvl_i :
  short_row K g info lvl_i ∈ entry_rows K g info lvl_i
  ↔ 0 < errors_in_short_interval g info lvl_i.
Proof.
  unfold entry_rows. split.
  - intros [H|H]%elem_of_app.
    + case_decide as Hs; [|by apply elem_of_nil in H].
      apply list_elem_of_singleton in H.
      assert (E : row_count (short_row K g info lvl_i)
                  = row_count (long_row K g info lvl_i)) by (by rewrite H).
      simpl in E. lia.
    + case_decide; [done|]. by apply elem_of_nil in H.
  - intros H. apply elem_of_app. right. rewrite decide_True by done.
    by apply list_elem_of_singleton.
Qed.



(** Lines 432-433 on a ring whose index is in range. *)
Lemma prev_interval_index_ready (g : GlobalInfo) :
  0 ≤ current_interval_index g < intervals_count g → intervals_count g ≤ 360 →
  prev_interval_index g
  = (current_interval_index g - 1 + intervals_count g) `mod` intervals_count g.
Proof.
  intros Hi Hn. unfold prev_interval_index.
  set (idx := current_interval_index g) in *. set (n := intervals_count g) in *.
  rewrite (uint32_id n) by (unfold is_uint32; lia).
  assert (E : uint32 (uint32 (idx - 1) + n) = (idx - 1 + n) `mod` 2 ^ 32).
  { unfold uint32. by rewrite Zplus_mod_idemp_l. }
  rewrite E.
  destruct (decide (idx = 0)) as [->|Hne].
  - replace (0 - 1 + n) with (n - 1) by lia.
    rewrite (Z.mod_small (n - 1) (2 ^ 32)) by lia.
    apply int32_id. pose proof (Z.mod_pos_bound (n - 1) n). unfold is_int32. lia.
  - rewrite (Z.mod_small (idx - 1 + n) (2 ^ 32)) by lia.
    apply int32_id. pose proof (Z.mod_pos_bound (idx - 1 + n) n). unfold is_int32. lia.
Qed.

(** * The rolling sum *)

Lemma ring_sum_nonneg n (row : list Z) : Forall is_uint32 row → 0 ≤ ring_sum n row.
Proof.
  intros H. unfold ring_sum.
  assert (F : Forall is_uint32 (take (Z.to_nat n) row)) by (by apply Forall_take).
  induction F as [|x l Hx _ IH]; simpl; [done|]. unfold is_uint32 in Hx. lia.
Qed.

Lemma sums_match_startup (K : Constants) gi gc now b :
  NoDup (error_codes K) →
  ∃ h g, messages_info_hashtable (pgss_shmem_startup K false gi gc now b) = Some h ∧
         global_variables (pgss_shmem_startup K false gi gc now b) = Some g ∧
         intervals_count g = gc ∧ sums_match h g.
Proof.
  intros Hnd. destruct (startup_result K gi gc now b Hnd) as (h0 & -> & Hh).
  eexists _, _. split; [done|]. split; [done|]. split; [done|].
  intros k info j. rewrite Hh.
  destruct (list_find _ _) as [[i x]|]; [|done]. intros [= <-] Hj.
  cbn [intervals_count zero_entry sum_in_buffer intervals].
  rewrite !lookup_total_replicate_2 by done.
  by rewrite ring_sum_replicate.
Qed.

Lemma sums_match_rotate (K : Constants) h g :
  ready K h g → sums_match h g →
  sums_match (rotate_entry (current_interval_index g) <$> h)
    (set_current_interval_index g
       ((current_interval_index g + 1) `mod` intervals_count g)).
Proof.
  intros R S k info j. rewrite lookup_fmap.
  destruct (h !! k) as [elem|] eqn:E; [|done]. intros [= <-] Hj. cbn [fmap].
  change (intervals_count (set_current_interval_index g _)) with (intervals_count g).
  apply rotate_entry_ring_sum; [by apply (ready_entries K h g R k)|done|apply R..|].
  by apply (S k).
Qed.

Lemma sums_match_insert h g k elem j :
  sums_match h g → h !! k = Some elem →
  sums_match (<[k := count_message j elem]> h) g.
Proof.
  intros S E k' info j'. destruct (decide (k = k')) as [->|Hne].
  - rewrite lookup_insert_eq. intros [= <-] Hj'. exact (S k' elem j' E Hj').
  - rewrite lookup_insert_ne by done. apply S.
Qed.

Lemma sums_match_global h g g' :
  intervals_count g' = intervals_count g → sums_match h g → sums_match h g'.
Proof. intros E S k info j. rewrite E. apply S. Qed.

(** One step that is not a reset keeps the rolling sums in line. *)
Lemma step_sums_match (K : Constants) op b h g :
  wf_constants K → is_reset op = false →
  messages_info_hashtable b = Some h → global_variables b = Some g →
  ready K h g → sums_match h g →
  ∃ b' h' g', step K op b = Some b' ∧
    messages_info_hashtable b' = Some h' ∧ global_variables b' = Some g' ∧
    intervals_count g' = intervals_count g ∧ ready K h' g' ∧ sums_match h' g'.
Proof.
  intros W Hop Hh Hg R S. destruct op as [|edata|now]; [| |done]; cbn [step].
  - rewrite (logerrors_update_info_ready K b h g (wf_codes_NoDup K W) Hh Hg R).
    eexists _, _, _. split; [done|]. cbn.
    split; [done|]. split; [done|]. split; [done|].
    split; [by apply rotate_ready|by apply (sums_match_rotate K)].
  - destruct (MyProc b && negb (proc_exit_inprogress b)) eqn:A.
    + apply andb_prop in A as [Hp He]. apply negb_true_iff in He.
      destruct (hook_initialized_active K edata b h g W Hh Hg R (conj Hp He))
        as (h' & g' & log' & -> & R' & D).
      eexists _, _, _. split; [done|]. cbn.
      split; [done|]. split; [done|].
      assert (Hn : intervals_count g' = intervals_count g ∧ sums_match h' g).
      { destruct D as [(_ & -> & -> & _)|(j & k & elem & _ & _ & E & _ & -> & -> & _)].
        - done.
        - split; [done|]. by apply sums_match_insert. }
      destruct Hn as [Hn S'].
      destruct (is_slow_log_line edata).
      * split; [done|]. split; [by apply count_slow_ready|].
        by apply (sums_match_global h' g).
      * split; [done|]. split; [done|]. by apply (sums_match_global h' g).
    + exists b, h, g. split; [|done].
      unfold logerrors_emit_log_hook. rewrite Hh, Hg, A. done.
Qed.

Lemma run_sums_match (K : Constants) ops b h g :
  wf_constants K → Forall (λ op, is_reset op = false) ops →
  messages_info_hashtable b = Some h → global_variables b = Some g →
  ready K h g → sums_match h g →
  ∃ b' h' g', run K ops b = Some b' ∧
    messages_info_hashtable b' = Some h' ∧ global_variables b' = Some g' ∧
    intervals_count g' = intervals_count g ∧ ready K h' g' ∧ sums_match h' g'.
Proof.
  intros W Hops. revert b h g.
  induction Hops as [|op ops Hop _ IH]; intros b h g Hh Hg R S.
  - exists b, h, g. done.
  - destruct (step_sums_match K op b h g W Hop Hh Hg R S)
      as (b1 & h1 & g1 & E1 & Hh1 & Hg1 & Hn1 & R1 & S1).
    destruct (IH b1 h1 g1 Hh1 Hg1 R1 S1) as (b2 & h2 & g2 & E2 & Hh2 & Hg2 & Hn2 & R2 & S2).
    exists b2, h2, g2. unfold run in *. cbn [for_each]. rewrite E1. cbn.
    split; [done|]. split; [done|]. split; [done|]. split; [congruence|done].
Qed.

(** C1.  Start the shared region from zero-filled memory, then let the
    worker rotate and the hook count in any order, any number of times, but
    never reset.  The run goes through, and for every error code and every
    message type [sum_in_buffer] is the sum of the ring slots
    [intervals[0 .. intervals_count - 1]] as a C [int]; the two are the same
    integer whenever the sum of the slots is below 2^31. *)
Theorem rolling_sum_invariant (K : Constants) (gi gc now : Z) (b0 : Backend)
    (ops : list Op) :
  wf_constants K → 1 ≤ gc ≤ 360 →
  Forall (λ op, is_reset op = false) ops →
  ∃ b h g,
    run K ops (pgss_shmem_startup K false gi gc now b0) = Some b ∧
    messages_info_hashtable b = Some h ∧ global_variables b = Some g ∧
    intervals_count g = gc ∧
    ∀ k, k ∈ error_codes K →
      ∃ info, h !! k = Some info ∧
        ∀ j, (j < message_types_count)%nat →
          sum_in_buffer info !!! j = int32 (ring_sum gc (intervals info !!! j)) ∧
          (ring_sum gc (intervals info !!! j) < 2 ^ 31 →
           sum_in_buffer info !!! j = ring_sum gc (intervals info !!! j)).
Proof.
  intros W Hgc Hops.
  destruct (startup_ready K gi gc now b0 (wf_codes_NoDup K W) Hgc)
    as (h0 & g0 & Hh0 & Hg0 & R0).
  destruct (sums_match_startup K gi gc now b0 (wf_codes_NoDup K W))
    as (h0' & g0' & Hh0' & Hg0' & Hn0 & S0).
  rewrite Hh0 in Hh0'. rewrite Hg0 in Hg0'. injection Hh0' as <-. injection Hg0' as <-.
  destruct (run_sums_match K ops _ h0 g0 W Hops Hh0 Hg0 R0 S0)
    as (b & h & g & E & Hh & Hg & Hn & R & S).
  exists b, h, g. split; [done|]. split; [done|]. split; [done|].
  split; [congruence|].
  intros k Hk. destruct (ready_codes K h g R k Hk) as [info Hinfo].
  exists info. split; [done|]. intros j Hj.
  assert (Hs := S k info j Hinfo Hj). rewrite Hn, Hn0 in Hs.
  split; [done|]. intros Hlt. rewrite Hs. apply int32_id.
  assert (0 ≤ ring_sum gc (intervals info !!! j)); [|unfold is_int32; lia].
  apply ring_sum_nonneg.
  destruct (ready_entries K h g R k info Hinfo) as [_ _ _ _ H5 H6].
  apply (Forall_lookup_total_1 _ _ j H6). rewrite H5. done.
Qed.

(** * strstr *)

Lemma prefix_append (s1 s2 : string) :
  String.prefix s1 s2 = true ↔ ∃ post, s2 = String.append s1 post.
Proof.
  revert s2. induction s1 as [|c s1 IH]; intros s2.
  - destruct s2; simpl; (split; [intros _; by eexists|done]).
  - destruct s2 as [|c' s2]; simpl.
    + split; [done|]. by intros [post [=]].
    + destruct (Ascii.ascii_dec c c') as [->|Hne].
      * rewrite IH. split; intros [post E]; exists post.
        -- cbn. by rewrite E.
        -- cbn in E. by injection E.
      * split; [done|]. intros [post [=]]. done.
Qed.

Lemma strstr_step (haystack needle : string) :
  strstr haystack needle
  = if String.prefix needle haystack then true
    else match haystack with
         | EmptyString => false
         | String _ rest => strstr rest needle
         end.
Proof. by destruct haystack. Qed.

Lemma strstr_contains (haystack needle : string) :
  strstr haystack needle = true ↔ contains haystack needle.
Proof.
  unfold contains. split.
  - induction haystack as [|c rest IH]; rewrite strstr_step.
    + destruct (String.prefix needle "") eqn:P; [|done]. intros _.
      apply prefix_append in P as [post E]. by exists ""%string, post.
    + destruct (String.prefix needle (String c rest)) eqn:P.
      * intros _. apply prefix_append in P as [post E]. by exists ""%string, post.
      * intros H. destruct (IH H) as (pre & post & ->).
        by exists (String c pre), post.
  - intros (pre & post & ->). induction pre as [|c pre IH]; rewrite strstr_step.
    + assert (P : String.prefix needle (String.append needle post) = true).
      { apply prefix_append. by exists post. }
      change (String.append "" (String.append needle post))
        with (String.append needle post).
      by rewrite P.
    + destruct (String.prefix needle _); [done|]. exact IH.
Qed.

(** * Statements about single calls *)



(** The pointers are NULL before start-up, both set after it, and no call
    changes which of them are set. *)
Lemma startup_pointers (K : Constants) u gi gc now b :
  pointers_in_startup_order (pgss_shmem_startup K u gi gc now b).
Proof.
  unfold pointers_in_startup_order, pgss_shmem_startup.
  destruct (logerrors_init K now ∅ _). simpl. discriminate.
Qed.

Lemma step_pointers (K : Constants) op b b' :
  pointers_in_startup_order b → step K op b = Some b' →
  pointers_in_startup_order b'.
Proof.
  unfold pointers_in_startup_order. intros O.
  destruct op as [|edata|now]; cbn [step].
  - unfold logerrors_update_info.
    destruct (messages_info_hashtable b) as [h|] eqn:Hh;
      [destruct (global_variables b) as [g|] eqn:Hg|].
    + destruct (for_loop _ _ h); [|discriminate]. intros [= <-]. discriminate.
    + intros [= <-]. by rewrite Hg.
    + intros [= <-]. rewrite Hh. exact O.
  - unfold logerrors_emit_log_hook.
    destruct (messages_info_hashtable b) as [h|] eqn:Hh;
      [destruct (global_variables b) as [g|] eqn:Hg|].
    + destruct (MyProc b && negb (proc_exit_inprogress b)).
      * destruct (for_loop _ _ _) as [[[h' g'] log']|]; [|discriminate].
        intros [= <-]. discriminate.
      * intros [= <-]. by rewrite Hh.
    + intros [= <-]. by rewrite Hg.
    + intros [= <-]. rewrite Hh. exact O.
  - unfold pg_log_errors_reset.
    destruct (messages_info_hashtable b) as [h|] eqn:Hh;
      [destruct (global_variables b) as [g|] eqn:Hg|].
    + destruct (logerrors_init K now h g). intros [= <-]. discriminate.
    + intros [= <-]. by rewrite Hg.
    + intros [= <-]. rewrite Hh. exact O.
Qed.

(** C5.  While the shared region is not ready, [pg_log_errors_stats] and
    [pg_log_errors_reset] leave through [ereport (ERROR, ...)] with
    ERRCODE_OBJECT_NOT_IN_PREREQUISITE_STATE, no row is produced and the
    backend is as before; [pg_slow_log_stats] returns without a result
    set. *)
Theorem not_ready_calls (K : Constants) (fcinfo : FunctionCallInfo) (now : Z)
    (b : Backend) :
  pointers_in_startup_order b → shmem_not_ready b →
  pg_log_errors_stats K fcinfo b
    = ereport_ERROR ERRCODE_OBJECT_NOT_IN_PREREQUISITE_STATE
        "logerrors must be loaded via shared_preload_libraries" ∧
  pg_log_errors_reset K now b
    = (b, ereport_ERROR ERRCODE_OBJECT_NOT_IN_PREREQUISITE_STATE
            "logerrors must be loaded via shared_preload_libraries") ∧
  pg_slow_log_stats fcinfo b = Returned None.
Proof.
  intros Ho Hn.
  assert (Hg : global_variables b = None).
  { destruct Hn as [Hn|Hn]; [by apply Ho|done]. }
  unfold pg_log_errors_stats, pg_log_errors_reset, pg_slow_log_stats.
  rewrite Hg. destruct (messages_info_hashtable b); done.
Qed.

(** C10.  A message that passes the guard of the hook adds one to the slow
    log counter (a [pg_atomic_uint32]: plus one below 2^32 - 1) when its
    text contains "duration:" and leaves the counter alone otherwise,
    whatever its level; when the level is none of the tracked ones the
    hashtable and the totals are as before. *)
Theorem slow_log_counting (K : Constants) (edata : ErrorData) (b : Backend)
    (h : gmap Z MessageInfo) (g : GlobalInfo) :
  wf_constants K →
  messages_info_hashtable b = Some h → global_variables b = Some g →
  ready K h g → hook_active b →
  ∃ b' h' g',
    logerrors_emit_log_hook K edata b = Some b' ∧
    messages_info_hashtable b' = Some h' ∧ global_variables b' = Some g' ∧
    ((∃ m, message edata = Some m ∧ contains m "duration:") →
     count (slow_log_info g') = uint32 (count (slow_log_info g) + 1) ∧
     (count (slow_log_info g) + 1 < 2 ^ 32 →
      count (slow_log_info g') = count (slow_log_info g) + 1)) ∧
    (¬ (∃ m, message edata = Some m ∧ contains m "duration:") →
     count (slow_log_info g') = count (slow_log_info g)) ∧
    (elevel edata ∉ message_types_codes K →
     h' = h ∧ total_count g' = total_count g).
Proof.
  intros W Hh Hg R A.
  destruct (hook_initialized_active K edata b h g W Hh Hg R A)
    as (h' & g' & log' & -> & R' & D).
  assert (Hc : count (slow_log_info g') = count (slow_log_info g)).
  { destruct D as [(_ & _ & -> & _)|(j & k & elem & _ & _ & _ & _ & _ & -> & _)]; done. }
  assert (Hs : is_slow_log_line edata = true
               ↔ ∃ m, message edata = Some m ∧ contains m "duration:").
  { unfold is_slow_log_line. destruct (message edata) as [m|].
    - rewrite strstr_contains. split; [by exists m|]. by intros (? & [= <-] & ?).
    - split; [done|]. by intros (? & [=] & _). }
  eexists _, _, _. split; [done|]. cbn.
  split; [done|]. split; [done|]. split; [|split].
  - intros Hm. apply Hs in Hm. rewrite Hm. cbn. rewrite Hc.
    split; [done|]. intros Hfit. apply uint32_id.
    pose proof (ready_slow K h g R) as Hu. unfold is_uint32 in *. lia.
  - intros Hm. destruct (is_slow_log_line edata) eqn:E; [|done].
    exfalso. apply Hm, Hs. done.
  - intros Hout.
    destruct D as [(_ & -> & -> & _)|(j & k & elem & Hj & E & _)].
    + by destruct (is_slow_log_line edata).
    + exfalso. apply Hout. rewrite E. apply list_elem_of_lookup_total_2.
      by rewrite (wf_types_codes K W).
Qed.

(** C8.  A message of the tracked type [j] that passes the guard of the
    hook is counted in the entry of its own sqlerrcode when that code is in
    [error_codes], and in the entry of [not_known_error_code] otherwise:
    the hook returns, [message_count[j]] of that entry and [total_count[j]]
    have gone up by one (as [pg_atomic_uint32]: plus one below 2^32 - 1),
    the other counters of the entry and all other entries are as before,
    and an unknown code is reported to the server log with
    [elog (LOG, ...)]. *)
Theorem unknown_code_fallback (K : Constants) (edata : ErrorData) (b : Backend)
    (h : gmap Z MessageInfo) (g : GlobalInfo) (j : nat) :
  wf_constants K →
  messages_info_hashtable b = Some h → global_variables b = Some g →
  ready K h g → hook_active b →
  (j < message_types_count)%nat →
  elevel edata = message_types_codes K !!! j →
  ∃ b' h' g' k elem elem',
    logerrors_emit_log_hook K edata b = Some b' ∧
    messages_info_hashtable b' = Some h' ∧ global_variables b' = Some g' ∧
    k = (if decide (sqlerrcode edata ∈ error_codes K) then sqlerrcode edata
         else not_known_error_code K) ∧
    h !! k = Some elem ∧ h' !! k = Some elem' ∧
    message_count elem' !!! j = uint32 (message_count elem !!! j + 1) ∧
    total_count g' !!! j = uint32 (total_count g !!! j + 1) ∧
    (message_count elem !!! j + 1 < 2 ^ 32 →
     message_count elem' !!! j = message_count elem !!! j + 1) ∧
    (total_count g !!! j + 1 < 2 ^ 32 →
     total_count g' !!! j = total_count g !!! j + 1) ∧
    (∀ j', j' ≠ j → message_count elem' !!! j' = message_count elem !!! j') ∧
    sum_in_buffer elem' = sum_in_buffer elem ∧
    intervals elem' = intervals elem ∧
    (∀ k', k' ≠ k → h' !! k' = h !! k') ∧
    server_log b'
      = (if decide (sqlerrcode edata ∈ error_codes K) then server_log b
         else server_log b ++ [not_known_error_code_line (sqlerrcode edata)]).
Proof.
  intros W Hh Hg R A Hj E.
  destruct (hook_initialized_active K edata b h g W Hh Hg R A)
    as (h' & g' & log' & -> & R' & D).
  destruct D as [(Hout & _)|(j' & k & elem & Hj' & E' & Hk & Hsel & -> & -> & ->)].
  { exfalso. apply Hout. rewrite E. apply list_elem_of_lookup_total_2.
    by rewrite (wf_types_codes K W). }
  assert (j' = j) as ->.
  { apply (types_distinct K j' j W Hj' Hj). congruence. }
  assert (Hlen : (j < length (message_count elem))%nat).
  { rewrite (ok_message_count_length _ (ready_entries K h g R k elem Hk)). done. }
  assert (Hlen' : (j < length (total_count g))%nat).
  { rewrite (ready_total_length K h g R). done. }
  destruct (count_message_spec j elem Hlen) as [M1 M2].
  eexists _, _, _, k, elem, (count_message j elem). split; [done|]. cbn.
  split; [done|]. split; [done|].
  split; [by case_decide|]. split; [done|].
  split; [by rewrite lookup_insert_eq|].
  assert (Ht : total_count
                 (if is_slow_log_line edata then count_slow (count_total j g)
                  else count_total j g) !!! j
               = uint32 (total_count g !!! j + 1)).
  { destruct (is_slow_log_line edata); cbn;
      by rewrite list_lookup_total_insert_eq. }
  assert (Um : is_uint32 (message_count elem !!! j)).
  { apply Forall_lookup_total_1; [|done].
    apply (ok_message_count _ (ready_entries K h g R k elem Hk)). }
  assert (Ut : is_uint32 (total_count g !!! j)).
  { apply Forall_lookup_total_1; [apply R|done]. }
  split; [done|]. split; [exact Ht|].
  split.
  { intros Hfit. etransitivity; [exact M1|].
    apply uint32_id. unfold is_uint32 in *. lia. }
  split. { intros Hfit. rewrite Ht. apply uint32_id. unfold is_uint32 in *. lia. }
  split; [done|]. split; [done|]. split; [done|]. split; [|done].
  intros k' Hne. by rewrite lookup_insert_ne.
Qed.


(** * Tables in closed form *)

Lemma find_code_index (K : Constants) i k :
  NoDup (error_codes K) → error_codes K !! i = Some k →
  list_find (λ c, c = k) (error_codes K) = Some (i, k).
Proof.
  intros Hnd Hi.
  destruct (find_code_Some (error_codes K) k) as (i' & F & Hi').
  { by apply list_elem_of_lookup_2 with i. }
  by rewrite (NoDup_lookup _ _ _ _ Hnd Hi Hi').
Qed.

Lemma table_is_lookup (K : Constants) h f i k :
  NoDup (error_codes K) → table_is K h f → error_codes K !! i = Some k →
  h !! k = Some (f k (error_names K !!! i)).
Proof. intros Hnd T Hi. by rewrite T, (find_code_index K i k). Qed.

Lemma table_is_fmap (K : Constants) h f (r : MessageInfo → MessageInfo) :
  table_is K h f → table_is K (r <$> h) (λ k nm, r (f k nm)).
Proof.
  intros T k. rewrite lookup_fmap, T. by destruct (list_find _ _) as [[i x]|].
Qed.

Lemma table_is_insert (K : Constants) h f (r : MessageInfo → MessageInfo) X elem :
  table_is K h f → h !! X = Some elem →
  table_is K (<[X := r elem]> h) (λ k nm, if decide (k = X) then r (f k nm) else f k nm).
Proof.
  intros T E k. destruct (decide (k = X)) as [->|Hne].
  - rewrite lookup_insert_eq. rewrite T in E.
    destruct (list_find _ _) as [[i x]|]; [|done]. by injection E as <-.
  - rewrite lookup_insert_ne by done. apply T.
Qed.

Lemma table_is_ext (K : Constants) h f f' :
  table_is K h f → (∀ k nm, f k nm = f' k nm) → table_is K h f'.
Proof.
  intros T E k. rewrite T. destruct (list_find _ _) as [[i x]|]; [|done].
  by rewrite E.
Qed.

(** * Runs in closed form *)

Lemma startup_state_is (K : Constants) gi gc now b0 :
  wf_constants K → 1 ≤ gc ≤ 360 → hook_active b0 →
  state_is K (pgss_shmem_startup K false gi gc now b0) zero_entry gi gc 0
    (replicate message_types_count 0).
Proof.
  intros W Hgc A.
  pose proof (startup_ready K gi gc now b0 (wf_codes_NoDup K W) Hgc) as (h & g & Hh & Hg & R).
  destruct (startup_result K gi gc now b0 (wf_codes_NoDup K W)) as (h0 & E & T).
  rewrite E in Hh, Hg. cbn in Hh, Hg. injection Hh as <-. injection Hg as <-.
  exists h0, {| count := 0; reset_time := now |}. rewrite E. cbn.
  split; [done|]. split; [done|]. split; [done|]. split; [done|]. exact T.
Qed.

Lemma emit_state_is (K : Constants) b f gi gc idx totals j X m :
  wf_constants K → state_is K b f gi gc idx totals →
  (j < message_types_count)%nat → X ∈ error_codes K →
  ∃ b', logerrors_emit_log_hook K (scenario_event K j X m) b = Some b' ∧
        state_is K b'
          (λ k nm, if decide (k = X) then count_message j (f k nm) else f k nm)
          gi gc idx (<[j := uint32 (totals !!! j + 1)]> totals).
Proof.
  intros W (h & s & Hh & Hg & R & A & T) Hj HX.
  destruct (hook_initialized_active K (scenario_event K j X m) b h _ W Hh Hg R A)
    as (h' & g' & log' & -> & R' & D).
  destruct D as [(Hout & _)|(j' & k & elem & Hj' & E' & Hk & Hsel & -> & -> & ->)].
  { exfalso. apply Hout. cbn. apply list_elem_of_lookup_total_2.
    by rewrite (wf_types_codes K W). }
  assert (j' = j) as ->.
  { apply (types_distinct K j' j W Hj' Hj). by rewrite <- E'. }
  cbn [scenario_event sqlerrcode] in Hsel. rewrite decide_True in Hsel by done.
  subst k.
  eexists. split; [done|].
  exists (<[X := count_message j elem]> h).
  destruct (is_slow_log_line (scenario_event K j X m)).
  - exists {| count := pg_atomic_fetch_add_u32 (count s) 1;
              reset_time := reset_time s |}.
    split; [done|]. split; [done|].
    split; [exact (count_slow_ready K _ _ R')|]. split; [done|].
    by apply table_is_insert.
  - exists s. split; [done|]. split; [done|]. split; [exact R'|]. split; [done|].
    by apply table_is_insert.
Qed.

Lemma tick_state_is (K : Constants) b f gi gc idx totals :
  wf_constants K → state_is K b f gi gc idx totals →
  ∃ b', logerrors_update_info K b = Some b' ∧
        state_is K b' (λ k nm, rotate_entry idx (f k nm)) gi gc
          ((idx + 1) `mod` gc) totals.
Proof.
  intros W (h & s & Hh & Hg & R & A & T).
  rewrite (logerrors_update_info_ready K b h _ (wf_codes_NoDup K W) Hh Hg R).
  eexists. split; [done|].
  exists (rotate_entry idx <$> h), s.
  split; [done|]. split; [done|]. split; [exact (rotate_ready K h _ R)|].
  split; [done|]. by apply table_is_fmap.
Qed.

Lemma state_is_ext (K : Constants) b f f' gi gc idx totals totals' :
  state_is K b f gi gc idx totals →
  (∀ k nm, f k nm = f' k nm) → totals = totals' →
  state_is K b f' gi gc idx totals'.
Proof.
  intros (h & s & Hh & Hg & R & A & T) E <-. exists h, s.
  split; [done|]. split; [done|]. split; [done|]. split; [done|].
  by apply (table_is_ext K h f).
Qed.

(** Every row of the snapshot of a known table is a total or a row of an
    entry. *)
Lemma snapshot_state_is (K : Constants) fcinfo b f gi gc idx totals :
  wf_constants K → state_is K b f gi gc idx totals →
  rsinfo_is_ReturnSetInfo fcinfo = true →
  allows_SFRM_Materialize fcinfo = true →
  result_is_composite fcinfo = true →
  ∃ rows s,
    pg_log_errors_stats K fcinfo b = Returned rows ∧
    (∀ j, (j < message_types_count)%nat →
          total_row K (view_global gi gc idx totals s) j ∈ rows) ∧
    (∀ j i k r, (j < message_types_count)%nat → error_codes K !! i = Some k →
       r ∈ entry_rows K (view_global gi gc idx totals s)
             (f k (error_names K !!! i)) j →
       r ∈ rows) ∧
    (∀ r, r ∈ rows →
       row_time_interval r = None ∨
       ∃ j i k, (j < message_types_count)%nat ∧ error_codes K !! i = Some k ∧
         r ∈ entry_rows K (view_global gi gc idx totals s)
               (f k (error_names K !!! i)) j).
Proof.
  intros W (h & s & Hh & Hg & R & A & T) F1 F2 F3.
  set (g := view_global gi gc idx totals s) in *.
  exists (rows_of_level K h g 0 ++ rows_of_level K h g 1 ++ rows_of_level K h g 2), s.
  assert (Hin : ∀ j, (j < message_types_count)%nat → ∀ r,
            r ∈ rows_of_level K h g j →
            r ∈ rows_of_level K h g 0 ++ rows_of_level K h g 1 ++ rows_of_level K h g 2).
  { intros j Hj r Hr. rewrite !elem_of_app.
    destruct j as [|[|[|j]]]; [auto..|]. unfold message_types_count in Hj. lia. }
  assert (Hrows : ∀ j i k, error_codes K !! i = Some k →
            rows_of_entry K h g j i = entry_rows K g (f k (error_names K !!! i)) j).
  { intros j i k Hi. apply (rows_of_entry_found K h g j i k); [done|].
    by apply (table_is_lookup K h f i k (wf_codes_NoDup K W)). }
  split.
  { unfold pg_log_errors_stats. rewrite Hh, Hg.
    rewrite check_call_ok by done. by rewrite stats_rows. }
  split; [|split].
  - intros j Hj. apply (Hin j Hj). rewrite rows_of_level_eq. apply list_elem_of_here.
  - intros j i k r Hj Hi Hr. apply (Hin j Hj). rewrite rows_of_level_eq.
    apply list_elem_of_further. apply list_elem_of_bind. exists i.
    rewrite (Hrows j i k Hi). split; [done|].
    apply elem_of_seq. apply lookup_lt_Some in Hi. unfold error_types_count. lia.
  - assert (Hlevel : ∀ j r, (j < message_types_count)%nat →
              r ∈ rows_of_level K h g j →
              row_time_interval r = None ∨
              ∃ j i k, (j < message_types_count)%nat ∧ error_codes K !! i = Some k ∧
                r ∈ entry_rows K g (f k (error_names K !!! i)) j).
    { intros j r Hj. rewrite rows_of_level_eq.
      intros [->|Hr]%elem_of_cons; [by left|]. right.
      apply list_elem_of_bind in Hr as (i & Hr & Hi).
      apply elem_of_seq in Hi as [_ Hi]. cbn in Hi.
      destruct (lookup_lt_is_Some_2 (error_codes K) i Hi) as [k Hk].
      exists j, i, k. rewrite <- (Hrows j i k Hk). done. }
    intros r. rewrite !elem_of_app.
    intros [Hr|[Hr|Hr]]; eapply Hlevel; try exact Hr; unfold message_types_count; lia.
Qed.

(** * Scenarios A and B *)

Lemma rotate_zero_entry idx k nm :
  0 ≤ idx < 3 → rotate_entry idx (zero_entry k nm) = zero_entry k nm.
Proof.
  intros H. assert (idx = 0 ∨ idx = 1 ∨ idx = 2) as [-> | [-> | ->]] by lia;
    vm_compute; done.
Qed.

Lemma scenario_entry_counted X nm j :
  (j < message_types_count)%nat →
  rotate_entry 0 (count_message j (count_message j (zero_entry X nm)))
  = scenario_entry X nm j 2 2.
Proof. intros Hj. type_index j Hj; vm_compute; done. Qed.

Lemma scenario_entry_kept idx X nm j :
  (j < message_types_count)%nat → 1 ≤ idx < 3 →
  rotate_entry idx (scenario_entry X nm j 2 2) = scenario_entry X nm j 2 2.
Proof.
  intros Hj H. assert (idx = 1 ∨ idx = 2) as [-> | ->] by lia;
    type_index j Hj; vm_compute; done.
Qed.

Lemma scenario_entry_evicted X nm j :
  (j < message_types_count)%nat →
  rotate_entry 0 (scenario_entry X nm j 2 2) = zero_entry X nm.
Proof. intros Hj. type_index j Hj; vm_compute; done. Qed.

Lemma scenario_totals j :
  (j < message_types_count)%nat →
  <[j := uint32 (<[j := uint32 (replicate message_types_count 0 !!! j + 1)]>
                   (replicate message_types_count 0) !!! j + 1)]>
    (<[j := uint32 (replicate message_types_count 0 !!! j + 1)]>
       (replicate message_types_count 0))
  = <[j := 2]> (replicate message_types_count 0).
Proof. intros Hj. type_index j Hj; vm_compute; done. Qed.

Lemma zero_entry_rows (K : Constants) idx totals s k nm j :
  0 ≤ idx < 3 → (j < message_types_count)%nat →
  entry_rows K (view_global 1000 3 idx totals s) (zero_entry k nm) j = [].
Proof.
  intros H Hj. assert (idx = 0 ∨ idx = 1 ∨ idx = 2) as [-> | [-> | ->]] by lia;
    type_index j Hj; vm_compute; done.
Qed.

Lemma scenario_entry_rows_other (K : Constants) idx totals s X nm j j' :
  0 ≤ idx < 3 → (j < message_types_count)%nat → (j' < message_types_count)%nat →
  j' ≠ j →
  entry_rows K (view_global 1000 3 idx totals s) (scenario_entry X nm j 2 2) j' = [].
Proof.
  intros H Hj Hj' Hne. assert (idx = 0 ∨ idx = 1 ∨ idx = 2) as [-> | [-> | ->]] by lia;
    type_index j Hj; type_index j' Hj'; try done; vm_compute; done.
Qed.

(** Right after the rotation the bucket of 2 is the slot before the index:
    long row and short row. *)
Lemma scenario_entry_rows_fresh (K : Constants) totals s X nm j :
  (j < message_types_count)%nat →
  entry_rows K (view_global 1000 3 1 totals s) (scenario_entry X nm j 2 2) j
  = [ {| row_time_interval := Some 3; row_type := message_type_names K !!! j;
         row_message := nm; row_count := 2 |};
      {| row_time_interval := Some 1; row_type := message_type_names K !!! j;
         row_message := nm; row_count := 2 |} ].
Proof. intros Hj. type_index j Hj; vm_compute; done. Qed.

(** One and two rotations later the slot before the index is empty: long
    row only. *)
Lemma scenario_entry_rows_aged (K : Constants) idx totals s X nm j :
  (j < message_types_count)%nat → idx = 2 ∨ idx = 0 →
  entry_rows K (view_global 1000 3 idx totals s) (scenario_entry X nm j 2 2) j
  = [ {| row_time_interval := Some 3; row_type := message_type_names K !!! j;
         row_message := nm; row_count := 2 |} ].
Proof. intros Hj [-> | ->]; type_index j Hj; vm_compute; done. Qed.

Lemma scenario_total_row (K : Constants) idx s j :
  (j < message_types_count)%nat →
  total_row K (view_global 1000 3 idx (<[j := 2]> (replicate message_types_count 0)) s) j
  = {| row_time_interval := None; row_type := message_type_names K !!! j;
       row_message := "TOTAL"; row_count := 2 |}.
Proof. intros Hj. type_index j Hj; vm_compute; done. Qed.

Lemma run_cons (K : Constants) op ops b b1 :
  step K op b = Some b1 → run K (op :: ops) b = run K ops b1.
Proof. intros E. unfold run. cbn [for_each]. by rewrite E. Qed.

(** Scenario A in closed form. *)
Lemma scenario_A_state (K : Constants) now b0 j X m1 m2 :
  wf_constants K → hook_active b0 →
  (j < message_types_count)%nat → X ∈ error_codes K →
  ∃ b, run K (scenario_A K j X m1 m2) (pgss_shmem_startup K false 1000 3 now b0) = Some b ∧
       state_is K b (scenario_table X j) 1000 3 1
         (<[j := 2]> (replicate message_types_count 0)).
Proof.
  intros W A Hj HX.
  pose proof (startup_state_is K 1000 3 now b0 W ltac:(lia) A) as S0.
  destruct (emit_state_is K _ _ _ _ _ _ j X m1 W S0 Hj HX) as (b1 & E1 & S1).
  destruct (emit_state_is K _ _ _ _ _ _ j X m2 W S1 Hj HX) as (b2 & E2 & S2).
  destruct (tick_state_is K _ _ _ _ _ _ W S2) as (b3 & E3 & S3).
  exists b3. split.
  - unfold scenario_A. rewrite (run_cons K _ _ _ b1) by done.
    rewrite (run_cons K _ _ _ b2) by done. rewrite (run_cons K _ _ _ b3) by done.
    done.
  - apply (state_is_ext K b3 _ (scenario_table X j) _ _ _ _ _ S3).
    + intros k nm. unfold scenario_table. destruct (decide (k = X)) as [->|Hne].
      * by apply scenario_entry_counted.
      * by apply rotate_zero_entry.
    + by apply scenario_totals.
Qed.

(** A rotation at index 1 or 2 keeps the table of scenario A. *)
Lemma scenario_table_kept (K : Constants) b idx totals j X :
  wf_constants K → (j < message_types_count)%nat → 1 ≤ idx < 3 →
  state_is K b (scenario_table X j) 1000 3 idx totals →
  ∃ b', logerrors_update_info K b = Some b' ∧
        state_is K b' (scenario_table X j) 1000 3 ((idx + 1) `mod` 3) totals.
Proof.
  intros W Hj Hidx S.
  destruct (tick_state_is K _ _ _ _ _ _ W S) as (b' & E & S').
  exists b'. split; [done|].
  apply (state_is_ext K b' _ (scenario_table X j) _ _ _ _ _ S'); [|done].
  intros k nm. unfold scenario_table. destruct (decide (k = X)) as [->|Hne].
  - by apply scenario_entry_kept.
  - apply rotate_zero_entry. lia.
Qed.

(** The rotation at index 0 overwrites slot 0 and empties the table. *)
Lemma scenario_table_evicted (K : Constants) b totals j X :
  wf_constants K → (j < message_types_count)%nat →
  state_is K b (scenario_table X j) 1000 3 0 totals →
  ∃ b', logerrors_update_info K b = Some b' ∧
        state_is K b' zero_entry 1000 3 1 totals.
Proof.
  intros W Hj S.
  destruct (tick_state_is K _ _ _ _ _ _ W S) as (b' & E & S').
  exists b'. split; [done|].
  apply (state_is_ext K b' _ zero_entry _ _ _ _ _ S'); [|done].
  intros k nm. unfold scenario_table. destruct (decide (k = X)) as [->|Hne].
  - by apply scenario_entry_evicted.
  - by apply rotate_zero_entry.
Qed.

(** C7 (scenario A).  With an interval of 1000 ms and a ring of 3, two
    messages of one type and one registered sqlerrcode followed by one
    rotation give a snapshot that holds the short-interval row of the code
    (1 second, count 2), its long-interval row (3 seconds, count 2) and the
    total of the type (count 2).  The seconds are [interval / 1000] and
    that times [intervals_count]; the short count is the slot at
    [(current_interval_index - 1 + intervals_count) mod intervals_count]. *)
Theorem scenario_A_snapshot (K : Constants) (fcinfo : FunctionCallInfo)
    (now : Z) (b0 : Backend) (j i : nat) (X : Z) (m1 m2 : option string) :
  wf_constants K → hook_active b0 →
  rsinfo_is_ReturnSetInfo fcinfo = true →
  allows_SFRM_Materialize fcinfo = true →
  result_is_composite fcinfo = true →
  (j < message_types_count)%nat → error_codes K !! i = Some X →
  ∃ b h g info rows,
    run K (scenario_A K j X m1 m2) (pgss_shmem_startup K false 1000 3 now b0) = Some b ∧
    messages_info_hashtable b = Some h ∧ global_variables b = Some g ∧
    h !! X = Some info ∧
    pg_log_errors_stats K fcinfo b = Returned rows ∧
    short_row K g info j ∈ rows ∧
    short_row K g info j
      = {| row_time_interval := Some 1; row_type := message_type_names K !!! j;
           row_message := error_names K !!! i; row_count := 2 |} ∧
    long_row K g info j ∈ rows ∧
    long_row K g info j
      = {| row_time_interval := Some 3; row_type := message_type_names K !!! j;
           row_message := error_names K !!! i; row_count := 2 |} ∧
    total_row K g j ∈ rows ∧
    total_row K g j
      = {| row_time_interval := None; row_type := message_type_names K !!! j;
           row_message := "TOTAL"; row_count := 2 |} ∧
    short_interval g = 1000 `quot` 1000 ∧
    long_interval g = short_interval g * 3 ∧
    prev_interval_index g
      = (current_interval_index g - 1 + intervals_count g) `mod` intervals_count g ∧
    errors_in_short_interval g info j
      = (intervals info !!! j) !!! Z.to_nat (prev_interval_index g).
Proof.
  intros W A F1 F2 F3 Hj Hi.
  assert (HX : X ∈ error_codes K) by (by apply list_elem_of_lookup_2 with i).
  destruct (scenario_A_state K now b0 j X m1 m2 W A Hj HX) as (b & E & S).
  destruct (snapshot_state_is K fcinfo b _ _ _ _ _ W S F1 F2 F3)
    as (rows & s & Hrows & Htot & Hin & _).
  destruct S as (h & s' & Hh & Hg & R & _ & T).
  set (totals := <[j := 2]> (replicate message_types_count 0)) in *.
  assert (Hinfo : h !! X = Some (scenario_entry X (error_names K !!! i) j 2 2)).
  { rewrite (table_is_lookup K h _ i X (wf_codes_NoDup K W) T Hi).
    unfold scenario_table. by rewrite decide_True. }
  pose proof (scenario_entry_rows_fresh K totals s X (error_names K !!! i) j Hj) as Hrw.
  exists b, h, (view_global 1000 3 1 totals s'),
         (scenario_entry X (error_names K !!! i) j 2 2), rows.
  split; [done|]. split; [done|]. split; [done|]. split; [done|]. split; [done|].
  assert (Hs : short_row K (view_global 1000 3 1 totals s')
                 (scenario_entry X (error_names K !!! i) j 2 2) j
               = {| row_time_interval := Some 1;
                    row_type := message_type_names K !!! j;
                    row_message := error_names K !!! i; row_count := 2 |}).
  { type_index j Hj; vm_compute; done. }
  assert (Hl : long_row K (view_global 1000 3 1 totals s')
                 (scenario_entry X (error_names K !!! i) j 2 2) j
               = {| row_time_interval := Some 3;
                    row_type := message_type_names K !!! j;
                    row_message := error_names K !!! i; row_count := 2 |}).
  { type_index j Hj; vm_compute; done. }
  split; [|split; [exact Hs|]].
  { rewrite Hs. apply (Hin j i X _ Hj Hi).
    unfold scenario_table. rewrite decide_True by done. rewrite Hrw.
    apply list_elem_of_further, list_elem_of_here. }
  split; [|split; [exact Hl|]].
  { rewrite Hl. apply (Hin j i X _ Hj Hi).
    unfold scenario_table. rewrite decide_True by done. rewrite Hrw.
    apply list_elem_of_here. }
  split; [exact (Htot j Hj)|].
  split; [by apply scenario_total_row|].
  split; [done|]. split; [done|]. split; [done|].
  type_index j Hj; vm_compute; done.
Qed.

(** C3 (scenario B, as the code has it).  After scenario A the bucket of 2
    sits in slot 0 of a ring of 3.  Two further rotations write slots 1 and
    2: the rolling sum is still 2 and the snapshot still holds the long
    row of the code with count 2, and no other row with a time interval.
    The rotation after them, the fourth in all, comes back to slot 0 and
    evicts the 2: the rolling sum is 0 and every row of the snapshot is a
    total. *)
Theorem scenario_B_eviction (K : Constants) (fcinfo : FunctionCallInfo)
    (now : Z) (b0 : Backend) (j i : nat) (X : Z) (m1 m2 : option string) :
  wf_constants K → hook_active b0 →
  rsinfo_is_ReturnSetInfo fcinfo = true →
  allows_SFRM_Materialize fcinfo = true →
  result_is_composite fcinfo = true →
  (j < message_types_count)%nat → error_codes K !! i = Some X →
  (∃ b h info rows,
     run K (scenario_A K j X m1 m2 ++ [tick; tick])
       (pgss_shmem_startup K false 1000 3 now b0) = Some b ∧
     messages_info_hashtable b = Some h ∧ h !! X = Some info ∧
     sum_in_buffer info !!! j = 2 ∧
     pg_log_errors_stats K fcinfo b = Returned rows ∧
     {| row_time_interval := Some 3; row_type := message_type_names K !!! j;
        row_message := error_names K !!! i; row_count := 2 |} ∈ rows ∧
     ∀ r, r ∈ rows →
       row_time_interval r = None ∨
       r = {| row_time_interval := Some 3; row_type := message_type_names K !!! j;
              row_message := error_names K !!! i; row_count := 2 |}) ∧
  (∃ b h info rows,
     run K (scenario_A K j X m1 m2 ++ [tick; tick; tick])
       (pgss_shmem_startup K false 1000 3 now b0) = Some b ∧
     messages_info_hashtable b = Some h ∧ h !! X = Some info ∧
     sum_in_buffer info !!! j = 0 ∧
     pg_log_errors_stats K fcinfo b = Returned rows ∧
     ∀ r, r ∈ rows → row_time_interval r = None).
Proof.
  intros W A F1 F2 F3 Hj Hi.
  assert (HX : X ∈ error_codes K) by (by apply list_elem_of_lookup_2 with i).
  destruct (scenario_A_state K now b0 j X m1 m2 W A Hj HX) as (b1 & E1 & S1).
  destruct (scenario_table_kept K b1 1 _ j X W Hj ltac:(lia) S1) as (b2 & E2 & S2).
  destruct (scenario_table_kept K b2 2 _ j X W Hj ltac:(lia) S2) as (b3 & E3 & S3).
  destruct (scenario_table_evicted K b3 _ j X W Hj S3) as (b4 & E4 & S4).
  assert (Hrun3 : run K (scenario_A K j X m1 m2 ++ [tick; tick])
                    (pgss_shmem_startup K false 1000 3 now b0) = Some b3).
  { unfold run in *. rewrite for_each_app, E1. cbn [mbind option_bind for_each step].
    rewrite E2. cbn [mbind option_bind]. by rewrite E3. }
  assert (Hrun4 : run K (scenario_A K j X m1 m2 ++ [tick; tick; tick])
                    (pgss_shmem_startup K false 1000 3 now b0) = Some b4).
  { unfold run in *. rewrite for_each_app, E1. cbn [mbind option_bind for_each step].
    rewrite E2. cbn [mbind option_bind]. rewrite E3. cbn [mbind option_bind].
    by rewrite E4. }
  split.
  - destruct (snapshot_state_is K fcinfo b3 _ _ _ _ _ W S3 F1 F2 F3)
      as (rows & s & Hrows & _ & Hin & Hall).
    destruct S3 as (h & s' & Hh & Hg & R & _ & T).
    exists b3, h, (scenario_entry X (error_names K !!! i) j 2 2), rows.
    split; [done|]. split; [done|]. split.
    { rewrite (table_is_lookup K h _ i X (wf_codes_NoDup K W) T Hi).
      unfold scenario_table. by rewrite decide_True. }
    split; [type_index j Hj; vm_compute; done|]. split; [done|]. split.
    + apply (Hin j i X _ Hj Hi). unfold scenario_table.
      rewrite decide_True by done.
      rewrite scenario_entry_rows_aged by (done || auto). apply list_elem_of_here.
    + intros r Hr. destruct (Hall r Hr) as [|(j' & i' & k & Hj' & Hi' & Hr')]; [by left|].
      right. unfold scenario_table in Hr'.
      destruct (decide (k = X)) as [->|Hne].
      * pose proof (NoDup_lookup _ _ _ _ (wf_codes_NoDup K W) Hi Hi') as <-.
        destruct (decide (j' = j)) as [->|Hnj].
        -- rewrite scenario_entry_rows_aged in Hr' by (done || auto).
           by apply list_elem_of_singleton in Hr'.
        -- rewrite scenario_entry_rows_other in Hr' by (done || lia).
           by apply elem_of_nil in Hr'.
      * rewrite zero_entry_rows in Hr' by (done || lia). by apply elem_of_nil in Hr'.
  - destruct (snapshot_state_is K fcinfo b4 _ _ _ _ _ W S4 F1 F2 F3)
      as (rows & s & Hrows & _ & _ & Hall).
    destruct S4 as (h & s' & Hh & Hg & R & _ & T).
    exists b4, h, (zero_entry X (error_names K !!! i)), rows.
    split; [done|]. split; [done|]. split.
    { by rewrite (table_is_lookup K h _ i X (wf_codes_NoDup K W) T Hi). }
    split; [type_index j Hj; vm_compute; done|]. split; [done|].
    intros r Hr. destruct (Hall r Hr) as [|(j' & i' & k & Hj' & Hi' & Hr')]; [done|].
    rewrite zero_entry_rows in Hr' by (done || lia). by apply elem_of_nil in Hr'.
Qed.

(** * Reset *)

(** What [pg_log_errors_reset] does to an initialised region: buckets,
    rolling sums, totals, the index and the slow log counter are cleared
    and the reset time is stamped, but of each ring only the slots 0 to 89
    are cleared, since [MemSet] is given 360 as a number of bytes. *)
Lemma reset_effect (K : Constants) (now : Z) (b : Backend)
    (h : gmap Z MessageInfo) (g : GlobalInfo) :
  wf_constants K →
  messages_info_hashtable b = Some h → global_variables b = Some g →
  ready K h g →
  ∃ b' h',
    pg_log_errors_reset K now b = (b', Returned ()) ∧
    messages_info_hashtable b' = Some h' ∧
    global_variables b'
      = Some (view_global (interval g) (intervals_count g) 0
                (replicate message_types_count 0)
                {| count := 0; reset_time := now |}) ∧
    ∀ k, k ∈ error_codes K →
      ∃ info info', h !! k = Some info ∧ h' !! k = Some info' ∧
        ∀ j, (j < message_types_count)%nat →
          message_count info' !!! j = 0 ∧
          sum_in_buffer info' !!! j = 0 ∧
          ∀ i, (i < 360)%nat →
            (intervals info' !!! j) !!! i
            = if decide (i < 90)%nat then 0 else (intervals info !!! j) !!! i.
Proof.
  intros W Hh Hg R. unfold pg_log_errors_reset. rewrite Hh, Hg.
  destruct (init_result K now h g (wf_codes_NoDup K W) (ready_total_length K h g R))
    as (h' & -> & Hh').
  eexists _, h'. split; [done|]. split; [done|]. split; [done|].
  intros k Hk. destruct (ready_codes K h g R k Hk) as [info E].
  destruct (find_code_Some _ _ Hk) as (i & F & _).
  exists info, (init_all (error_names K !!! i) info).
  split; [done|]. split.
  { rewrite Hh', F. unfold hash_enter. by rewrite E. }
  intros j Hj.
  pose proof (ready_entries K h g R k info E) as Hok.
  destruct (init_all_spec (error_names K !!! i) info j Hok Hj) as (_ & _ & -> & -> & ->).
  split; [done|]. split; [done|]. intros i' Hi'.
  apply MemSet_360_lookup.
  destruct Hok as [_ _ _ _ H5 H6].
  destruct (Forall_lookup_total_1 _ _ j H6) as [-> _]; [by rewrite H5|done].
Qed.

(** C2, at a run the code can make.  Default configuration (ring of 120),
    a syntax error counted in the bucket that the 120th rotation stores in
    slot 119, then a reset: slot 119 still holds 1 while the rolling sum is
    0, and the snapshot taken right after the reset reports one ERROR
    syntax error in the last 5 seconds. *)
Theorem reset_keeps_late_slots :
  (b ← run sample_constants late_slot_run default_start; slot_of b 16801924 1 119)
    = Some 1 ∧
  (b ← run sample_constants late_slot_run default_start; rolling_sum_of b 16801924 1)
    = Some 0 ∧
  (pg_log_errors_stats sample_constants sample_call
     <$> run sample_constants late_slot_run default_start)
    = Some (Returned
        [ {| row_time_interval := None; row_type := "WARNING";
             row_message := "TOTAL"; row_count := 0 |};
          {| row_time_interval := None; row_type := "ERROR";
             row_message := "TOTAL"; row_count := 0 |};
          {| row_time_interval := Some 5; row_type := "ERROR";
             row_message := "ERRCODE_SYNTAX_ERROR"; row_count := 1 |};
          {| row_time_interval := None; row_type := "FATAL";
             row_message := "TOTAL"; row_count := 0 |} ]) ∧
  (b ← run sample_constants (late_slot_run ++ replicate 120 tick) default_start;
   rolling_sum_of b 16801924 1)
    = Some (-1).
Proof. vm_compute. done. Qed.

(** C3 as written fails on the ring of 3: after scenario A and two more
    rotations the rolling sum of the syntax error is 2, not 0, and the
    snapshot still has its long row. *)
Lemma scenario_B_third_tick :
  (b ← run sample_constants
         (scenario_A sample_constants 1 16801924 None None ++ [tick; tick])
         scenario_start;
   rolling_sum_of b 16801924 1)
    = Some 2 ∧
  (b ← run sample_constants
         (scenario_A sample_constants 1 16801924 None None ++ [tick; tick])
         scenario_start;
   rolling_sum_of b 16801924 1)
    ≠ Some 0 ∧
  (pg_log_errors_stats sample_constants sample_call
     <$> run sample_constants
           (scenario_A sample_constants 1 16801924 None None ++ [tick; tick])
           scenario_start)
    = Some (Returned
        [ {| row_time_interval := None; row_type := "WARNING";
             row_message := "TOTAL"; row_count := 0 |};
          {| row_time_interval := None; row_type := "ERROR";
             row_message := "TOTAL"; row_count := 2 |};
          {| row_time_interval := Some 3; row_type := "ERROR";
             row_message := "ERRCODE_SYNTAX_ERROR"; row_count := 2 |};
          {| row_time_interval := None; row_type := "FATAL";
             row_message := "TOTAL"; row_count := 0 |} ]).
Proof. vm_compute. split; [done|]. split; [discriminate|done]. Qed.

(** * The sample instance *)

Lemma sample_constants_wf : wf_constants sample_constants.
Proof.
  split; try done; apply (bool_decide_unpack _); by vm_compute.
Defined.

Lemma unattached_active : hook_active unattached.
Proof. done. Defined.

Lemma scenario_start_attached :
  messages_info_hashtable scenario_start = Some scenario_hashtable ∧
  global_variables scenario_start = Some scenario_global.
Proof. vm_compute. done. Defined.

Lemma scenario_start_ready : ready sample_constants scenario_hashtable scenario_global.
Proof.
  destruct (startup_ready sample_constants 1000 3 0 unattached
              (wf_codes_NoDup _ sample_constants_wf) ltac:(lia))
    as (h & g & Hh & Hg & R).
  destruct scenario_start_attached as [Hh' Hg'].
  unfold scenario_start in Hh', Hg'. rewrite Hh in Hh'. rewrite Hg in Hg'.
  injection Hh' as ->. injection Hg' as ->. done.
Qed.

(** * The theorems at the sample instance *)

Lemma rolling_sum_invariant_witness :
  wf_constants sample_constants ∧ 1 ≤ 120 ≤ 360 ∧
  Forall (λ op, is_reset op = false)
    [emit syntax_error; tick; emit slow_statement; tick] ∧
  ∃ b h g,
    run sample_constants [emit syntax_error; tick; emit slow_statement; tick]
      (pgss_shmem_startup sample_constants false 5000 120 0 unattached) = Some b ∧
    messages_info_hashtable b = Some h ∧ global_variables b = Some g ∧
    intervals_count g = 120 ∧
    ∀ k, k ∈ error_codes sample_constants →
      ∃ info, h !! k = Some info ∧
        ∀ j, (j < message_types_count)%nat →
          sum_in_buffer info !!! j = int32 (ring_sum 120 (intervals info !!! j)) ∧
          (ring_sum 120 (intervals info !!! j) < 2 ^ 31 →
           sum_in_buffer info !!! j = ring_sum 120 (intervals info !!! j)).
Proof.
  split; [exact sample_constants_wf|]. split; [lia|].
  split; [repeat constructor|].
  apply (rolling_sum_invariant sample_constants 5000 120 0 unattached
           [emit syntax_error; tick; emit slow_statement; tick] sample_constants_wf);
    [lia|repeat constructor].
Defined.



Lemma not_ready_calls_witness :
  pointers_in_startup_order unattached ∧ shmem_not_ready unattached ∧
  pg_log_errors_stats sample_constants sample_call unattached
    = ereport_ERROR ERRCODE_OBJECT_NOT_IN_PREREQUISITE_STATE
        "logerrors must be loaded via shared_preload_libraries" ∧
  pg_log_errors_reset sample_constants 7 unattached
    = (unattached,
       ereport_ERROR ERRCODE_OBJECT_NOT_IN_PREREQUISITE_STATE
         "logerrors must be loaded via shared_preload_libraries") ∧
  pg_slow_log_stats sample_call unattached = Returned None.
Proof.
  assert (O : pointers_in_startup_order unattached) by (intros _; reflexivity).
  assert (N : shmem_not_ready unattached) by (left; reflexivity).
  split; [exact O|]. split; [exact N|].
  exact (not_ready_calls sample_constants sample_call 7 unattached O N).
Defined.

Lemma slow_log_counting_witness :
  wf_constants sample_constants ∧
  messages_info_hashtable scenario_start = Some scenario_hashtable ∧
  global_variables scenario_start = Some scenario_global ∧
  ready sample_constants scenario_hashtable scenario_global ∧
  hook_active scenario_start ∧
  ∃ b' h' g',
    logerrors_emit_log_hook sample_constants slow_statement scenario_start = Some b' ∧
    messages_info_hashtable b' = Some h' ∧ global_variables b' = Some g' ∧
    ((∃ m, message slow_statement = Some m ∧ contains m "duration:") →
     count (slow_log_info g') = uint32 (count (slow_log_info scenario_global) + 1) ∧
     (count (slow_log_info scenario_global) + 1 < 2 ^ 32 →
      count (slow_log_info g') = count (slow_log_info scenario_global) + 1)) ∧
    (¬ (∃ m, message slow_statement = Some m ∧ contains m "duration:") →
     count (slow_log_info g') = count (slow_log_info scenario_global)) ∧
    (elevel slow_statement ∉ message_types_codes sample_constants →
     h' = scenario_hashtable ∧ total_count g' = total_count scenario_global).
Proof.
  assert (A : hook_active scenario_start) by (split; reflexivity).
  split; [exact sample_constants_wf|].
  split; [exact (proj1 scenario_start_attached)|].
  split; [exact (proj2 scenario_start_attached)|].
  split; [exact scenario_start_ready|]. split; [exact A|].
  exact (slow_log_counting sample_constants slow_statement scenario_start
           scenario_hashtable scenario_global sample_constants_wf
           (proj1 scenario_start_attached) (proj2 scenario_start_attached)
           scenario_start_ready A).
Defined.

Lemma unknown_code_fallback_witness :
  wf_constants sample_constants ∧
  messages_info_hashtable scenario_start = Some scenario_hashtable ∧
  global_variables scenario_start = Some scenario_global ∧
  ready sample_constants scenario_hashtable scenario_global ∧
  hook_active scenario_start ∧
  (2 < message_types_count)%nat ∧
  elevel unknown_fatal = message_types_codes sample_constants !!! 2%nat ∧
  ∃ b' h' g' k elem elem',
    logerrors_emit_log_hook sample_constants unknown_fatal scenario_start = Some b' ∧
    messages_info_hashtable b' = Some h' ∧ global_variables b' = Some g' ∧
    k = (if decide (sqlerrcode unknown_fatal ∈ error_codes sample_constants)
         then sqlerrcode unknown_fatal
         else not_known_error_code sample_constants) ∧
    scenario_hashtable !! k = Some elem ∧ h' !! k = Some elem' ∧
    message_count elem' !!! 2%nat = uint32 (message_count elem !!! 2%nat + 1) ∧
    total_count g' !!! 2%nat = uint32 (total_count scenario_global !!! 2%nat + 1) ∧
    (message_count elem !!! 2%nat + 1 < 2 ^ 32 →
     message_count elem' !!! 2%nat = message_count elem !!! 2%nat + 1) ∧
    (total_count scenario_global !!! 2%nat + 1 < 2 ^ 32 →
     total_count g' !!! 2%nat = total_count scenario_global !!! 2%nat + 1) ∧
    (∀ j', j' ≠ 2%nat → message_count elem' !!! j' = message_count elem !!! j') ∧
    sum_in_buffer elem' = sum_in_buffer elem ∧
    intervals elem' = intervals elem ∧
    (∀ k', k' ≠ k → h' !! k' = scenario_hashtable !! k') ∧
    server_log b'
      = (if decide (sqlerrcode unknown_fatal ∈ error_codes sample_constants)
         then server_log scenario_start
         else server_log scenario_start
              ++ [not_known_error_code_line (sqlerrcode unknown_fatal)]).
Proof.
  assert (A : hook_active scenario_start) by (split; reflexivity).
  assert (J : (2 < message_types_count)%nat) by (unfold message_types_count; lia).
  split; [exact sample_constants_wf|].
  split; [exact (proj1 scenario_start_attached)|].
  split; [exact (proj2 scenario_start_attached)|].
  split; [exact scenario_start_ready|]. split; [exact A|]. split; [exact J|].
  split; [reflexivity|].
  exact (unknown_code_fallback sample_constants unknown_fatal scenario_start
           scenario_hashtable scenario_global 2 sample_constants_wf
           (proj1 scenario_start_attached) (proj2 scenario_start_attached)
           scenario_start_ready A J eq_refl).
Defined.


Lemma scenario_A_snapshot_witness :
  wf_constants sample_constants ∧ hook_active unattached ∧
  rsinfo_is_ReturnSetInfo sample_call = true ∧
  allows_SFRM_Materialize sample_call = true ∧
  result_is_composite sample_call = true ∧
  (1 < message_types_count)%nat ∧
  error_codes sample_constants !! 2%nat = Some 16801924 ∧
  ∃ b h g info rows,
    run sample_constants (scenario_A sample_constants 1 16801924 None None)
      (pgss_shmem_startup sample_constants false 1000 3 0 unattached) = Some b ∧
    messages_info_hashtable b = Some h ∧ global_variables b = Some g ∧
    h !! 16801924 = Some info ∧
    pg_log_errors_stats sample_constants sample_call b = Returned rows ∧
    short_row sample_constants g info 1 ∈ rows ∧
    short_row sample_constants g info 1
      = {| row_time_interval := Some 1;
           row_type := message_type_names sample_constants !!! 1%nat;
           row_message := error_names sample_constants !!! 2%nat;
           row_count := 2 |} ∧
    long_row sample_constants g info 1 ∈ rows ∧
    long_row sample_constants g info 1
      = {| row_time_interval := Some 3;
           row_type := message_type_names sample_constants !!! 1%nat;
           row_message := error_names sample_constants !!! 2%nat;
           row_count := 2 |} ∧
    total_row sample_constants g 1 ∈ rows ∧
    total_row sample_constants g 1
      = {| row_time_interval := None;
           row_type := message_type_names sample_constants !!! 1%nat;
           row_message := "TOTAL";
           row_count := 2 |} ∧
    short_interval g = 1000 `quot` 1000 ∧
    long_interval g = short_interval g * 3 ∧
    prev_interval_index g
      = (current_interval_index g - 1 + intervals_count g) `mod` intervals_count g ∧
    errors_in_short_interval g info 1
      = (intervals info !!! 1%nat) !!! Z.to_nat (prev_interval_index g).
Proof.
  assert (J : (1 < message_types_count)%nat) by (unfold message_types_count; lia).
  split; [exact sample_constants_wf|]. split; [exact unattached_active|].
  split; [reflexivity|]. split; [reflexivity|]. split; [reflexivity|].
  split; [exact J|]. split; [reflexivity|].
  exact (scenario_A_snapshot sample_constants sample_call 0 unattached 1 2 16801924
           None None sample_constants_wf unattached_active eq_refl eq_refl eq_refl
           J eq_refl).
Defined.

Lemma scenario_B_eviction_witness :
  wf_constants sample_constants ∧ hook_active unattached ∧
  rsinfo_is_ReturnSetInfo sample_call = true ∧
  allows_SFRM_Materialize sample_call = true ∧
  result_is_composite sample_call = true ∧
  (1 < message_types_count)%nat ∧
  error_codes sample_constants !! 2%nat = Some 16801924 ∧
  (∃ b h info rows,
     run sample_constants
       (scenario_A sample_constants 1 16801924 None None ++ [tick; tick])
       (pgss_shmem_startup sample_constants false 1000 3 0 unattached) = Some b ∧
     messages_info_hashtable b = Some h ∧ h !! 16801924 = Some info ∧
     sum_in_buffer info !!! 1%nat = 2 ∧
     pg_log_errors_stats sample_constants sample_call b = Returned rows ∧
     {| row_time_interval := Some 3;
        row_type := message_type_names sample_constants !!! 1%nat;
        row_message := error_names sample_constants !!! 2%nat;
        row_count := 2 |} ∈ rows ∧
     ∀ r, r ∈ rows →
       row_time_interval r = None ∨
       r = {| row_time_interval := Some 3;
              row_type := message_type_names sample_constants !!! 1%nat;
              row_message := error_names sample_constants !!! 2%nat;
              row_count := 2 |}) ∧
  (∃ b h info rows,
     run sample_constants
       (scenario_A sample_constants 1 16801924 None None ++ [tick; tick; tick])
       (pgss_shmem_startup sample_constants false 1000 3 0 unattached) = Some b ∧
     messages_info_hashtable b = Some h ∧ h !! 16801924 = Some info ∧
     sum_in_buffer info !!! 1%nat = 0 ∧
     pg_log_errors_stats sample_constants sample_call b = Returned rows ∧
     ∀ r, r ∈ rows → row_time_interval r = None).
Proof.
  assert (J : (1 < message_types_count)%nat) by (unfold message_types_count; lia).
  split; [exact sample_constants_wf|]. split; [exact unattached_active|].
  split; [reflexivity|]. split; [reflexivity|]. split; [reflexivity|].
  split; [exact J|]. split; [reflexivity|].
  exact (scenario_B_eviction sample_constants sample_call 0 unattached 1 2 16801924
           None None sample_constants_wf unattached_active eq_refl eq_refl eq_refl
           J eq_refl).
Defined.

(** * One cell through a run *)

Lemma run_app (K : Constants) ops1 ops2 b :
  run K (ops1 ++ ops2) b = b1 ← run K ops1 b; run K ops2 b1.
Proof. unfold run. apply for_each_app. Qed.

Lemma startup_cell_is (K : Constants) gi gc now b0 k j :
  wf_constants K → 1 ≤ gc ≤ 360 → hook_active b0 →
  k ∈ error_codes K → (j < message_types_count)%nat →
  cell_is K (pgss_shmem_startup K false gi gc now b0) k j
    0 0 (replicate 360 0) 0 0 gi gc.
Proof.
  intros W Hgc A Hk Hj.
  destruct (startup_state_is K gi gc now b0 W Hgc A) as (h & s & Hh & Hg & R & A' & T).
  destruct (find_code_Some _ _ Hk) as (i & F & _).
  exists h, (view_global gi gc 0 (replicate message_types_count 0) s),
         (zero_entry k (error_names K !!! i)).
  split; [done|]. split; [done|]. split; [done|]. split; [done|].
  split; [by rewrite T, F|].
  cbn [zero_entry message_count sum_in_buffer intervals view_global
       current_interval_index total_count interval intervals_count].
  rewrite !lookup_total_replicate_2 by done. done.
Qed.

(** One message through the hook, seen from one cell. *)
Lemma emit_cell_is (K : Constants) edata b k j bucket sum ring idx total gi gc :
  wf_constants K → (j < message_types_count)%nat →
  cell_is K b k j bucket sum ring idx total gi gc →
  ∃ b', logerrors_emit_log_hook K edata b = Some b' ∧
    cell_is K b' k j
      (if decide (counted_in K k j edata) then uint32 (bucket + 1) else bucket)
      sum ring idx
      (if decide (elevel edata = message_types_codes K !!! j)
       then uint32 (total + 1) else total)
      gi gc.
Proof.
  intros W Hj (h & g & info & Hh & Hg & R & A & Hk & <- & <- & <- & <- & <- & <- & <-).
  destruct (hook_initialized_active K edata b h g W Hh Hg R A)
    as (h' & g' & log' & -> & R' & D).
  eexists. split; [done|].
  assert (R'' : ready K h' (if is_slow_log_line edata then count_slow g' else g')).
  { destruct (is_slow_log_line edata); [by apply count_slow_ready|done]. }
  assert (G : ∀ (P : GlobalInfo → Prop),
            P g' → P (count_slow g') → 
            P (if is_slow_log_line edata then count_slow g' else g')).
  { intros P H1 H2. by destruct (is_slow_log_line edata). }
  destruct D as [(Hout & -> & -> & _)|(j' & k' & elem & Hj' & E & Hk' & Hsel & -> & -> & _)].
  - exists h, (if is_slow_log_line edata then count_slow g else g), info.
    assert (Hnt : elevel edata ≠ message_types_codes K !!! j).
    { intros E. apply Hout. rewrite E. apply list_elem_of_lookup_total_2.
      by rewrite (wf_types_codes K W). }
    rewrite (decide_False (P := counted_in K k j edata)) by (by intros [? _]).
    rewrite (decide_False (P := elevel edata = _)) by done.
    split; [done|]. split; [done|]. split; [done|]. split; [done|].
    split; [done|]. split; [done|]. split; [done|]. split; [done|].
    by destruct (is_slow_log_line edata).
  - assert (Hlen : (j' < length (total_count g))%nat).
    { by rewrite (ready_total_length K h g R). }
    assert (Htot : total_count (count_total j' g) !!! j
              = if decide (elevel edata = message_types_codes K !!! j)
                then uint32 (total_count g !!! j + 1) else total_count g !!! j).
    { cbn. destruct (decide (j' = j)) as [->|Hne].
      - rewrite decide_True by done. by rewrite list_lookup_total_insert_eq.
      - rewrite decide_False.
        + by rewrite list_lookup_total_insert_ne.
        + intros E'. apply Hne. apply (types_distinct K j' j W Hj' Hj). congruence. }
    assert (Hsel' : k' = (if decide (sqlerrcode edata ∈ error_codes K)
                          then sqlerrcode edata else not_known_error_code K)).
    { by destruct (decide (sqlerrcode edata ∈ error_codes K)). }
    destruct (decide (k' = k)) as [->|Hnk].
    + rewrite Hk in Hk'. injection Hk' as <-.
      exists (<[k := count_message j' info]> h),
             (if is_slow_log_line edata then count_slow (count_total j' g)
              else count_total j' g),
             (count_message j' info).
      split; [done|]. split; [done|]. split; [done|]. split; [done|].
      split; [by rewrite lookup_insert_eq|].
      assert (Hl : (j' < length (message_count info))%nat).
      { by rewrite (ok_message_count_length _ (ready_entries K h g R k info Hk)). }
      split.
      { cbn. destruct (decide (j' = j)) as [->|Hne].
        - rewrite decide_True by done. by rewrite list_lookup_total_insert_eq.
        - rewrite decide_False.
          + by rewrite list_lookup_total_insert_ne.
          + intros [E' _]. apply Hne. apply (types_distinct K j' j W Hj' Hj).
            congruence. }
      split; [done|]. split; [done|].
      destruct (is_slow_log_line edata); cbn -[uint32]; rewrite <- Htot; done.
    + exists (<[k' := count_message j' elem]> h),
             (if is_slow_log_line edata then count_slow (count_total j' g)
              else count_total j' g),
             info.
      split; [done|]. split; [done|]. split; [done|]. split; [done|].
      split; [by rewrite lookup_insert_ne|].
      rewrite (decide_False (P := counted_in K k j edata)).
      2:{ intros [_ E']. apply Hnk. congruence. }
      split; [done|]. split; [done|]. split; [done|].
      destruct (is_slow_log_line edata); cbn -[uint32]; rewrite <- Htot; done.
Qed.

Lemma hits_cons (K : Constants) k j edata evs :
  hits K k j (edata :: evs)
  = (if decide (counted_in K k j edata) then 1 else 0) + hits K k j evs.
Proof.
  unfold hits. destruct (decide (counted_in K k j edata)).
  - rewrite filter_cons_True by done. cbn [length]. lia.
  - rewrite filter_cons_False by done. lia.
Qed.

Lemma typed_cons (K : Constants) j edata evs :
  typed K j (edata :: evs)
  = (if decide (elevel edata = message_types_codes K !!! j) then 1 else 0)
    + typed K j evs.
Proof.
  unfold typed. destruct (decide (elevel edata = _)).
  - rewrite filter_cons_True by done. cbn [length]. lia.
  - rewrite filter_cons_False by done. lia.
Qed.

Lemma hits_nonneg (K : Constants) k j evs : 0 ≤ hits K k j evs.
Proof. unfold hits. lia. Qed.

(** The messages of a list through the hook, seen from one cell. *)
Lemma emits_cell_is (K : Constants) evs b k j bucket sum ring idx total gi gc :
  wf_constants K → (j < message_types_count)%nat →
  cell_is K b k j bucket sum ring idx total gi gc →
  ∃ b', run K (emit <$> evs) b = Some b' ∧
    cell_is K b' k j (uint32 (bucket + hits K k j evs)) sum ring idx
      (uint32 (total + typed K j evs)) gi gc.
Proof.
  intros W Hj. revert b bucket total.
  induction evs as [|edata evs IH]; intros b bucket total C.
  - exists b. split; [done|].
    assert (is_uint32 bucket ∧ is_uint32 total) as [Ub Ut].
    { destruct C as (h & g & info & Hh & Hg & R & A & Hk & <- & _ & _ & _ & <- & _).
      split.
      - apply Forall_lookup_total_1.
        + apply (ok_message_count _ (ready_entries K h g R k info Hk)).
        + by rewrite (ok_message_count_length _ (ready_entries K h g R k info Hk)).
      - apply Forall_lookup_total_1; [apply R|]. by rewrite (ready_total_length K h g R). }
    unfold hits, typed. cbn. rewrite !Z.add_0_r, !uint32_id by done. done.
  - destruct (emit_cell_is K edata b k j _ _ _ _ _ _ _ W Hj C) as (b1 & E1 & C1).
    destruct (IH b1 _ _ C1) as (b2 & E2 & C2).
    exists b2. split.
    + cbn [fmap list_fmap]. unfold run in *. cbn [for_each step]. rewrite E1. exact E2.
    + rewrite hits_cons, typed_cons.
      assert (Eb : uint32 ((if decide (counted_in K k j edata)
                            then uint32 (bucket + 1) else bucket) + hits K k j evs)
                   = uint32 (bucket + ((if decide (counted_in K k j edata) then 1 else 0)
                                        + hits K k j evs))).
      { destruct (decide (counted_in K k j edata)).
        - rewrite uint32_add_l. f_equal. lia.
        - f_equal. }
      assert (Et : uint32 ((if decide (elevel edata = message_types_codes K !!! j)
                            then uint32 (total + 1) else total) + typed K j evs)
                   = uint32 (total + ((if decide (elevel edata = message_types_codes K !!! j)
                                       then 1 else 0) + typed K j evs))).
      { destruct (decide (elevel edata = _)).
        - rewrite uint32_add_l. f_equal. lia.
        - f_equal. }
      rewrite <- Eb, <- Et. exact C2.
Qed.

(** One rotation, seen from one cell. *)
Lemma tick_cell_is (K : Constants) b k j bucket sum ring idx total gi gc :
  wf_constants K → (j < message_types_count)%nat →
  cell_is K b k j bucket sum ring idx total gi gc →
  ∃ b', logerrors_update_info K b = Some b' ∧
    cell_is K b' k j 0 (int32 (sum + bucket - ring !!! Z.to_nat idx))
      (<[Z.to_nat idx := bucket]> ring) ((idx + 1) `mod` gc) total gi gc.
Proof.
  intros W Hj (h & g & info & Hh & Hg & R & A & Hk & <- & <- & <- & <- & <- & <- & <-).
  rewrite (logerrors_update_info_ready K b h g (wf_codes_NoDup K W) Hh Hg R).
  eexists. split; [done|].
  destruct (rotate_entry_spec (current_interval_index g) info j
              (ready_entries K h g R k info Hk) Hj) as (H1 & H2 & H3).
  exists (rotate_entry (current_interval_index g) <$> h),
         (set_current_interval_index g
            ((current_interval_index g + 1) `mod` intervals_count g)),
         (rotate_entry (current_interval_index g) info).
  split; [done|]. split; [done|]. split; [by apply rotate_ready|].
  split; [done|]. split; [by rewrite lookup_fmap, Hk|]. done.
Qed.

(** * Windows *)

Lemma sum_list_app l1 l2 : sum_list (l1 ++ l2) = sum_list l1 + sum_list l2.
Proof. unfold sum_list. induction l1 as [|x l1 IH]; simpl; lia. Qed.

Lemma sum_list_replicate n : sum_list (replicate n 0) = 0.
Proof. unfold sum_list. induction n; simpl; lia. Qed.

Lemma sum_list_drop_zeros n m : sum_list (drop m (replicate n 0)) = 0.
Proof. rewrite drop_replicate. apply sum_list_replicate. Qed.

Lemma window_length n cs : 0 ≤ n → length (window n cs) = Z.to_nat n.
Proof.
  intros Hn. unfold window. rewrite length_drop, length_app, length_replicate. lia.
Qed.

Lemma window_nil n : window n [] = replicate (Z.to_nat n) 0.
Proof. unfold window. by rewrite app_nil_r. Qed.

(** A new value pushes the oldest out. *)
Lemma window_snoc n cs c :
  1 ≤ n → window n (cs ++ [c]) = drop 1 (window n cs) ++ [c].
Proof.
  intros Hn. unfold window. rewrite length_app. cbn [length].
  rewrite app_assoc.
  rewrite drop_app_le by (rewrite length_app, length_replicate; lia).
  rewrite drop_drop. done.
Qed.

(** The window sums the last [n] values. *)
Lemma window_sum n cs :
  0 ≤ n → sum_list (window n cs) = sum_list (drop (length cs - Z.to_nat n) cs).
Proof.
  intros Hn. unfold window. rewrite drop_app, length_replicate.
  rewrite sum_list_app, sum_list_drop_zeros. lia.
Qed.

Lemma window_last n cs p :
  1 ≤ n → p = Z.to_nat (n - 1) → window n cs !!! p = default 0 (last cs).
Proof.
  intros Hn ->. destruct cs as [|c cs _] using rev_ind.
  - rewrite window_nil. cbn. apply lookup_total_replicate_2. lia.
  - rewrite window_snoc by done. rewrite last_snoc. cbn.
    rewrite lookup_total_app_r; rewrite length_drop, window_length by lia; [|lia].
    replace (Z.to_nat (n - 1) - (Z.to_nat n - 1))%nat with 0%nat by lia. done.
Qed.

Lemma sum_list_drop_1 (w : list Z) :
  (0 < length w)%nat → sum_list (drop 1 w) = sum_list w - w !!! 0%nat.
Proof. destruct w as [|x w]; cbn; [lia|]. intros _. rewrite drop_0. unfold sum_list. cbn. lia. Qed.

(** * Index arithmetic of the ring *)

Lemma ring_position_0 idx n : 0 ≤ idx < n → (idx + 0) `mod` n = idx.
Proof. intros H. rewrite Z.add_0_r. apply Z.mod_small. lia. Qed.

Lemma ring_position_last idx n :
  0 ≤ idx < n → ((idx + 1) `mod` n + (n - 1)) `mod` n = idx.
Proof.
  intros H. rewrite Zplus_mod_idemp_l.
  replace (idx + 1 + (n - 1)) with (idx + 1 * n) by lia.
  rewrite Z_mod_plus_full. apply Z.mod_small. lia.
Qed.

Lemma ring_position_next idx n p :
  0 ≤ idx < n → 0 ≤ p < n - 1 →
  ((idx + 1) `mod` n + p) `mod` n = (idx + (p + 1)) `mod` n ∧
  (idx + (p + 1)) `mod` n ≠ idx ∧
  0 ≤ (idx + (p + 1)) `mod` n < n.
Proof.
  intros H Hp. split; [|split].
  - rewrite Zplus_mod_idemp_l. f_equal. lia.
  - destruct (decide (idx + (p + 1) < n)).
    + rewrite Z.mod_small by lia. lia.
    + replace (idx + (p + 1)) with ((idx + (p + 1) - n) + 1 * n) by lia.
      rewrite Z_mod_plus_full. rewrite Z.mod_small by lia. lia.
  - apply Z.mod_pos_bound. lia.
Qed.

(** * The ring follows the window *)


Lemma ring_holds_start n :
  1 ≤ n ≤ 360 → ring_holds n 0 (replicate 360 0) (replicate (Z.to_nat n) 0).
Proof.
  intros Hn p Hp. pose proof (Z.mod_pos_bound (0 + p) n ltac:(lia)).
  rewrite !lookup_total_replicate_2 by lia. done.
Qed.

Lemma ring_holds_push n idx ring w c :
  1 ≤ n ≤ 360 → 0 ≤ idx < n → length ring = 360%nat → length w = Z.to_nat n →
  ring_holds n idx ring w →
  ring_holds n ((idx + 1) `mod` n) (<[Z.to_nat idx := c]> ring) (drop 1 w ++ [c]).
Proof.
  intros Hn Hidx Hlen Hw H p Hp.
  destruct (decide (p = n - 1)) as [->|Hne].
  - rewrite ring_position_last by done.
    rewrite list_lookup_total_insert_eq by lia.
    rewrite lookup_total_app_r; rewrite length_drop, Hw; [|lia].
    replace (Z.to_nat (n - 1) - (Z.to_nat n - 1))%nat with 0%nat by lia. done.
  - destruct (ring_position_next idx n p Hidx ltac:(lia)) as (-> & Hd & Hb).
    rewrite list_lookup_total_insert_ne by lia.
    rewrite (H (p + 1)) by lia.
    rewrite lookup_total_app_l by (rewrite length_drop, Hw; lia).
    rewrite lookup_total_drop. f_equal. lia.
Qed.

Lemma typed_app (K : Constants) j l1 l2 :
  typed K j (l1 ++ l2) = typed K j l1 + typed K j l2.
Proof. unfold typed. rewrite filter_app, length_app. lia. Qed.

Lemma hits_app (K : Constants) k j l1 l2 :
  hits K k j (l1 ++ l2) = hits K k j l1 + hits K k j l2.
Proof. unfold hits. rewrite filter_app, length_app. lia. Qed.

Lemma buckets_ops_snoc bs evs :
  buckets_ops (bs ++ [evs]) = buckets_ops bs ++ (emit <$> evs) ++ [tick].
Proof.
  unfold buckets_ops. rewrite bind_app. cbn [mbind list_bind].
  by rewrite app_nil_r.
Qed.

(** After any number of closed buckets the ring holds the window of their
    counts and the rolling sum is its sum. *)
Lemma buckets_cell_is (K : Constants) gi gc now b0 k j buckets :
  wf_constants K → 1 ≤ gc ≤ 360 → hook_active b0 →
  k ∈ error_codes K → (j < message_types_count)%nat →
  ∃ b ring,
    run K (buckets_ops buckets) (pgss_shmem_startup K false gi gc now b0) = Some b ∧
    cell_is K b k j 0
      (int32 (sum_list (window gc ((λ evs, uint32 (hits K k j evs)) <$> buckets))))
      ring (Z.of_nat (length buckets) `mod` gc)
      (uint32 (typed K j (concat buckets))) gi gc ∧
    length ring = 360%nat ∧
    ring_holds gc (Z.of_nat (length buckets) `mod` gc) ring
      (window gc ((λ evs, uint32 (hits K k j evs)) <$> buckets)).
Proof.
  intros W Hgc A Hk Hj.
  induction buckets as [|evs bs IH] using rev_ind.
  - exists (pgss_shmem_startup K false gi gc now b0), (replicate 360 0).
    split; [done|]. cbn [fmap list_fmap length concat].
    rewrite window_nil, sum_list_replicate.
    change (Z.of_nat 0) with 0. rewrite Z.mod_0_l by lia.
    split; [by apply startup_cell_is|]. split; [apply length_replicate|].
    by apply ring_holds_start.
  - destruct IH as (b1 & ring & E1 & C1 & Hlen & Hring).
    set (cs := (λ evs, uint32 (hits K k j evs)) <$> bs) in *.
    set (idx := Z.of_nat (length bs) `mod` gc) in *.
    assert (Hidx : 0 ≤ idx < gc) by (apply Z.mod_pos_bound; lia).
    destruct (emits_cell_is K evs b1 k j _ _ _ _ _ _ _ W Hj C1) as (b2 & E2 & C2).
    destruct (tick_cell_is K b2 k j _ _ _ _ _ _ _ W Hj C2) as (b3 & E3 & C3).
    exists b3, (<[Z.to_nat idx := uint32 (0 + hits K k j evs)]> ring).
    split.
    { rewrite buckets_ops_snoc, run_app, E1. cbn [mbind option_bind].
      rewrite run_app, E2. cbn [mbind option_bind].
      unfold run. cbn [for_each step]. by rewrite E3. }
    rewrite fmap_app. cbn [fmap list_fmap]. fold cs.
    rewrite window_snoc by lia.
    assert (Hw : length (window gc cs) = Z.to_nat gc) by (apply window_length; lia).
    assert (Hidx' : Z.of_nat (length (bs ++ [evs])) `mod` gc = (idx + 1) `mod` gc).
    { rewrite length_app. cbn [length]. unfold idx.
      rewrite Zplus_mod_idemp_l. f_equal. lia. }
    rewrite Hidx'.
    replace (uint32 (0 + hits K k j evs)) with (uint32 (hits K k j evs)) in * by (f_equal; lia).
    split; [|split].
    + assert (Es : int32 (int32 (sum_list (window gc cs)) + uint32 (hits K k j evs)
                          - ring !!! Z.to_nat idx)
                   = int32 (sum_list (drop 1 (window gc cs) ++ [uint32 (hits K k j evs)]))).
      { rewrite sum_list_app, sum_list_drop_1 by lia.
        pose proof (Hring 0 ltac:(lia)) as H0. rewrite ring_position_0 in H0 by done.
        rewrite H0. change (Z.to_nat 0) with 0%nat.
        rewrite <- Z.add_sub_assoc, int32_add_l. f_equal. unfold sum_list. cbn. lia. }
      assert (Et : uint32 (uint32 (typed K j (concat bs)) + typed K j evs)
                   = uint32 (typed K j (concat (bs ++ [evs])))).
      { rewrite uint32_add_l, concat_app, typed_app. cbn [concat].
        by rewrite app_nil_r. }
      rewrite <- Es, <- Et. exact C3.
    + by rewrite length_insert.
    + by apply ring_holds_push.
Qed.

(** * The sliding window *)

Lemma hits_le_length (K : Constants) k j evs : hits K k j evs ≤ Z.of_nat (length evs).
Proof. unfold hits. pose proof (length_filter (counted_in K k j) evs). lia. Qed.

Lemma concat_drop_length {A} (l : list (list A)) m :
  (length (concat (drop m l)) ≤ length (concat l))%nat.
Proof.
  rewrite <- (take_drop m l) at 2. rewrite concat_app, length_app. lia.
Qed.

Lemma concat_elem_length {A} (l : list (list A)) x :
  x ∈ l → (length x ≤ length (concat l))%nat.
Proof.
  induction 1 as [x l|x y l _ IH]; cbn [concat]; rewrite length_app; lia.
Qed.

Lemma sum_hits (K : Constants) k j (bs : list (list ErrorData)) :
  sum_list (hits K k j <$> bs) = hits K k j (concat bs).
Proof.
  induction bs as [|evs bs IH]; [done|].
  cbn [fmap list_fmap concat]. rewrite hits_app, <- IH. done.
Qed.

(** While fewer than 2^31 messages have arrived, the counts are the plain
    numbers of messages. *)
Lemma counts_exact (K : Constants) k j (bs : list (list ErrorData)) :
  Z.of_nat (length (concat bs)) < 2 ^ 31 →
  (λ evs, uint32 (hits K k j evs)) <$> bs = hits K k j <$> bs.
Proof.
  intros Hlt. apply list_fmap_ext. intros i evs Hi. apply uint32_id.
  pose proof (hits_nonneg K k j evs). pose proof (hits_le_length K k j evs).
  pose proof (concat_elem_length bs evs (list_elem_of_lookup_2 _ _ _ Hi)).
  unfold is_uint32. lia.
Qed.

(** One cell after closed intervals and an open one. *)
Lemma window_counts (K : Constants) (gi gc now : Z) (b0 : Backend) (k : Z)
    (j : nat) (buckets : list (list ErrorData)) (open : list ErrorData) :
  wf_constants K → 1 ≤ gc ≤ 360 → hook_active b0 →
  k ∈ error_codes K → (j < message_types_count)%nat →
  ∃ b h g info,
    run K (buckets_ops buckets ++ (emit <$> open))
      (pgss_shmem_startup K false gi gc now b0) = Some b ∧
    messages_info_hashtable b = Some h ∧ global_variables b = Some g ∧
    h !! k = Some info ∧
    current_interval_index g = Z.of_nat (length buckets) `mod` gc ∧
    message_count info !!! j = uint32 (hits K k j open) ∧
    errors_in_long_interval info j
      = int32 (sum_list (drop (length buckets - Z.to_nat gc)
                           ((λ evs, uint32 (hits K k j evs)) <$> buckets))) ∧
    errors_in_short_interval g info j
      = int32 (default 0 (last ((λ evs, uint32 (hits K k j evs)) <$> buckets))) ∧
    total_count g !!! j = uint32 (typed K j (concat buckets ++ open)) ∧
    (Z.of_nat (length (concat buckets ++ open)) < 2 ^ 31 →
     message_count info !!! j = hits K k j open ∧
     errors_in_long_interval info j
       = hits K k j (concat (drop (length buckets - Z.to_nat gc) buckets)) ∧
     errors_in_short_interval g info j
       = hits K k j (default [] (last buckets))).
Proof.
  intros W Hgc A Hk Hj.
  destruct (buckets_cell_is K gi gc now b0 k j buckets W Hgc A Hk Hj)
    as (b1 & ring & E1 & C1 & Hlen & Hring).
  destruct (emits_cell_is K open b1 k j _ _ _ _ _ _ _ W Hj C1) as (b2 & E2 & C2).
  destruct C2 as (h & g & info & Hh & Hg & R & _ & Hinfo & Hb & Hs & Hr & Hi & Ht & _ & Hn).
  set (cs := (λ evs, uint32 (hits K k j evs)) <$> buckets) in *.
  exists b2, h, g, info.
  split; [by rewrite run_app, E1|]. split; [done|]. split; [done|]. split; [done|].
  split; [done|].
  assert (Eb : message_count info !!! j = uint32 (hits K k j open)).
  { rewrite Hb. by rewrite Z.add_0_l. }
  assert (El : errors_in_long_interval info j
               = int32 (sum_list (drop (length buckets - Z.to_nat gc) cs))).
  { unfold errors_in_long_interval. rewrite Hs, window_sum by lia.
    unfold cs at 1. by rewrite length_fmap. }
  assert (Es : errors_in_short_interval g info j = int32 (default 0 (last cs))).
  { unfold errors_in_short_interval.
    rewrite prev_interval_index_ready by apply R.
    rewrite Hr, Hi, Hn. f_equal.
    set (idx := Z.of_nat (length buckets) `mod` gc) in *.
    replace (idx - 1 + gc) with (idx + (gc - 1)) by lia.
    rewrite (Hring (gc - 1)) by lia. by apply window_last; [lia|]. }
  split; [exact Eb|]. split; [exact El|]. split; [exact Es|].
  split; [by rewrite Ht, uint32_add_l, typed_app|].
  intros Hlt. rewrite length_app in Hlt.
  assert (Hcs : cs = hits K k j <$> buckets).
  { apply counts_exact. lia. }
  split; [|split].
  - rewrite Eb. apply uint32_id.
    pose proof (hits_nonneg K k j open). pose proof (hits_le_length K k j open).
    unfold is_uint32. lia.
  - rewrite El, Hcs, <- fmap_drop, sum_hits. apply int32_id.
    pose proof (hits_nonneg K k j (concat (drop (length buckets - Z.to_nat gc) buckets))).
    pose proof (hits_le_length K k j (concat (drop (length buckets - Z.to_nat gc) buckets))).
    pose proof (concat_drop_length buckets (length buckets - Z.to_nat gc)).
    unfold is_int32. lia.
  - rewrite Es, Hcs, fmap_last.
    destruct (last buckets) as [evs|] eqn:L; cbn [fmap option_fmap default].
    + apply int32_id.
      pose proof (hits_nonneg K k j evs). pose proof (hits_le_length K k j evs).
      assert (Hin : evs ∈ buckets).
      { apply last_Some in L as [l' ->]. apply elem_of_app. right.
        apply list_elem_of_here. }
      pose proof (concat_elem_length buckets evs Hin).
      unfold is_int32, id. lia.
    + done.
Qed.

(** X1.  Let the messages of successive intervals reach the hook, each
    interval closed by a rotation, and then some messages of the interval
    still open.  For every error code [k] and type [j], the entry of [k]
    then holds: in its open bucket the messages of the open interval
    counted in [(k, j)]; in its long-interval count those of the last
    [intervals_count] closed intervals; in its short-interval count those
    of the last closed interval.  Counts are 32-bit; they are the plain
    numbers of messages while fewer than 2^31 have arrived. *)
Theorem sliding_window (K : Constants) (gi gc now : Z) (b0 : Backend) (k : Z)
    (j : nat) (buckets : list (list ErrorData)) (open : list ErrorData) :
  wf_constants K → 1 ≤ gc ≤ 360 → hook_active b0 →
  k ∈ error_codes K → (j < message_types_count)%nat →
  ∃ b h g info,
    run K (buckets_ops buckets ++ (emit <$> open))
      (pgss_shmem_startup K false gi gc now b0) = Some b ∧
    messages_info_hashtable b = Some h ∧ global_variables b = Some g ∧
    h !! k = Some info ∧
    current_interval_index g = Z.of_nat (length buckets) `mod` gc ∧
    message_count info !!! j = uint32 (hits K k j open) ∧
    errors_in_long_interval info j
      = int32 (sum_list (drop (length buckets - Z.to_nat gc)
                           ((λ evs, uint32 (hits K k j evs)) <$> buckets))) ∧
    errors_in_short_interval g info j
      = int32 (default 0 (last ((λ evs, uint32 (hits K k j evs)) <$> buckets))) ∧
    (Z.of_nat (length (concat buckets ++ open)) < 2 ^ 31 →
     message_count info !!! j = hits K k j open ∧
     errors_in_long_interval info j
       = hits K k j (concat (drop (length buckets - Z.to_nat gc) buckets)) ∧
     errors_in_short_interval g info j
       = hits K k j (default [] (last buckets))).
Proof.
  intros W Hgc A Hk Hj.
  destruct (window_counts K gi gc now b0 k j buckets open W Hgc A Hk Hj)
    as (b & h & g & info & E & Hh & Hg & Hi & Hx & Hb & Hl & Hs & _ & Hex).
  exists b, h, g, info. done.
Qed.

(** * Lifetime counters *)

Lemma slow_lines_cons edata evs :
  slow_lines (edata :: evs)
  = (if is_slow_log_line edata then 1 else 0) + slow_lines evs.
Proof.
  unfold slow_lines. destruct (is_slow_log_line edata) eqn:E.
  - rewrite filter_cons_True by done. cbn [length]. lia.
  - rewrite filter_cons_False by (by rewrite E). lia.
Qed.

Lemma slow_lines_app l1 l2 : slow_lines (l1 ++ l2) = slow_lines l1 + slow_lines l2.
Proof. unfold slow_lines. rewrite filter_app, length_app. lia. Qed.

Lemma emitted_cons op ops : emitted (op :: ops) = emitted [op] ++ emitted ops.
Proof. by destruct op. Qed.

Lemma emitted_app ops1 ops2 : emitted (ops1 ++ ops2) = emitted ops1 ++ emitted ops2.
Proof. unfold emitted. apply omap_app. Qed.

Lemma emitted_emits evs : emitted (emit <$> evs) = evs.
Proof. induction evs as [|e evs IH]; [done|]. cbn. by rewrite <- IH at 2. Qed.

Lemma total_is_uint32 (K : Constants) h g j :
  ready K h g → (j < message_types_count)%nat → is_uint32 (total_count g !!! j).
Proof.
  intros R Hj. apply Forall_lookup_total_1; [apply R|].
  by rewrite (ready_total_length K h g R).
Qed.

(** One step that is not a reset, seen from the global block and the log. *)
Lemma step_global (K : Constants) op b h g :
  wf_constants K → is_reset op = false →
  messages_info_hashtable b = Some h → global_variables b = Some g →
  ready K h g → hook_active b →
  ∃ b' h' g',
    step K op b = Some b' ∧
    messages_info_hashtable b' = Some h' ∧ global_variables b' = Some g' ∧
    ready K h' g' ∧ hook_active b' ∧
    (∀ j, (j < message_types_count)%nat →
       total_count g' !!! j
       = uint32 (total_count g !!! j + typed K j (emitted [op]))) ∧
    count (slow_log_info g')
      = uint32 (count (slow_log_info g) + slow_lines (emitted [op])) ∧
    reset_time (slow_log_info g') = reset_time (slow_log_info g) ∧
    interval g' = interval g ∧ intervals_count g' = intervals_count g ∧
    server_log b'
      = server_log b
        ++ ((λ edata, not_known_error_code_line (sqlerrcode edata))
              <$> filter (unknown_tracked K) (emitted [op])).
Proof.
  intros W Hop Hh Hg R A. destruct op as [|edata|now]; [| |done]; cbn [step].
  - rewrite (logerrors_update_info_ready K b h g (wf_codes_NoDup K W) Hh Hg R).
    eexists _, _, _. split; [done|]. cbn -[uint32].
    split; [done|]. split; [done|]. split; [by apply rotate_ready|].
    split; [done|]. split.
    { intros j Hj. unfold typed. cbn -[uint32]. rewrite Z.add_0_r.
      symmetry. apply uint32_id. by apply (total_is_uint32 K h g j). }
    split.
    { unfold slow_lines. cbn -[uint32]. rewrite Z.add_0_r. symmetry.
      apply uint32_id. apply R. }
    split; [done|]. split; [done|]. split; [done|]. by rewrite app_nil_r.
  - destruct (hook_initialized_active K edata b h g W Hh Hg R A)
      as (h' & g' & log' & -> & R' & D).
    eexists _, _, _. split; [done|]. cbn [messages_info_hashtable global_variables server_log].
    split; [done|]. split; [done|].
    split. { destruct (is_slow_log_line edata); [by apply count_slow_ready|done]. }
    split; [done|].
    change (emitted [emit edata]) with [edata].
    assert (Hs : ∀ g0, count (slow_log_info (if is_slow_log_line edata
                                            then count_slow g0 else g0))
                 = uint32 (count (slow_log_info g0) + slow_lines [edata])
                   ∨ ¬ is_uint32 (count (slow_log_info g0))).
    { intros g0. destruct (decide (is_uint32 (count (slow_log_info g0)))) as [U|]; [left|by right].
      rewrite slow_lines_cons. unfold slow_lines at 1. cbn [filter list_filter length].
      destruct (is_slow_log_line edata); cbn -[uint32].
      - unfold pg_atomic_fetch_add_u32. f_equal; lia.
      - rewrite ?Z.add_0_r. symmetry. by apply uint32_id. }
    assert (Hf : ∀ g0 : GlobalInfo,
              total_count (if is_slow_log_line edata then count_slow g0 else g0)
              = total_count g0 ∧
              reset_time (slow_log_info (if is_slow_log_line edata
                                         then count_slow g0 else g0))
              = reset_time (slow_log_info g0) ∧
              interval (if is_slow_log_line edata then count_slow g0 else g0)
              = interval g0 ∧
              intervals_count (if is_slow_log_line edata then count_slow g0 else g0)
              = intervals_count g0).
    { intros g0. by destruct (is_slow_log_line edata). }
    destruct (Hf g') as (Ht & Hr & Hi & Hn). rewrite Ht, Hr, Hi, Hn.
    destruct (Hs g') as [Hs'|Hs']; [rewrite Hs'|].
    2:{ destruct D as [(_ & _ & -> & _)|(? & ? & ? & _ & _ & _ & _ & _ & -> & _)];
          exfalso; apply Hs'; apply R. }
    destruct D as [(Hout & -> & -> & ->)|(j' & k' & elem & Hj' & E & Hk' & Hsel & -> & -> & ->)].
    + split.
      { intros j Hj. rewrite typed_cons. unfold typed at 1.
        rewrite decide_False.
        - cbn -[uint32]. rewrite Z.add_0_r. symmetry. apply uint32_id.
          by apply (total_is_uint32 K h g j).
        - intros E. apply Hout. rewrite E. apply list_elem_of_lookup_total_2.
          by rewrite (wf_types_codes K W). }
      split; [done|]. split; [done|]. split; [done|]. split; [done|].
      rewrite filter_cons_False by (by intros [? _]). cbn. by rewrite app_nil_r.
    + assert (Hlen : (j' < length (total_count g))%nat).
      { by rewrite (ready_total_length K h g R). }
      assert (Hin : elevel edata ∈ message_types_codes K).
      { rewrite E. apply list_elem_of_lookup_total_2. by rewrite (wf_types_codes K W). }
      split.
      { intros j Hj. rewrite typed_cons. unfold typed at 1. cbn -[uint32].
        destruct (decide (j' = j)) as [->|Hne].
        - rewrite decide_True by done. rewrite list_lookup_total_insert_eq by done.
          unfold pg_atomic_fetch_add_u32. f_equal; lia.
        - rewrite decide_False.
          + rewrite list_lookup_total_insert_ne by done. rewrite ?Z.add_0_r.
            symmetry. apply uint32_id. by apply (total_is_uint32 K h g j).
          + intros E'. apply Hne. apply (types_distinct K j' j W Hj' Hj). congruence. }
      split; [done|]. split; [done|]. split; [done|]. split; [done|].
      destruct (decide (sqlerrcode edata ∈ error_codes K)) as [Hreg|Hreg].
      * rewrite filter_cons_False by (by intros [_ ?]). cbn. by rewrite app_nil_r.
      * rewrite filter_cons_True by done. done.
Qed.

Lemma typed_nil (K : Constants) j : typed K j [] = 0.
Proof. done. Qed.

(** Steps that are not resets, seen from the global block and the log. *)
Lemma run_global (K : Constants) ops b h g :
  wf_constants K → Forall (λ op, is_reset op = false) ops →
  messages_info_hashtable b = Some h → global_variables b = Some g →
  ready K h g → hook_active b →
  ∃ b' h' g',
    run K ops b = Some b' ∧
    messages_info_hashtable b' = Some h' ∧ global_variables b' = Some g' ∧
    ready K h' g' ∧ hook_active b' ∧
    (∀ j, (j < message_types_count)%nat →
       total_count g' !!! j
       = uint32 (total_count g !!! j + typed K j (emitted ops))) ∧
    count (slow_log_info g')
      = uint32 (count (slow_log_info g) + slow_lines (emitted ops)) ∧
    reset_time (slow_log_info g') = reset_time (slow_log_info g) ∧
    interval g' = interval g ∧ intervals_count g' = intervals_count g ∧
    server_log b'
      = server_log b
        ++ ((λ edata, not_known_error_code_line (sqlerrcode edata))
              <$> filter (unknown_tracked K) (emitted ops)).
Proof.
  intros W Hops. revert b h g.
  induction Hops as [|op ops Hop _ IH]; intros b h g Hh Hg R A.
  - exists b, h, g. split; [done|]. split; [done|]. split; [done|].
    split; [done|]. split; [done|]. split.
    { intros j Hj. cbn -[uint32]. rewrite typed_nil, Z.add_0_r. symmetry.
      apply uint32_id. by apply (total_is_uint32 K h g j). }
    split.
    { unfold slow_lines. cbn -[uint32]. rewrite Z.add_0_r. symmetry.
      apply uint32_id. apply R. }
    split; [done|]. split; [done|]. split; [done|]. cbn. by rewrite app_nil_r.
  - destruct (step_global K op b h g W Hop Hh Hg R A)
      as (b1 & h1 & g1 & E1 & Hh1 & Hg1 & R1 & A1 & T1 & S1 & RT1 & I1 & N1 & L1).
    destruct (IH b1 h1 g1 Hh1 Hg1 R1 A1)
      as (b2 & h2 & g2 & E2 & Hh2 & Hg2 & R2 & A2 & T2 & S2 & RT2 & I2 & N2 & L2).
    exists b2, h2, g2. split.
    { rewrite (run_cons K op ops b b1 E1). exact E2. }
    split; [done|]. split; [done|]. split; [done|]. split; [done|].
    rewrite (emitted_cons op ops). split.
    { intros j Hj. rewrite (T2 j Hj), (T1 j Hj), uint32_add_l, typed_app.
      f_equal. lia. }
    split. { rewrite S2, S1, uint32_add_l, slow_lines_app. f_equal. lia. }
    split; [congruence|]. split; [congruence|]. split; [congruence|].
    rewrite L2, L1, filter_app, fmap_app, app_assoc. done.
Qed.

(** * Messages between rotations *)

(** X2.  Between two rotations the hook only fills open buckets: after any
    list of messages on an initialised backend that passes the guard, the
    bucket of entry [k] and type [j] has grown by the number of messages
    counted there (modulo 2^32, so by exactly that number while the bucket
    stays below 2^32), and the rolling sum, the ring and the current index
    are as before. *)
Theorem messages_between_rotations (K : Constants) (evs : list ErrorData)
    (b : Backend) (h : gmap Z MessageInfo) (g : GlobalInfo) (k : Z)
    (info : MessageInfo) (j : nat) :
  wf_constants K →
  messages_info_hashtable b = Some h → global_variables b = Some g →
  ready K h g → hook_active b →
  h !! k = Some info → (j < message_types_count)%nat →
  ∃ b' h' g' info',
    run K (emit <$> evs) b = Some b' ∧
    messages_info_hashtable b' = Some h' ∧ global_variables b' = Some g' ∧
    h' !! k = Some info' ∧
    message_count info' !!! j = uint32 (message_count info !!! j + hits K k j evs) ∧
    (message_count info !!! j + hits K k j evs < 2 ^ 32 →
     message_count info' !!! j = message_count info !!! j + hits K k j evs) ∧
    sum_in_buffer info' !!! j = sum_in_buffer info !!! j ∧
    intervals info' !!! j = intervals info !!! j ∧
    current_interval_index g' = current_interval_index g.
Proof.
  intros W Hh Hg R A Hk Hj.
  assert (C : cell_is K b k j (message_count info !!! j) (sum_in_buffer info !!! j)
                (intervals info !!! j) (current_interval_index g)
                (total_count g !!! j) (interval g) (intervals_count g)).
  { exists h, g, info. done. }
  destruct (emits_cell_is K evs b k j _ _ _ _ _ _ _ W Hj C) as (b' & E & C').
  destruct C' as (h' & g' & info' & Hh' & Hg' & _ & _ & Hk' & Hb & Hs & Hr & Hi & _).
  exists b', h', g', info'.
  split; [done|]. split; [done|]. split; [done|]. split; [done|].
  split; [done|]. split; [|done].
  intros Hfit. rewrite Hb. apply uint32_id.
  assert (U : is_uint32 (message_count info !!! j)).
  { apply Forall_lookup_total_1.
    - apply (ok_message_count _ (ready_entries K h g R k info Hk)).
    - by rewrite (ok_message_count_length _ (ready_entries K h g R k info Hk)). }
  pose proof (hits_nonneg K k j evs). unfold is_uint32 in *. lia.
Qed.

(** X3.  Over any run of rotations and messages without reset, on an
    initialised backend that passes the guard: [total_count[j]] grows by the
    number of messages of type [j] and the slow log counter by the number
    of messages whose text contains "duration:" (both modulo 2^32);
    rotations change neither; the reset time, [interval] and
    [intervals_count] stay; and [pg_slow_log_stats] then returns one row
    with that counter and that reset time. *)
Theorem lifetime_counters (K : Constants) (fcinfo : FunctionCallInfo)
    (ops : list Op) (b : Backend) (h : gmap Z MessageInfo) (g : GlobalInfo) :
  wf_constants K → Forall (λ op, is_reset op = false) ops →
  messages_info_hashtable b = Some h → global_variables b = Some g →
  ready K h g → hook_active b →
  rsinfo_is_ReturnSetInfo fcinfo = true →
  allows_SFRM_Materialize fcinfo = true →
  result_is_composite fcinfo = true →
  ∃ b' g',
    run K ops b = Some b' ∧ global_variables b' = Some g' ∧
    (∀ j, (j < message_types_count)%nat →
       total_count g' !!! j
       = uint32 (total_count g !!! j + typed K j (emitted ops))) ∧
    count (slow_log_info g')
      = uint32 (count (slow_log_info g) + slow_lines (emitted ops)) ∧
    reset_time (slow_log_info g') = reset_time (slow_log_info g) ∧
    interval g' = interval g ∧ intervals_count g' = intervals_count g ∧
    pg_slow_log_stats fcinfo b'
      = Returned (Some [ {| slow_count :=
                              int32 (uint32 (count (slow_log_info g)
                                             + slow_lines (emitted ops)));
                            slow_reset_time := reset_time (slow_log_info g) |} ]).
Proof.
  intros W Hops Hh Hg R A F1 F2 F3.
  destruct (run_global K ops b h g W Hops Hh Hg R A)
    as (b' & h' & g' & E & Hh' & Hg' & _ & _ & T & S & RT & I & N & _).
  exists b', g'. split; [done|]. split; [done|]. split; [done|]. split; [done|].
  split; [done|]. split; [done|]. split; [done|].
  unfold pg_slow_log_stats. rewrite Hg'. rewrite check_call_ok by done.
  by rewrite S, RT.
Qed.

(** X4.  The hook reports an unknown sqlerrcode once for each message of a
    tracked type that carries one, in order, and writes nothing else to the
    server log; rotations write nothing. *)
Theorem unknown_codes_logged (K : Constants) (ops : list Op) (b : Backend)
    (h : gmap Z MessageInfo) (g : GlobalInfo) :
  wf_constants K → Forall (λ op, is_reset op = false) ops →
  messages_info_hashtable b = Some h → global_variables b = Some g →
  ready K h g → hook_active b →
  ∃ b',
    run K ops b = Some b' ∧
    server_log b'
      = server_log b
        ++ ((λ edata, not_known_error_code_line (sqlerrcode edata))
              <$> filter (unknown_tracked K) (emitted ops)).
Proof.
  intros W Hops Hh Hg R A.
  destruct (run_global K ops b h g W Hops Hh Hg R A)
    as (b' & h' & g' & E & _ & _ & _ & _ & _ & _ & _ & _ & _ & L).
  by exists b'.
Qed.

(** X5.  Messages of a process that does not pass the guard of line 209 (the
    region is not attached, there is no PGPROC, or the process is exiting)
    change nothing, slow log lines included. *)
Theorem guarded_hook_counts_nothing (K : Constants) (evs : list ErrorData)
    (b : Backend) :
  messages_info_hashtable b = None ∨ global_variables b = None ∨
  MyProc b = false ∨ proc_exit_inprogress b = true →
  run K (emit <$> evs) b = Some b.
Proof.
  intros G. induction evs as [|edata evs IH]; [done|].
  cbn [fmap list_fmap]. rewrite (run_cons K _ _ b b); [exact IH|].
  cbn [step]. unfold logerrors_emit_log_hook.
  destruct (messages_info_hashtable b) as [h|]; [|done].
  destruct (global_variables b) as [g|]; [|done].
  destruct G as [G|[G|[G|G]]]; try done; rewrite G; [done|].
  by rewrite andb_false_r.
Qed.

(** * States that follow a start-up *)

Lemma startup_started (K : Constants) gi gc now b0 :
  wf_constants K → 1 ≤ gc ≤ 360 →
  started K gi gc (pgss_shmem_startup K false gi gc now b0).
Proof.
  intros W Hgc.
  destruct (startup_ready K gi gc now b0 (wf_codes_NoDup K W) Hgc)
    as (h & g & Hh & Hg & R).
  destruct (startup_result K gi gc now b0 (wf_codes_NoDup K W)) as (h0 & E & T).
  rewrite E in Hh, Hg. cbn in Hh, Hg. injection Hh as <-. injection Hg as <-.
  exists h0, {| interval := gi; intervals_count := gc; current_interval_index := 0;
                total_count := replicate message_types_count 0;
                slow_log_info := {| count := 0; reset_time := now |} |}.
  rewrite E. split; [done|]. split; [done|]. split; [done|].
  split; [|split; [|done]].
  - intros i k info Hi Hk. rewrite T in Hk.
    rewrite (find_code_index K i k (wf_codes_NoDup K W) Hi) in Hk.
    by injection Hk as <-.
  - intros k info j i Hk Hj Hi. rewrite T in Hk.
    destruct (list_find _ _) as [[i' ?]|]; [|done]. injection Hk as <-.
    cbn [zero_entry intervals]. rewrite lookup_total_replicate_2 by done.
    rewrite lookup_total_replicate_2 by lia. done.
Qed.

Lemma tick_started (K : Constants) gi gc b :
  wf_constants K → started K gi gc b →
  ∃ b', logerrors_update_info K b = Some b' ∧ started K gi gc b'.
Proof.
  intros W (h & g & Hh & Hg & R & N & U & I & C).
  rewrite (logerrors_update_info_ready K b h g (wf_codes_NoDup K W) Hh Hg R).
  eexists. split; [done|].
  exists (rotate_entry (current_interval_index g) <$> h),
         (set_current_interval_index g
            ((current_interval_index g + 1) `mod` intervals_count g)).
  split; [done|]. split; [done|]. split; [by apply rotate_ready|].
  split; [|split; [|done]].
  - intros i k info Hi Hk. rewrite lookup_fmap in Hk.
    destruct (h !! k) as [info0|] eqn:Hk0; [|done]. injection Hk as <-.
    destruct (N i k info0 Hi Hk0). done.
  - intros k info j i Hk Hj Hi. rewrite lookup_fmap in Hk.
    destruct (h !! k) as [info0|] eqn:Hk0; [|done]. injection Hk as <-.
    destruct (rotate_entry_spec (current_interval_index g) info0 j
                (ready_entries K h g R k info0 Hk0) Hj) as (_ & _ & ->).
    cbn [set_current_interval_index intervals_count] in Hi.
    pose proof (ready_index K h g R).
    rewrite list_lookup_total_insert_ne by lia.
    by apply (U k info0 j i).
Qed.

Lemma hook_started (K : Constants) gi gc edata b :
  wf_constants K → started K gi gc b →
  ∃ b', logerrors_emit_log_hook K edata b = Some b' ∧ started K gi gc b'.
Proof.
  intros W S. pose proof S as (h & g & Hh & Hg & R & N & U & I & C).
  destruct (MyProc b) eqn:HM; [destruct (proc_exit_inprogress b) eqn:HP|].
  - exists b. split; [|done]. unfold logerrors_emit_log_hook.
    by rewrite Hh, Hg, HM, HP.
  - destruct (hook_initialized_active K edata b h g W Hh Hg R (conj HM HP))
      as (h' & g' & log' & -> & R' & D).
    eexists. split; [done|].
    exists h', (if is_slow_log_line edata then count_slow g' else g').
    split; [done|]. split; [done|].
    split; [destruct (is_slow_log_line edata); [by apply count_slow_ready|done]|].
    assert (G : interval (if is_slow_log_line edata then count_slow g' else g')
                = interval g' ∧
                intervals_count (if is_slow_log_line edata then count_slow g' else g')
                = intervals_count g').
    { by destruct (is_slow_log_line edata). }
    destruct G as [G1 G2].
    destruct D as [(_ & -> & -> & _)|(j' & k' & elem & Hj' & _ & Hk' & _ & -> & -> & _)].
    + split; [done|]. split; [|by rewrite G1, G2].
      intros k info j i Hk Hj Hi. rewrite G2 in Hi. by apply (U k info j i).
    + split; [|split; [|by rewrite G1, G2]].
      * intros i k info Hi Hk. destruct (decide (k' = k)) as [->|Hne].
        -- rewrite lookup_insert_eq in Hk. injection Hk as <-.
           by destruct (N i k elem Hi Hk').
        -- rewrite lookup_insert_ne in Hk by done. by apply N.
      * intros k info j i Hk Hj Hi. rewrite G2 in Hi.
        cbn [count_total set_total_count intervals_count] in Hi.
        destruct (decide (k' = k)) as [->|Hne].
        -- rewrite lookup_insert_eq in Hk. injection Hk as <-.
           by apply (U k elem j i).
        -- rewrite lookup_insert_ne in Hk by done. by apply (U k info j i).
  - exists b. split; [|done]. unfold logerrors_emit_log_hook.
    by rewrite Hh, Hg, HM.
Qed.

(** The table after [logerrors_init] on a state that follows a start-up. *)
Lemma reset_started_table (K : Constants) gi gc now b :
  wf_constants K → started K gi gc b →
  ∃ h h',
    messages_info_hashtable b = Some h ∧
    pg_log_errors_reset K now b
    = ({| messages_info_hashtable := Some h';
          global_variables :=
            Some {| interval := gi; intervals_count := gc;
                    current_interval_index := 0;
                    total_count := replicate message_types_count 0;
                    slow_log_info := {| count := 0; reset_time := now |} |};
          MyProc := MyProc b;
          proc_exit_inprogress := proc_exit_inprogress b;
          server_log := server_log b |}, Returned ()) ∧
    (∀ k, is_Some (h' !! k) → k ∈ error_codes K) ∧
    ∀ i k, error_codes K !! i = Some k →
      ∃ info, h !! k = Some info ∧
        h' !! k = Some (init_all (error_names K !!! i) info).
Proof.
  intros W (h & g & Hh & Hg & R & N & U & I & C).
  destruct (init_result K now h g (wf_codes_NoDup K W) (ready_total_length K h g R))
    as (h' & E & T).
  exists h, h'. split; [done|]. split.
  - unfold pg_log_errors_reset. rewrite Hh, Hg, E, I, C. done.
  - split.
    + intros k Hk. rewrite T in Hk.
      destruct (decide (k ∈ error_codes K)) as [|Hn]; [done|].
      rewrite (find_code_None _ _ Hn) in Hk. by apply (ready_dom K h g R).
    + intros i k Hi.
      destruct (ready_codes K h g R k (list_elem_of_lookup_2 _ _ _ Hi)) as [info Hk].
      exists info. split; [done|].
      rewrite T, (find_code_index K i k (wf_codes_NoDup K W) Hi).
      unfold hash_enter. by rewrite Hk.
Qed.

Lemma reset_started (K : Constants) gi gc now b :
  wf_constants K → started K gi gc b →
  started K gi gc (fst (pg_log_errors_reset K now b)).
Proof.
  intros W S. pose proof S as (h & g & Hh & Hg & R & N & U & I & C).
  destruct (reset_started_table K gi gc now b W S) as (h0 & h' & Hh0 & E & D & T).
  rewrite Hh in Hh0. injection Hh0 as <-.
  assert (Ri : initialized K (fst (pg_log_errors_reset K now b))).
  { apply reset_initialized; [apply (wf_codes_NoDup K W)|]. by exists h, g. }
  rewrite E in Ri |- *. cbn [fst] in Ri |- *.
  destruct Ri as (h1 & g1 & Hh1 & Hg1 & R1). cbn in Hh1, Hg1.
  injection Hh1 as <-. injection Hg1 as <-.
  eexists _, _. split; [done|]. split; [done|]. split; [done|].
  split; [|split; [|done]].
  - intros i k info Hi Hk. destruct (T i k Hi) as (info0 & Hk0 & Hk').
    rewrite Hk' in Hk. injection Hk as <-.
    destruct (init_all_spec (error_names K !!! i) info0 0%nat
                (ready_entries K h g R k info0 Hk0)) as (Hkey & Hname & _).
    { unfold message_types_count. lia. }
    rewrite Hkey, Hname. by destruct (N i k info0 Hi Hk0).
  - intros k info j i Hk Hj Hi. cbn [intervals_count] in Hi.
    assert (Hc : k ∈ error_codes K) by (apply D; by rewrite Hk).
    apply list_elem_of_lookup_1 in Hc as [i' Hi'].
    destruct (T i' k Hi') as (info0 & Hk0 & Hk').
    rewrite Hk' in Hk. injection Hk as <-.
    pose proof (ready_entries K h g R k info0 Hk0) as Ok.
    destruct (init_all_spec (error_names K !!! i') info0 j Ok Hj)
      as (_ & _ & _ & _ & ->).
    assert (Hrow : length (intervals info0 !!! j) = 360%nat).
    { assert (F := ok_intervals _ Ok).
      apply (Forall_lookup_total_1 _ _ j) in F;
        [by destruct F|by rewrite (ok_intervals_length _ Ok)]. }
    rewrite MemSet_360_lookup by lia.
    destruct (decide (i < 90)%nat); [done|].
    apply (U k info0 j i Hk0 Hj). rewrite C. lia.
Qed.

Lemma step_started (K : Constants) gi gc op b :
  wf_constants K → started K gi gc b →
  ∃ b', step K op b = Some b' ∧ started K gi gc b'.
Proof.
  intros W S. destruct op as [|edata|now]; cbn [step].
  - by apply tick_started.
  - by apply hook_started.
  - eexists. split; [done|]. by apply reset_started.
Qed.

Lemma run_started (K : Constants) gi gc ops b :
  wf_constants K → started K gi gc b →
  ∃ b', run K ops b = Some b' ∧ started K gi gc b'.
Proof.
  intros W. revert b. induction ops as [|op ops IH]; intros b S.
  - by exists b.
  - destruct (step_started K gi gc op b W S) as (b1 & E & S1).
    destruct (IH b1 S1) as (b' & E' & S').
    exists b'. split; [|done]. by rewrite (run_cons K op ops b b1 E).
Qed.

(** X6.  No sequence of rotations, messages and resets after a start-up
    makes the code dereference a missing entry, and the shape of the shared
    region never changes: the table holds exactly the error codes of
    constants.h, each entry under its own key and with the name of its
    code, [interval] and [intervals_count] are those of the start-up, the
    current index is inside the ring, and the slots of every ring from
    [intervals_count] on are zero. *)
Theorem shared_region_shape (K : Constants) (gi gc now : Z) (b0 : Backend)
    (ops : list Op) :
  wf_constants K → 1 ≤ gc ≤ 360 →
  ∃ b h g,
    run K ops (pgss_shmem_startup K false gi gc now b0) = Some b ∧
    messages_info_hashtable b = Some h ∧ global_variables b = Some g ∧
    (∀ k, is_Some (h !! k) ↔ k ∈ error_codes K) ∧
    (∀ i k, error_codes K !! i = Some k →
       ∃ info, h !! k = Some info ∧ key info = k ∧
               name info = error_names K !!! i) ∧
    interval g = gi ∧ intervals_count g = gc ∧
    0 ≤ current_interval_index g < gc ∧
    ∀ k info j i, h !! k = Some info → (j < message_types_count)%nat →
      (Z.to_nat gc ≤ i < 360)%nat → (intervals info !!! j) !!! i = 0.
Proof.
  intros W Hgc.
  destruct (run_started K gi gc ops _ W (startup_started K gi gc now b0 W Hgc))
    as (b & E & h & g & Hh & Hg & R & N & U & I & C).
  exists b, h, g. split; [done|]. split; [done|]. split; [done|].
  split; [|split; [|split; [done|split; [done|split]]]].
  - intros k. split; [apply (ready_dom K h g R)|apply (ready_codes K h g R)].
  - intros i k Hi.
    destruct (ready_codes K h g R k (list_elem_of_lookup_2 _ _ _ Hi)) as [info Hk].
    exists info. split; [done|]. by apply (N i k).
  - rewrite <- C. apply (ready_index K h g R).
  - intros k info j i Hk Hj Hi. apply (U k info j i Hk Hj). by rewrite C.
Qed.

(** * Reset on a short ring *)

Lemma MessageInfo_eq (a b : MessageInfo) :
  key a = key b → message_count a = message_count b →
  sum_in_buffer a = sum_in_buffer b → intervals a = intervals b →
  name a = name b → a = b.
Proof. destruct a, b. cbn. by intros -> -> -> -> ->. Qed.

Lemma replicate_lookups {A} `{Inhabited A} (l : list A) (n : nat) (x : A) :
  length l = n → (∀ i, (i < n)%nat → l !!! i = x) → l = replicate n x.
Proof.
  revert l. induction n as [|n IH]; intros l Hl Hx.
  - by destruct l.
  - destruct l as [|a l]; [done|]. cbn [replicate]. f_equal.
    + apply (Hx 0%nat). lia.
    + apply IH; [by injection Hl|].
      intros i Hi. apply (Hx (S i)). lia.
Qed.

(** [logerrors_init] on an entry whose slots from 90 on are zero leaves
    the entry of a start-up. *)
Lemma init_all_zero nm info :
  entry_ok info →
  (∀ j i, (j < message_types_count)%nat → (90 ≤ i < 360)%nat →
     (intervals info !!! j) !!! i = 0) →
  init_all nm info = zero_entry (key info) nm.
Proof.
  intros Ok Z0. pose proof (init_all_ok nm info Ok) as Ok'.
  assert (S : ∀ j, (j < message_types_count)%nat →
            message_count (init_all nm info) !!! j = 0 ∧
            sum_in_buffer (init_all nm info) !!! j = 0 ∧
            intervals (init_all nm info) !!! j = replicate 360 0).
  { intros j Hj.
    destruct (init_all_spec nm info j Ok Hj) as (_ & _ & H1 & H2 & H3).
    split; [done|]. split; [done|]. rewrite H3.
    assert (Hrow : length (intervals info !!! j) = 360%nat).
    { assert (F := ok_intervals _ Ok).
      apply (Forall_lookup_total_1 _ _ j) in F;
        [by destruct F|by rewrite (ok_intervals_length _ Ok)]. }
    apply replicate_lookups; [by rewrite MemSet_length|].
    intros i Hi. rewrite MemSet_360_lookup by lia.
    destruct (decide (i < 90)%nat); [done|]. apply Z0; [done|lia]. }
  destruct (init_all_spec nm info 0%nat Ok) as (Hkey & Hname & _).
  { unfold message_types_count. lia. }
  apply MessageInfo_eq; cbn [zero_entry key message_count sum_in_buffer intervals name].
  - done.
  - apply replicate_lookups; [apply (ok_message_count_length _ Ok')|].
    intros j Hj. by destruct (S j Hj).
  - apply replicate_lookups; [apply (ok_sum_length _ Ok')|].
    intros j Hj. by destruct (S j Hj) as (_ & ? & _).
  - apply replicate_lookups; [apply (ok_intervals_length _ Ok')|].
    intros j Hj. by destruct (S j Hj) as (_ & _ & ?).
  - done.
Qed.

(** X7.  With a ring of at most 90 slots a reset is complete: whatever
    rotations, messages and resets came before, [pg_log_errors_reset]
    succeeds and leaves the shared region exactly as a start-up at the time
    of the reset creates it. *)
Theorem short_ring_reset (K : Constants) (gi gc now0 now : Z) (b0 : Backend)
    (ops : list Op) :
  wf_constants K → 1 ≤ gc ≤ 90 →
  ∃ b1 b,
    run K ops (pgss_shmem_startup K false gi gc now0 b0) = Some b1 ∧
    pg_log_errors_reset K now b1 = (b, Returned ()) ∧
    messages_info_hashtable b
      = messages_info_hashtable (pgss_shmem_startup K false gi gc now b0) ∧
    global_variables b
      = global_variables (pgss_shmem_startup K false gi gc now b0).
Proof.
  intros W Hgc.
  assert (Hgc' : 1 ≤ gc ≤ 360) by lia.
  destruct (run_started K gi gc ops _ W (startup_started K gi gc now0 b0 W Hgc'))
    as (b1 & E & S).
  pose proof S as (h & g & Hh & Hg & R & N & U & I & C).
  destruct (reset_started_table K gi gc now b1 W S) as (h1 & h' & Hh1 & Er & D & T).
  rewrite Hh in Hh1. injection Hh1 as <-.
  destruct (startup_result K gi gc now b0 (wf_codes_NoDup K W)) as (h0 & E0 & T0).
  eexists b1, _. split; [done|]. split; [exact Er|].
  rewrite E0. cbn [messages_info_hashtable global_variables]. split; [|done].
  f_equal. apply map_eq. intros k. rewrite T0.
  destruct (decide (k ∈ error_codes K)) as [Hk|Hk].
  - destruct (find_code_Some _ _ Hk) as (i & F & Hi). rewrite F.
    destruct (T i k Hi) as (info & Hk1 & ->). f_equal.
    destruct (N i k info Hi Hk1) as [Hkey _]. rewrite <- Hkey.
    apply init_all_zero; [apply (ready_entries K h g R k info Hk1)|].
    intros j i' Hj Hi'. apply (U k info j i' Hk1 Hj). rewrite C. lia.
  - rewrite (find_code_None _ _ Hk).
    destruct (h' !! k) eqn:Hk'; [|done].
    exfalso. apply Hk, D. by rewrite Hk'.
Qed.

(** * The report after a trace *)

Lemma typed_bounds (K : Constants) j evs :
  0 ≤ typed K j evs ≤ Z.of_nat (length evs).
Proof.
  unfold typed.
  pose proof (length_filter (λ edata, elevel edata = message_types_codes K !!! j) evs).
  lia.
Qed.

Lemma bind_ext_in {A B} (f g : A → list B) (l : list A) :
  (∀ x, x ∈ l → f x = g x) → l ≫= f = l ≫= g.
Proof.
  induction l as [|a l IH]; intros Hfg; [done|].
  cbn [mbind list_bind]. change (f a ++ (l ≫= f) = g a ++ (l ≫= g)).
  rewrite (Hfg a) by apply list_elem_of_here.
  rewrite IH; [done|]. intros x Hx. apply Hfg. by apply list_elem_of_further.
Qed.

Lemma quot_1000_bounds gi : is_int32 gi → -2147483 ≤ Z.quot gi 1000 ≤ 2147483.
Proof.
  unfold is_int32. intros Hgi.
  pose proof (Z.quot_rem' gi 1000) as E.
  destruct (Z.le_gt_cases 0 gi) as [Hp|Hn].
  - pose proof (Z.rem_bound_pos gi 1000 Hp ltac:(lia)). lia.
  - pose proof (Z.rem_bound_pos_neg gi 1000 ltac:(lia) ltac:(lia)). lia.
Qed.

Lemma long_interval_exact (g : GlobalInfo) :
  is_int32 (interval g) → 1 ≤ intervals_count g ≤ 360 →
  long_interval g = Z.quot (interval g) 1000 * intervals_count g.
Proof.
  intros Hgi Hgc. unfold long_interval, short_interval. apply int32_id.
  pose proof (quot_1000_bounds _ Hgi). unfold is_int32. nia.
Qed.

(** X8.  From start-up to report.  Let the messages of successive intervals
    reach the hook, each interval closed by a rotation, then the messages
    of the interval still open, fewer than 2^31 in all.  Then
    [pg_log_errors_stats] returns, for each message type in order: the
    total row with the number of messages of the type since start-up; then
    for each error code in table order, a row for the long interval with
    the number of messages of the code and type in the last
    [intervals_count] closed intervals, if there are any, and a row for
    the short interval with their number in the last closed interval, if
    there are any.  The messages of the open interval are in the totals
    only; messages with an unknown sqlerrcode count for
    [not_known_error_code]. *)
Theorem report_after_trace (K : Constants) (fcinfo : FunctionCallInfo)
    (gi gc now : Z) (b0 : Backend) (buckets : list (list ErrorData))
    (open : list ErrorData) :
  wf_constants K → is_int32 gi → 1 ≤ gc ≤ 360 → hook_active b0 →
  Z.of_nat (length (concat buckets ++ open)) < 2 ^ 31 →
  rsinfo_is_ReturnSetInfo fcinfo = true →
  allows_SFRM_Materialize fcinfo = true →
  result_is_composite fcinfo = true →
  ∃ b,
    run K (buckets_ops buckets ++ (emit <$> open))
      (pgss_shmem_startup K false gi gc now b0) = Some b ∧
    pg_log_errors_stats K fcinfo b
      = Returned (expected_rows K gi gc buckets open).
Proof.
  intros W Hgi Hgc A Hlt F1 F2 F3.
  destruct (run_started K gi gc (buckets_ops buckets ++ (emit <$> open)) _ W
              (startup_started K gi gc now b0 W Hgc))
    as (b & E & h & g & Hh & Hg & R & N & _ & I & C).
  exists b. split; [done|].
  unfold pg_log_errors_stats. rewrite Hh, Hg, check_call_ok by done.
  rewrite stats_rows. f_equal.
  assert (L : ∀ j, (j < message_types_count)%nat →
            rows_of_level K h g j = expected_level_rows K gi gc buckets open j).
  { intros j Hj. rewrite rows_of_level_eq. unfold expected_level_rows. f_equal.
    - unfold total_row. f_equal.
      destruct (window_counts K gi gc now b0 (not_known_error_code K) j buckets open
                  W Hgc A (wf_not_known K W) Hj)
        as (b' & h' & g' & info & E' & Hh' & Hg' & _ & _ & _ & _ & _ & Ht & _).
      rewrite E in E'. injection E' as <-.
      rewrite Hg in Hg'. injection Hg' as <-.
      rewrite Ht, int32_uint32. apply int32_id.
      pose proof (typed_bounds K j (concat buckets ++ open)).
      unfold is_int32. lia.
    - apply bind_ext_in. intros i Hi.
      apply elem_of_seq in Hi. unfold error_types_count in Hi.
      destruct (lookup_lt_is_Some_2 (error_codes K) i ltac:(lia)) as [k Hk].
      destruct (window_counts K gi gc now b0 k j buckets open
                  W Hgc A (list_elem_of_lookup_2 _ _ _ Hk) Hj)
        as (b' & h' & g' & info & E' & Hh' & Hg' & Hinfo & _ & _ & _ & _ & _ & Hex).
      rewrite E in E'. injection E' as <-.
      rewrite Hh in Hh'. injection Hh' as <-.
      rewrite Hg in Hg'. injection Hg' as <-.
      destruct (Hex Hlt) as (_ & El & Es).
      destruct (N i k info Hk Hinfo) as [_ Hname].
      rewrite (rows_of_entry_found K h g j i k info Hk Hinfo).
      unfold entry_rows, expected_entry_rows, window_events.
      rewrite (list_lookup_total_correct _ _ _ Hk).
      unfold long_row, short_row. rewrite El, Es, Hname.
      rewrite long_interval_exact by (rewrite ?I, ?C; done).
      unfold short_interval. rewrite I, C. done. }
  unfold expected_rows.
  change (seq 0 message_types_count ≫= expected_level_rows K gi gc buckets open)
    with (expected_level_rows K gi gc buckets open 0%nat
          ++ expected_level_rows K gi gc buckets open 1%nat
          ++ expected_level_rows K gi gc buckets open 2%nat ++ []).
  rewrite <- (L 0%nat), <- (L 1%nat), <- (L 2%nat) by (unfold message_types_count; lia).
  by rewrite app_nil_r.
Qed.

Lemma hits_concat_elem (K : Constants) k j (l : list (list ErrorData)) x :
  x ∈ l → hits K k j x ≤ hits K k j (concat l).
Proof.
  induction 1 as [x l|x y l _ IH]; cbn [concat]; rewrite hits_app.
  - pose proof (hits_nonneg K k j (concat l)). lia.
  - pose proof (hits_nonneg K k j y). lia.
Qed.

(** X9.  Without reset and below 2^31 messages, the count of the short
    interval never exceeds the count of the long interval, so
    [pg_log_errors_stats] never shows a short-interval row for an entry
    without its long-interval row. *)
Theorem short_count_within_long_count (K : Constants) (gi gc now : Z)
    (b0 : Backend) (k : Z) (j : nat) (buckets : list (list ErrorData))
    (open : list ErrorData) :
  wf_constants K → 1 ≤ gc ≤ 360 → hook_active b0 →
  k ∈ error_codes K → (j < message_types_count)%nat →
  Z.of_nat (length (concat buckets ++ open)) < 2 ^ 31 →
  ∃ b h g info,
    run K (buckets_ops buckets ++ (emit <$> open))
      (pgss_shmem_startup K false gi gc now b0) = Some b ∧
    messages_info_hashtable b = Some h ∧ global_variables b = Some g ∧
    h !! k = Some info ∧
    0 ≤ errors_in_short_interval g info j ≤ errors_in_long_interval info j ∧
    (short_row K g info j ∈ entry_rows K g info j →
     long_row K g info j ∈ entry_rows K g info j).
Proof.
  intros W Hgc A Hk Hj Hlt.
  destruct (window_counts K gi gc now b0 k j buckets open W Hgc A Hk Hj)
    as (b & h & g & info & E & Hh & Hg & Hinfo & _ & _ & _ & _ & _ & Hex).
  destruct (Hex Hlt) as (_ & El & Es).
  exists b, h, g, info.
  split; [done|]. split; [done|]. split; [done|]. split; [done|].
  assert (B : 0 ≤ errors_in_short_interval g info j ≤ errors_in_long_interval info j).
  { rewrite El, Es.
    destruct (last buckets) as [evs|] eqn:L; cbn [default].
    - split; [apply hits_nonneg|]. apply hits_concat_elem.
      apply last_Some in L as [l' ->].
      rewrite length_app. cbn [length].
      rewrite drop_app_le by lia.
      apply elem_of_app. right. apply list_elem_of_here.
    - split; [done|]. apply hits_nonneg. }
  split; [done|].
  rewrite entry_rows_short, entry_rows_long. lia.
Qed.

(** * The worker *)

Lemma quiet_fields w :
  quiet w = true →
  sigterm_before_wait w = false ∧ postmaster_death w = false ∧
  sigterm_in_wait w = false.
Proof. unfold quiet. destruct w as [[] [] []]; cbn; done. Qed.

Lemma worker_loop_quiet (K : Constants) pre ws b :
  wf_constants K → initialized K b → Forall (λ w, quiet w = true) pre →
  ∃ b', run K (replicate (length pre) tick) b = Some b' ∧ initialized K b' ∧
        worker_loop K (pre ++ ws) false b = worker_loop K ws false b'.
Proof.
  intros W. revert b. induction pre as [|w pre IH]; intros b I Q.
  - by exists b.
  - apply Forall_cons in Q as [Qw Q].
    destruct (quiet_fields w Qw) as (Q1 & Q2 & Q3).
    destruct (tick_initialized K b (wf_codes_NoDup K W) I) as (b1 & E1 & I1).
    destruct (IH b1 I1 Q) as (b' & E' & I' & L').
    exists b'. split; [|split; [done|]].
    + cbn [length replicate]. by rewrite (run_cons K tick _ b b1 E1).
    + cbn [app worker_loop deliver]. rewrite Q1, Q2, Q3. cbn [deliver].
      rewrite E1. exact L'.
Qed.

(** X10.  The worker first initialises the shared region, as a reset does,
    and then rotates once for each wakeup by the timeout alone.  At the
    first other wakeup it leaves without a further rotation, the open
    buckets unfolded: with [proc_exit (1)] if the postmaster has died and
    no SIGTERM was pending before the wait, with [proc_exit (0)] otherwise;
    later wakeups play no part. *)
Theorem worker_rotations (K : Constants) (now : Z) (pre : list Wakeup)
    (b : Backend) :
  wf_constants K → initialized K b → Forall (λ w, quiet w = true) pre →
  ∃ b',
    run K (reset now :: replicate (length pre) tick) b = Some b' ∧
    logerrors_main K now pre b = Some (b', waiting) ∧
    ∀ w rest, quiet w = false →
      logerrors_main K now (pre ++ w :: rest) b
      = Some (b', proc_exit (if negb (sigterm_before_wait w) && postmaster_death w
                             then 1 else 0)).
Proof.
  intros W I Q. pose proof I as (h & g & Hh & Hg & R).
  assert (I1 := reset_initialized K now b (wf_codes_NoDup K W) I).
  assert (E1 : ∀ ws, logerrors_main K now ws b
                     = worker_loop K ws false (fst (pg_log_errors_reset K now b))).
  { intros ws. unfold logerrors_main, pg_log_errors_reset. rewrite Hh, Hg.
    by destruct (logerrors_init K now h g). }
  destruct (worker_loop_quiet K pre [] _ W I1 Q) as (b' & E' & I' & L').
  exists b'. split; [|split].
  - by rewrite (run_cons K (reset now) _ b (fst (pg_log_errors_reset K now b))).
  - rewrite E1. rewrite app_nil_r in L'. by rewrite L'.
  - intros w rest Qw. rewrite E1.
    destruct (worker_loop_quiet K pre (w :: rest) _ W I1 Q) as (b2 & E2 & _ & L2).
    rewrite E' in E2. injection E2 as <-. rewrite L2.
    cbn [worker_loop deliver]. unfold quiet in Qw.
    destruct (sigterm_before_wait w), (postmaster_death w), (sigterm_in_wait w);
      cbn in Qw |- *; done.
Qed.

(** * Loading, unloading and the configuration *)

(** X11.  Loaded through shared_preload_libraries, the module puts its two
    hooks in place and keeps the hooks it found, asks for shared memory for
    one [MessageInfo] per error code and one [GlobalInfo], registers one
    worker that runs [logerrors_main] and its two variables; [_PG_fini]
    then puts back the hooks that [_PG_init] found.  Loaded in any other
    way [_PG_init] changes nothing at all, and [_PG_fini] then installs
    what the two statics hold, NULL in a fresh module, in place of whatever
    hooks the server has. *)
Theorem load_unload (K : Constants) (p : Loader) :
  (process_shared_preload_libraries_in_progress p = true →
   shmem_startup_hook (_PG_init K p) = Some hook_pgss_shmem_startup ∧
   emit_log_hook (_PG_init K p) = Some hook_logerrors_emit_log_hook ∧
   prev_shmem_startup_hook (_PG_init K p) = shmem_startup_hook p ∧
   prev_emit_log_hook (_PG_init K p) = emit_log_hook p ∧
   (∃ r, addin_shmem_requests (_PG_init K p) = addin_shmem_requests p ++ [r] ∧
         sizeof_MessageInfo_times r = length (error_codes K) ∧
         sizeof_GlobalInfo_times r = 1%nat) ∧
   (∃ w, background_workers (_PG_init K p) = background_workers p ++ [w] ∧
         bgw_function_name w = "logerrors_main"%string ∧ bgw_restart_time w = 10) ∧
   custom_variables (_PG_init K p)
     = custom_variables p ++ [interval_variable; intervals_count_variable] ∧
   shmem_startup_hook (_PG_fini (_PG_init K p)) = shmem_startup_hook p ∧
   emit_log_hook (_PG_fini (_PG_init K p)) = emit_log_hook p) ∧
  (process_shared_preload_libraries_in_progress p = false →
   _PG_init K p = p ∧
   (prev_shmem_startup_hook p = None → prev_emit_log_hook p = None →
    shmem_startup_hook (_PG_fini (_PG_init K p)) = None ∧
    emit_log_hook (_PG_fini (_PG_init K p)) = None)).
Proof.
  split; intros Hp; unfold _PG_init; rewrite Hp; cbn [negb].
  - cbn. split_and!; try done.
    + by eexists.
    + by eexists.
  - split; [done|]. intros H1 H2. cbn. by rewrite H1, H2.
Qed.

(** X12.  For every pair of values that the server accepts for the two
    variables of [logerrors_load_params], the region created at start-up
    with them survives every sequence of rotations, messages and resets;
    the short interval is [interval / 1000] seconds, between 1 and 60, the
    long interval is that times [intervals_count], at most 21600, without
    overflow, and the short interval is shorter than the long one, so the
    two rows of an entry differ in time_interval. *)
Theorem admitted_settings (K : Constants) (gi gc now : Z) (b0 : Backend)
    (ops : list Op) :
  wf_constants K →
  guc_admits interval_variable gi → guc_admits intervals_count_variable gc →
  ∃ b h g,
    run K ops (pgss_shmem_startup K false gi gc now b0) = Some b ∧
    messages_info_hashtable b = Some h ∧ global_variables b = Some g ∧
    short_interval g = Z.quot gi 1000 ∧ 1 ≤ short_interval g ≤ 60 ∧
    long_interval g = short_interval g * gc ∧
    short_interval g < long_interval g ≤ 21600.
Proof.
  intros W Ai Ac. unfold guc_admits in Ai, Ac. cbn in Ai, Ac.
  assert (Hgc : 1 ≤ gc ≤ 360) by lia.
  destruct (run_started K gi gc ops _ W (startup_started K gi gc now b0 W Hgc))
    as (b & Er & h & g & Hh & Hg & R & _ & _ & I & C).
  exists b, h, g. split; [done|]. split; [done|]. split; [done|].
  assert (Hs : short_interval g = Z.quot gi 1000).
  { unfold short_interval. by rewrite I. }
  assert (Hq : 1 ≤ Z.quot gi 1000 ≤ 60).
  { rewrite Z.quot_div_nonneg by lia.
    split; [apply Z.div_le_lower_bound; lia|].
    apply Z.lt_succ_r. apply Z.div_lt_upper_bound; lia. }
  assert (Hl : long_interval g = short_interval g * gc).
  { rewrite long_interval_exact.
    - unfold short_interval. by rewrite C.
    - rewrite I. unfold is_int32. lia.
    - by rewrite C. }
  split; [done|]. split; [by rewrite Hs|]. split; [done|].
  rewrite Hl, Hs. nia.
Qed.

(** * Every message in exactly one entry *)

Lemma sum_list_add {A} (f g : A → Z) (l : list A) :
  sum_list ((λ x, f x + g x) <$> l) = sum_list (f <$> l) + sum_list (g <$> l).
Proof. unfold sum_list. induction l as [|x l IH]; cbn; lia. Qed.

Lemma sum_list_zero {A} (f : A → Z) (l : list A) :
  (∀ x, x ∈ l → f x = 0) → sum_list (f <$> l) = 0.
Proof.
  unfold sum_list. induction l as [|x l IH]; intros Hf; [done|].
  cbn. rewrite (Hf x) by apply list_elem_of_here.
  rewrite IH; [done|]. intros y Hy. apply Hf. by apply list_elem_of_further.
Qed.

Lemma sum_list_ext_in {A} (f g : A → Z) (l : list A) :
  (∀ x, x ∈ l → f x = g x) → sum_list (f <$> l) = sum_list (g <$> l).
Proof.
  unfold sum_list. induction l as [|x l IH]; intros Hf; [done|].
  cbn. rewrite (Hf x) by apply list_elem_of_here.
  rewrite IH; [done|]. intros y Hy. apply Hf. by apply list_elem_of_further.
Qed.

(** One key of a list without duplicates. *)
Lemma sum_list_indicator (l : list Z) (x : Z) :
  NoDup l → x ∈ l →
  sum_list ((λ k, if decide (k = x) then 1 else 0) <$> l) = 1.
Proof.
  induction 1 as [|a l Ha Hl IH]; intros Hx.
  - by apply elem_of_nil in Hx.
  - change (sum_list ((λ k, if decide (k = x) then 1 else 0) <$> a :: l))
      with ((if decide (a = x) then 1 else 0)
            + sum_list ((λ k, if decide (k = x) then 1 else 0) <$> l)).
    destruct (decide (a = x)) as [->|Hne].
    + rewrite sum_list_zero; [done|].
      intros y Hy. rewrite decide_False; [done|]. by intros ->.
    + apply elem_of_cons in Hx as [->|Hx]; [done|]. by rewrite IH.
Qed.

(** A message of type [j] is counted in exactly one entry, a message of
    another type in none. *)
Lemma hits_partition (K : Constants) j evs :
  wf_constants K →
  sum_list ((λ k, hits K k j evs) <$> error_codes K) = typed K j evs.
Proof.
  intros W. induction evs as [|edata evs IH].
  - by apply sum_list_zero.
  - rewrite typed_cons, <- IH.
    rewrite (sum_list_ext_in (λ k, hits K k j (edata :: evs))
               (λ k, (if decide (counted_in K k j edata) then 1 else 0)
                     + hits K k j evs)) by (intros k _; apply hits_cons).
    rewrite (sum_list_add (λ k, if decide (counted_in K k j edata) then 1 else 0)
               (λ k, hits K k j evs)).
    f_equal.
    destruct (decide (elevel edata = message_types_codes K !!! j)) as [E|E].
    + set (x := if decide (sqlerrcode edata ∈ error_codes K) then sqlerrcode edata
                else not_known_error_code K).
      assert (Hx : x ∈ error_codes K).
      { unfold x. destruct (decide (sqlerrcode edata ∈ error_codes K)); [done|].
        apply (wf_not_known K W). }
      rewrite (sum_list_ext_in _ (λ k, if decide (k = x) then 1 else 0));
        [by apply sum_list_indicator; [apply (wf_codes_NoDup K W)|]|].
      intros k _.
      destruct (decide (k = x)) as [->|Hne].
      * rewrite decide_True; [done|]. by split.
      * rewrite decide_False; [done|]. intros [_ Hk]. by apply Hne.
    + apply sum_list_zero. intros k _. rewrite decide_False; [done|]. by intros [? _].
Qed.

(** X13.  No message of a tracked type is lost or counted twice.  After
    closed intervals and an open one, below 2^31 messages in all: over all
    entries, the open buckets of type [j] add up to the messages of type
    [j] in the open interval, the long-interval counts to those in the last
    [intervals_count] closed intervals, and [total_count[j]] is their
    number since start-up. *)
Theorem every_message_counted_once (K : Constants) (gi gc now : Z) (b0 : Backend)
    (j : nat) (buckets : list (list ErrorData)) (open : list ErrorData) :
  wf_constants K → 1 ≤ gc ≤ 360 → hook_active b0 →
  (j < message_types_count)%nat →
  Z.of_nat (length (concat buckets ++ open)) < 2 ^ 31 →
  ∃ b h g,
    run K (buckets_ops buckets ++ (emit <$> open))
      (pgss_shmem_startup K false gi gc now b0) = Some b ∧
    messages_info_hashtable b = Some h ∧ global_variables b = Some g ∧
    open_buckets K h j = typed K j open ∧
    long_counts K h j = typed K j (window_events gc buckets) ∧
    total_count g !!! j = typed K j (concat buckets ++ open).
Proof.
  intros W Hgc A Hj Hlt.
  destruct (window_counts K gi gc now b0 (not_known_error_code K) j buckets open
              W Hgc A (wf_not_known K W) Hj)
    as (b & h & g & _ & E & Hh & Hg & _ & _ & _ & _ & _ & Ht & _).
  exists b, h, g. split; [done|]. split; [done|]. split; [done|].
  assert (C : ∀ k, k ∈ error_codes K →
            from_option (λ info, message_count info !!! j) 0 (h !! k)
              = hits K k j open ∧
            from_option (λ info, errors_in_long_interval info j) 0 (h !! k)
              = hits K k j (window_events gc buckets)).
  { intros k Hk.
    destruct (window_counts K gi gc now b0 k j buckets open W Hgc A Hk Hj)
      as (b' & h' & g' & info & E' & Hh' & _ & Hinfo & _ & _ & _ & _ & _ & Hex).
    rewrite E in E'. injection E' as <-.
    rewrite Hh in Hh'. injection Hh' as <-.
    destruct (Hex Hlt) as (Eb & El & _). rewrite Hinfo. cbn [from_option].
    by rewrite Eb, El. }
  split; [|split].
  - unfold open_buckets. rewrite <- (hits_partition K j open W).
    apply sum_list_ext_in. intros k Hk. by destruct (C k Hk).
  - unfold long_counts. rewrite <- (hits_partition K j _ W).
    apply sum_list_ext_in. intros k Hk. by destruct (C k Hk).
  - rewrite Ht. apply uint32_id.
    pose proof (typed_bounds K j (concat buckets ++ open)).
    unfold is_uint32. lia.
Qed.

(** * The further theorems at the sample instance *)

Lemma syntax_error_registered : 16801924 ∈ error_codes sample_constants.
Proof. apply (bool_decide_unpack _). by vm_compute. Defined.

Lemma sample_trace_short :
  Z.of_nat (length (concat sample_buckets ++ sample_open)) < 2 ^ 31.
Proof. vm_compute. reflexivity. Defined.

Lemma sample_ops_no_reset : Forall (λ op, is_reset op = false) sample_ops.
Proof. repeat constructor. Defined.

Lemma scenario_start_initialized : initialized sample_constants scenario_start.
Proof.
  exists scenario_hashtable, scenario_global.
  split; [exact (proj1 scenario_start_attached)|].
  split; [exact (proj2 scenario_start_attached)|]. exact scenario_start_ready.
Defined.

Lemma sliding_window_witness :
  wf_constants sample_constants ∧ 1 ≤ 3 ≤ 360 ∧ hook_active unattached ∧
  16801924 ∈ error_codes sample_constants ∧ (1 < message_types_count)%nat ∧
  ∃ b h g info,
    run sample_constants (buckets_ops sample_buckets ++ (emit <$> sample_open))
      (pgss_shmem_startup sample_constants false 1000 3 0 unattached) = Some b ∧
    messages_info_hashtable b = Some h ∧ global_variables b = Some g ∧
    h !! 16801924 = Some info ∧
    current_interval_index g = Z.of_nat (length sample_buckets) `mod` 3 ∧
    message_count info !!! 1%nat
      = uint32 (hits sample_constants 16801924 1 sample_open) ∧
    errors_in_long_interval info 1
      = int32 (sum_list (drop (length sample_buckets - Z.to_nat 3)
                           ((λ evs, uint32 (hits sample_constants 16801924 1 evs))
                              <$> sample_buckets))) ∧
    errors_in_short_interval g info 1
      = int32 (default 0 (last ((λ evs, uint32 (hits sample_constants 16801924 1 evs))
                                  <$> sample_buckets))) ∧
    (Z.of_nat (length (concat sample_buckets ++ sample_open)) < 2 ^ 31 →
     message_count info !!! 1%nat = hits sample_constants 16801924 1 sample_open ∧
     errors_in_long_interval info 1
       = hits sample_constants 16801924 1
           (concat (drop (length sample_buckets - Z.to_nat 3) sample_buckets)) ∧
     errors_in_short_interval g info 1
       = hits sample_constants 16801924 1 (default [] (last sample_buckets))).
Proof.
  assert (H1 : 1 ≤ 3 ≤ 360) by lia.
  assert (H2 : (1 < message_types_count)%nat) by (unfold message_types_count; lia).
  split; [exact sample_constants_wf|]. split; [exact H1|].
  split; [exact unattached_active|]. split; [exact syntax_error_registered|].
  split; [exact H2|].
  exact (sliding_window sample_constants 1000 3 0 unattached 16801924 1
           sample_buckets sample_open sample_constants_wf H1 unattached_active
           syntax_error_registered H2).
Defined.

Lemma messages_between_rotations_witness :
  wf_constants sample_constants ∧
  messages_info_hashtable scenario_start = Some scenario_hashtable ∧
  global_variables scenario_start = Some scenario_global ∧
  ready sample_constants scenario_hashtable scenario_global ∧
  hook_active scenario_start ∧
  scenario_hashtable !! 16801924
    = Some (zero_entry 16801924 "ERRCODE_SYNTAX_ERROR") ∧
  (1 < message_types_count)%nat ∧
  ∃ b' h' g' info',
    run sample_constants (emit <$> sample_open) scenario_start = Some b' ∧
    messages_info_hashtable b' = Some h' ∧ global_variables b' = Some g' ∧
    h' !! 16801924 = Some info' ∧
    message_count info' !!! 1%nat
      = uint32 (message_count (zero_entry 16801924 "ERRCODE_SYNTAX_ERROR") !!! 1%nat
                + hits sample_constants 16801924 1 sample_open) ∧
    (message_count (zero_entry 16801924 "ERRCODE_SYNTAX_ERROR") !!! 1%nat
     + hits sample_constants 16801924 1 sample_open < 2 ^ 32 →
     message_count info' !!! 1%nat
     = message_count (zero_entry 16801924 "ERRCODE_SYNTAX_ERROR") !!! 1%nat
       + hits sample_constants 16801924 1 sample_open) ∧
    sum_in_buffer info' !!! 1%nat
      = sum_in_buffer (zero_entry 16801924 "ERRCODE_SYNTAX_ERROR") !!! 1%nat ∧
    intervals info' !!! 1%nat
      = intervals (zero_entry 16801924 "ERRCODE_SYNTAX_ERROR") !!! 1%nat ∧
    current_interval_index g' = current_interval_index scenario_global.
Proof.
  assert (A : hook_active scenario_start) by (split; reflexivity).
  assert (Hk : scenario_hashtable !! 16801924
               = Some (zero_entry 16801924 "ERRCODE_SYNTAX_ERROR"))
    by (vm_compute; reflexivity).
  assert (Hj : (1 < message_types_count)%nat) by (unfold message_types_count; lia).
  split; [exact sample_constants_wf|].
  split; [exact (proj1 scenario_start_attached)|].
  split; [exact (proj2 scenario_start_attached)|].
  split; [exact scenario_start_ready|]. split; [exact A|].
  split; [exact Hk|]. split; [exact Hj|].
  exact (messages_between_rotations sample_constants sample_open scenario_start
           scenario_hashtable scenario_global 16801924
           (zero_entry 16801924 "ERRCODE_SYNTAX_ERROR") 1 sample_constants_wf
           (proj1 scenario_start_attached) (proj2 scenario_start_attached)
           scenario_start_ready A Hk Hj).
Defined.

Lemma lifetime_counters_witness :
  wf_constants sample_constants ∧
  Forall (λ op, is_reset op = false) sample_ops ∧
  messages_info_hashtable scenario_start = Some scenario_hashtable ∧
  global_variables scenario_start = Some scenario_global ∧
  ready sample_constants scenario_hashtable scenario_global ∧
  hook_active scenario_start ∧
  rsinfo_is_ReturnSetInfo sample_call = true ∧
  allows_SFRM_Materialize sample_call = true ∧
  result_is_composite sample_call = true ∧
  ∃ b' g',
    run sample_constants sample_ops scenario_start = Some b' ∧
    global_variables b' = Some g' ∧
    (∀ j, (j < message_types_count)%nat →
       total_count g' !!! j
       = uint32 (total_count scenario_global !!! j
                 + typed sample_constants j (emitted sample_ops))) ∧
    count (slow_log_info g')
      = uint32 (count (slow_log_info scenario_global)
                + slow_lines (emitted sample_ops)) ∧
    reset_time (slow_log_info g') = reset_time (slow_log_info scenario_global) ∧
    interval g' = interval scenario_global ∧
    intervals_count g' = intervals_count scenario_global ∧
    pg_slow_log_stats sample_call b'
      = Returned (Some [ {| slow_count :=
                              int32 (uint32 (count (slow_log_info scenario_global)
                                             + slow_lines (emitted sample_ops)));
                            slow_reset_time :=
                              reset_time (slow_log_info scenario_global) |} ]).
Proof.
  assert (A : hook_active scenario_start) by (split; reflexivity).
  split; [exact sample_constants_wf|]. split; [exact sample_ops_no_reset|].
  split; [exact (proj1 scenario_start_attached)|].
  split; [exact (proj2 scenario_start_attached)|].
  split; [exact scenario_start_ready|]. split; [exact A|].
  split; [reflexivity|]. split; [reflexivity|]. split; [reflexivity|].
  exact (lifetime_counters sample_constants sample_call sample_ops scenario_start
           scenario_hashtable scenario_global sample_constants_wf
           sample_ops_no_reset (proj1 scenario_start_attached)
           (proj2 scenario_start_attached) scenario_start_ready A
           eq_refl eq_refl eq_refl).
Defined.

Lemma unknown_codes_logged_witness :
  wf_constants sample_constants ∧
  Forall (λ op, is_reset op = false) sample_ops ∧
  messages_info_hashtable scenario_start = Some scenario_hashtable ∧
  global_variables scenario_start = Some scenario_global ∧
  ready sample_constants scenario_hashtable scenario_global ∧
  hook_active scenario_start ∧
  ∃ b',
    run sample_constants sample_ops scenario_start = Some b' ∧
    server_log b'
      = server_log scenario_start
        ++ ((λ edata, not_known_error_code_line (sqlerrcode edata))
              <$> filter (unknown_tracked sample_constants) (emitted sample_ops)).
Proof.
  assert (A : hook_active scenario_start) by (split; reflexivity).
  split; [exact sample_constants_wf|]. split; [exact sample_ops_no_reset|].
  split; [exact (proj1 scenario_start_attached)|].
  split; [exact (proj2 scenario_start_attached)|].
  split; [exact scenario_start_ready|]. split; [exact A|].
  exact (unknown_codes_logged sample_constants sample_ops scenario_start
           scenario_hashtable scenario_global sample_constants_wf
           sample_ops_no_reset (proj1 scenario_start_attached)
           (proj2 scenario_start_attached) scenario_start_ready A).
Defined.

Lemma guarded_hook_counts_nothing_witness :
  (messages_info_hashtable unattached = None ∨ global_variables unattached = None ∨
   MyProc unattached = false ∨ proc_exit_inprogress unattached = true) ∧
  run sample_constants (emit <$> sample_open) unattached = Some unattached.
Proof.
  assert (G : messages_info_hashtable unattached = None ∨
              global_variables unattached = None ∨
              MyProc unattached = false ∨ proc_exit_inprogress unattached = true)
    by (left; reflexivity).
  split; [exact G|].
  exact (guarded_hook_counts_nothing sample_constants sample_open unattached G).
Defined.

Lemma shared_region_shape_witness :
  wf_constants sample_constants ∧ 1 ≤ 3 ≤ 360 ∧
  ∃ b h g,
    run sample_constants late_slot_run
      (pgss_shmem_startup sample_constants false 1000 3 0 unattached) = Some b ∧
    messages_info_hashtable b = Some h ∧ global_variables b = Some g ∧
    (∀ k, is_Some (h !! k) ↔ k ∈ error_codes sample_constants) ∧
    (∀ i k, error_codes sample_constants !! i = Some k →
       ∃ info, h !! k = Some info ∧ key info = k ∧
               name info = error_names sample_constants !!! i) ∧
    interval g = 1000 ∧ intervals_count g = 3 ∧
    0 ≤ current_interval_index g < 3 ∧
    ∀ k info j i, h !! k = Some info → (j < message_types_count)%nat →
      (Z.to_nat 3 ≤ i < 360)%nat → (intervals info !!! j) !!! i = 0.
Proof.
  assert (H1 : 1 ≤ 3 ≤ 360) by lia.
  split; [exact sample_constants_wf|]. split; [exact H1|].
  exact (shared_region_shape sample_constants 1000 3 0 unattached late_slot_run
           sample_constants_wf H1).
Defined.

Lemma short_ring_reset_witness :
  wf_constants sample_constants ∧ 1 ≤ 3 ≤ 90 ∧
  ∃ b1 b,
    run sample_constants sample_ops
      (pgss_shmem_startup sample_constants false 1000 3 0 unattached) = Some b1 ∧
    pg_log_errors_reset sample_constants 7 b1 = (b, Returned ()) ∧
    messages_info_hashtable b
      = messages_info_hashtable
          (pgss_shmem_startup sample_constants false 1000 3 7 unattached) ∧
    global_variables b
      = global_variables
          (pgss_shmem_startup sample_constants false 1000 3 7 unattached).
Proof.
  assert (H1 : 1 ≤ 3 ≤ 90) by lia.
  split; [exact sample_constants_wf|]. split; [exact H1|].
  exact (short_ring_reset sample_constants 1000 3 0 7 unattached sample_ops
           sample_constants_wf H1).
Defined.

Lemma report_after_trace_witness :
  wf_constants sample_constants ∧ is_int32 1000 ∧ 1 ≤ 3 ≤ 360 ∧
  hook_active unattached ∧
  Z.of_nat (length (concat sample_buckets ++ sample_open)) < 2 ^ 31 ∧
  rsinfo_is_ReturnSetInfo sample_call = true ∧
  allows_SFRM_Materialize sample_call = true ∧
  result_is_composite sample_call = true ∧
  ∃ b,
    run sample_constants (buckets_ops sample_buckets ++ (emit <$> sample_open))
      (pgss_shmem_startup sample_constants false 1000 3 0 unattached) = Some b ∧
    pg_log_errors_stats sample_constants sample_call b
      = Returned (expected_rows sample_constants 1000 3 sample_buckets sample_open).
Proof.
  assert (H0 : is_int32 1000) by (unfold is_int32; lia).
  assert (H1 : 1 ≤ 3 ≤ 360) by lia.
  split; [exact sample_constants_wf|]. split; [exact H0|]. split; [exact H1|].
  split; [exact unattached_active|]. split; [exact sample_trace_short|].
  split; [reflexivity|]. split; [reflexivity|]. split; [reflexivity|].
  exact (report_after_trace sample_constants sample_call 1000 3 0 unattached
           sample_buckets sample_open sample_constants_wf H0 H1 unattached_active
           sample_trace_short eq_refl eq_refl eq_refl).
Defined.

Lemma short_count_within_long_count_witness :
  wf_constants sample_constants ∧ 1 ≤ 3 ≤ 360 ∧ hook_active unattached ∧
  16801924 ∈ error_codes sample_constants ∧ (1 < message_types_count)%nat ∧
  Z.of_nat (length (concat sample_buckets ++ sample_open)) < 2 ^ 31 ∧
  ∃ b h g info,
    run sample_constants (buckets_ops sample_buckets ++ (emit <$> sample_open))
      (pgss_shmem_startup sample_constants false 1000 3 0 unattached) = Some b ∧
    messages_info_hashtable b = Some h ∧ global_variables b = Some g ∧
    h !! 16801924 = Some info ∧
    0 ≤ errors_in_short_interval g info 1 ≤ errors_in_long_interval info 1 ∧
    (short_row sample_constants g info 1 ∈ entry_rows sample_constants g info 1 →
     long_row sample_constants g info 1 ∈ entry_rows sample_constants g info 1).
Proof.
  assert (H1 : 1 ≤ 3 ≤ 360) by lia.
  assert (H2 : (1 < message_types_count)%nat) by (unfold message_types_count; lia).
  split; [exact sample_constants_wf|]. split; [exact H1|].
  split; [exact unattached_active|]. split; [exact syntax_error_registered|].
  split; [exact H2|]. split; [exact sample_trace_short|].
  exact (short_count_within_long_count sample_constants 1000 3 0 unattached
           16801924 1 sample_buckets sample_open sample_constants_wf H1
           unattached_active syntax_error_registered H2 sample_trace_short).
Defined.

Lemma worker_rotations_witness :
  wf_constants sample_constants ∧ initialized sample_constants scenario_start ∧
  Forall (λ w, quiet w = true) [timeout_wakeup; timeout_wakeup] ∧
  ∃ b',
    run sample_constants
      (reset 7 :: replicate (length [timeout_wakeup; timeout_wakeup]) tick)
      scenario_start = Some b' ∧
    logerrors_main sample_constants 7 [timeout_wakeup; timeout_wakeup] scenario_start
      = Some (b', waiting) ∧
    ∀ w rest, quiet w = false →
      logerrors_main sample_constants 7
        ([timeout_wakeup; timeout_wakeup] ++ w :: rest) scenario_start
      = Some (b', proc_exit (if negb (sigterm_before_wait w) && postmaster_death w
                             then 1 else 0)).
Proof.
  assert (Q : Forall (λ w, quiet w = true) [timeout_wakeup; timeout_wakeup])
    by (repeat constructor).
  split; [exact sample_constants_wf|]. split; [exact scenario_start_initialized|].
  split; [exact Q|].
  exact (worker_rotations sample_constants 7 [timeout_wakeup; timeout_wakeup]
           scenario_start sample_constants_wf scenario_start_initialized Q).
Defined.

Lemma load_unload_witness :
  process_shared_preload_libraries_in_progress sample_loader = true ∧
  shmem_startup_hook (_PG_fini (_PG_init sample_constants sample_loader))
    = shmem_startup_hook sample_loader ∧
  emit_log_hook (_PG_fini (_PG_init sample_constants sample_loader))
    = emit_log_hook sample_loader.
Proof.
  split; [reflexivity|].
  destruct (proj1 (load_unload sample_constants sample_loader) eq_refl)
    as (_ & _ & _ & _ & _ & _ & _ & H1 & H2).
  exact (conj H1 H2).
Defined.

Lemma admitted_settings_witness :
  wf_constants sample_constants ∧
  guc_admits interval_variable 5000 ∧ guc_admits intervals_count_variable 120 ∧
  ∃ b h g,
    run sample_constants late_slot_run
      (pgss_shmem_startup sample_constants false 5000 120 0 unattached) = Some b ∧
    messages_info_hashtable b = Some h ∧ global_variables b = Some g ∧
    short_interval g = Z.quot 5000 1000 ∧ 1 ≤ short_interval g ≤ 60 ∧
    long_interval g = short_interval g * 120 ∧
    short_interval g < long_interval g ≤ 21600.
Proof.
  assert (Ai : guc_admits interval_variable 5000)
    by (unfold guc_admits; simpl; lia).
  assert (Ac : guc_admits intervals_count_variable 120)
    by (unfold guc_admits; simpl; lia).
  split; [exact sample_constants_wf|]. split; [exact Ai|]. split; [exact Ac|].
  exact (admitted_settings sample_constants 5000 120 0 unattached late_slot_run
           sample_constants_wf Ai Ac).
Defined.

Lemma every_message_counted_once_witness :
  wf_constants sample_constants ∧ 1 ≤ 3 ≤ 360 ∧ hook_active unattached ∧
  (1 < message_types_count)%nat ∧
  Z.of_nat (length (concat sample_buckets ++ sample_open)) < 2 ^ 31 ∧
  ∃ b h g,
    run sample_constants (buckets_ops sample_buckets ++ (emit <$> sample_open))
      (pgss_shmem_startup sample_constants false 1000 3 0 unattached) = Some b ∧
    messages_info_hashtable b = Some h ∧ global_variables b = Some g ∧
    open_buckets sample_constants h 1 = typed sample_constants 1 sample_open ∧
    long_counts sample_constants h 1
      = typed sample_constants 1 (window_events 3 sample_buckets) ∧
    total_count g !!! 1%nat
      = typed sample_constants 1 (concat sample_buckets ++ sample_open).
Proof.
  assert (H1 : 1 ≤ 3 ≤ 360) by lia.
  assert (H2 : (1 < message_types_count)%nat) by (unfold message_types_count; lia).
  split; [exact sample_constants_wf|]. split; [exact H1|].
  split; [exact unattached_active|]. split; [exact H2|].
  split; [exact sample_trace_short|].
  exact (every_message_counted_once sample_constants 1000 3 0 unattached 1
           sample_buckets sample_open sample_constants_wf H1 unattached_active H2
           sample_trace_short).
Defined.
